(** * mynewsreporter: content processing, scoring and aggregation

    A shallow embedding of the Python back end
    ([backend/src/modules/data_processing] and
    [backend/src/modules/report_generation]) together with the properties
    its specification states about it.

    Conventions of the embedding.
    - A Python [str] is a list of Unicode code points ([pystr]); string
      literals of the source are written as UTF-8 literals and decoded by
      [u].
    - A Python [float] that holds a score is a rational ([Q]); the scores
      of the program are built from decimal constants with [+], [*],
      [min], [max] and comparisons only, apart from [math.log10], which is
      a parameter of the scorer.
    - A [datetime] is the instant it denotes, in microseconds since the
      epoch, together with whether it carries a time zone; the instant of
      a naive [datetime] is the one it denotes when read as UTC, as the
      source reads it with [replace(tzinfo=timezone.utc)].  A naive and an
      aware [datetime] are unequal and cannot be ordered or subtracted.
      [datetime.now] is an argument.
    - An exception is a value of [exn]; code inside [try]/[except] is
      written in the [result] monad and the handler is [try_except]. *)

From Stdlib Require Import ZArith QArith Qround Lia Lqa List String Ascii Bool.
From Stdlib Require Import Sorting.Sorted Sorting.Permutation.
From stdpp Require Import base option list gmap.

Import ListNotations.
Open Scope Z_scope.
Set Warnings "-register-all,-clear-no-such-hyp".

(** ** Python strings *)

Module PyStr.

(** A code point. *)
Definition cp := N.

(** A Python [str]. *)
Definition pystr := list N.

(** UTF-8 decoding of a literal: [pending] continuation bytes are still
    expected for the code point accumulated in [acc]. *)
Fixpoint utf8_decode (bytes : list N) (pending : nat) (acc : N) : pystr :=
  match bytes with
  | [] => []
  | b :: rest =>
      match pending with
      | O =>
          if (b <? 128)%N then b :: utf8_decode rest 0 0%N
          else if (b <? 224)%N then utf8_decode rest 1 (b - 192)%N
          else if (b <? 240)%N then utf8_decode rest 2 (b - 224)%N
          else utf8_decode rest 3 (b - 240)%N
      | S O => (acc * 64 + (b - 128))%N :: utf8_decode rest 0 0%N
      | S p => utf8_decode rest p (acc * 64 + (b - 128))%N
      end
  end.

Fixpoint bytes_of (s : string) : list N :=
  match s with
  | EmptyString => []
  | String a rest => N_of_ascii a :: bytes_of rest
  end.

(** The [str] denoted by a literal of the source. *)
Definition u (s : string) : pystr := utf8_decode (bytes_of s) 0 0%N.

(** [len(s)]. *)
Definition len (s : pystr) : Z := Z.of_nat (length s).

(** [s.startswith(p)]. *)
Fixpoint startswith (p s : pystr) : bool :=
  match p, s with
  | [], _ => true
  | _ :: _, [] => false
  | a :: p', b :: s' => (a =? b)%N && startswith p' s'
  end.

(** [p in s] on strings: [p] occurs in [s] as a contiguous substring. *)
Fixpoint contains (p s : pystr) : bool :=
  startswith p s ||
  match s with
  | [] => false
  | _ :: s' => contains p s'
  end.

(** [str.isspace] of one character (Unicode 14, CPython 3.11). *)
Definition is_space (c : N) : bool :=
  ((9 <=? c) && (c <=? 13) || (28 <=? c) && (c <=? 32) || (c =? 133)
   || (c =? 160) || (c =? 5760) || (8192 <=? c) && (c <=? 8202)
   || (c =? 8232) || (c =? 8233) || (c =? 8239) || (c =? 8287)
   || (c =? 12288))%N.

(** The ranges of the characters for which [str.isdigit] holds. *)
Definition digit_ranges : list (N * N) :=
  [(48, 57); (178, 179); (185, 185); (1632, 1641); (1776, 1785);
   (1984, 1993); (2406, 2415); (2534, 2543); (2662, 2671); (2790, 2799);
   (2918, 2927); (3046, 3055); (3174, 3183); (3302, 3311); (3430, 3439);
   (3558, 3567); (3664, 3673); (3792, 3801); (3872, 3881); (4160, 4169);
   (4240, 4249); (4969, 4977); (6112, 6121); (6160, 6169); (6470, 6479);
   (6608, 6618); (6784, 6793); (6800, 6809); (6992, 7001); (7088, 7097);
   (7232, 7241); (7248, 7257); (8304, 8304); (8308, 8313); (8320, 8329);
   (9312, 9320); (9332, 9340); (9352, 9360); (9450, 9450); (9461, 9469);
   (9471, 9471); (10102, 10110); (10112, 10120); (10122, 10130);
   (42528, 42537); (43216, 43225); (43264, 43273); (43472, 43481);
   (43504, 43513); (43600, 43609); (44016, 44025); (65296, 65305);
   (66720, 66729); (68160, 68163); (68912, 68921); (69216, 69224);
   (69714, 69722); (69734, 69743); (69872, 69881); (69942, 69951);
   (70096, 70105); (70384, 70393); (70736, 70745); (70864, 70873);
   (71248, 71257); (71360, 71369); (71472, 71481); (71904, 71913);
   (72016, 72025); (72784, 72793); (73040, 73049); (73120, 73129);
   (92768, 92777); (92864, 92873); (93008, 93017); (120782, 120831);
   (123200, 123209); (123632, 123641); (125264, 125273);
   (127232, 127242); (130032, 130041)]%N.

Definition is_digit_cp (c : N) : bool :=
  existsb (fun r => (fst r <=? c) && (c <=? snd r))%N digit_ranges.

(** [s.isdigit()]: non-empty and every character is a digit. *)
Definition isdigit (s : pystr) : bool :=
  match s with
  | [] => false
  | _ => forallb is_digit_cp s
  end.

(** [s.lstrip()], [s.rstrip()] and [s.strip()]. *)
Fixpoint lstrip (s : pystr) : pystr :=
  match s with
  | c :: s' => if is_space c then lstrip s' else s
  | [] => []
  end.

Definition rstrip (s : pystr) : pystr := rev (lstrip (rev s)).

Definition strip (s : pystr) : pystr := rstrip (lstrip s).

(** [s.split(sep)] for a one-character separator: the pieces between the
    occurrences of [sep]; never empty. *)
Fixpoint split_on (sep : N) (s : pystr) : list pystr :=
  match s with
  | [] => [[]]
  | c :: s' =>
      if (c =? sep)%N then [] :: split_on sep s'
      else match split_on sep s' with
           | piece :: pieces => (c :: piece) :: pieces
           | [] => [[c]]
           end
  end.

(** [sep.join(pieces)]. *)
Fixpoint join (sep : pystr) (pieces : list pystr) : pystr :=
  match pieces with
  | [] => []
  | [p] => p
  | p :: rest => p ++ sep ++ join sep rest
  end.

(** [s.split()]: the maximal runs of non-space characters.  [cur] is the
    run being read, in reverse. *)
Fixpoint split_ws_aux (s : pystr) (cur : pystr) : list pystr :=
  match s with
  | [] => match cur with [] => [] | _ => [rev cur] end
  | c :: s' =>
      if is_space c
      then match cur with
           | [] => split_ws_aux s' []
           | _ => rev cur :: split_ws_aux s' []
           end
      else split_ws_aux s' (c :: cur)
  end.

Definition split_ws (s : pystr) : list pystr := split_ws_aux s [].

(** [s.replace(old, '')] for a non-empty [old]: the leftmost occurrences
    are removed, scanning left to right without overlap.  [skip] counts the
    characters of the occurrence being removed that are still to drop. *)
Fixpoint remove_all_aux (old : pystr) (s : pystr) (skip : nat) : pystr :=
  match s with
  | [] => []
  | c :: s' =>
      match skip with
      | S k => remove_all_aux old s' k
      | O =>
          if startswith old s
          then remove_all_aux old s' (length old - 1)
          else c :: remove_all_aux old s' 0
      end
  end.

Definition remove_all (old s : pystr) : pystr :=
  match old with
  | [] => s
  | _ => remove_all_aux old s 0
  end.

(** [l[:stop]], on strings and on lists: a negative [stop] counts from
    the end. *)
Definition slice_to {A : Type} (l : list A) (stop : Z) : list A :=
  if (0 <=? stop)%Z then take (Z.to_nat stop) l
  else take (Z.to_nat (Z.of_nat (length l) + stop)) l.

(** [s.rfind(c)] for a one-character [c]: the index of its last
    occurrence, or -1.  [i] is the index of the head of [s] and [found] the
    last occurrence before it. *)
Fixpoint rfind_from (c : N) (s : pystr) (i found : Z) : Z :=
  match s with
  | [] => found
  | x :: s' => rfind_from c s' (i + 1)%Z (if (x =? c)%N then i else found)
  end.

Definition rfind (c : N) (s : pystr) : Z := rfind_from c s 0%Z (-1)%Z.

(** [str.lower] on the ASCII letters.  The scorer and the aggregator take
    [str.lower] as a parameter; this is the instance used to evaluate them
    on ASCII and CJK text, where it agrees with CPython. *)
Definition ascii_lower_cp (c : N) : N :=
  if ((65 <=? c) && (c <=? 90))%N then (c + 32)%N else c.

(** A superset of the characters for which [str.isalpha] holds: the ASCII
    letters and every character outside ASCII. *)
Definition may_be_alphabetic (c : N) : bool :=
  ((65 <=? c) && (c <=? 90) || (97 <=? c) && (c <=? 122) || (128 <=? c))%N.

Definition ascii_lower (s : pystr) : pystr := map ascii_lower_cp s.

End PyStr.

Import PyStr.

(** ** Exceptions and dynamically typed values *)

Inductive exn : Type :=
  | TypeError
  | AttributeError
  | ConnectionError.

Inductive result (A : Type) : Type :=
  | Ok (a : A)
  | Raise (e : exn).

Arguments Ok {A} a.
Arguments Raise {A} e.

#[global] Instance result_ret : MRet result := fun A a => Ok a.

#[global] Instance result_bind : MBind result := fun A B k r =>
  match r with
  | Ok a => k a
  | Raise e => Raise e
  end.

(** [try: body except Exception as e: handler]. *)
Definition try_except {A : Type} (body : result A) (handler : exn -> A) : A :=
  match body with
  | Ok a => a
  | Raise e => handler e
  end.

(** A [datetime].  [instant] is the time it denotes in microseconds since
    the epoch, a naive one being read as UTC; [aware] tells whether it
    carries a time zone. *)
Record datetime : Type := mkDatetime {
  instant : Z;
  aware : bool
}.

(** An aware [datetime] at an instant, such as
    [datetime.now(timezone.utc)]. *)
Definition utc (t : Z) : datetime := {| instant := t; aware := true |}.

(** [a == b] on two [datetime]s: a naive one and an aware one are never
    equal. *)
Definition datetime_eq (a b : datetime) : bool :=
  Bool.eqb (aware a) (aware b) && (instant a =? instant b).

(** [a < b] on two [datetime]s; [a > b] is [datetime_lt b a].  A naive
    one and an aware one cannot be ordered. *)
Definition datetime_lt (a b : datetime) : result bool :=
  if Bool.eqb (aware a) (aware b) then Ok (instant a <? instant b)
  else Raise TypeError.

(** [a <= b] on two [datetime]s. *)
Definition datetime_le (a b : datetime) : result bool :=
  if Bool.eqb (aware a) (aware b) then Ok (instant a <=? instant b)
  else Raise TypeError.

(** [a - b] on two [datetime]s: the [timedelta] in microseconds. *)
Definition datetime_sub (a b : datetime) : result Z :=
  if Bool.eqb (aware a) (aware b) then Ok (instant a - instant b)
  else Raise TypeError.

(** A Python value whose type the program does not fix: what a [Dict[str,
    Any]] holds, what an attribute probed with [hasattr] holds, and what a
    filter compares.  [VObj] is an instance of a schema class, given by its
    data attributes; [VDict] is a [dict] with [str] keys, in insertion
    order.  [VOther] is an object that is no data: a bound method, a
    function or a class, which has no order, no elements and no numeric
    value and is equal to itself only; [id] tells it from the other such
    objects. *)
Inductive pyval : Type :=
  | VNone
  | VBool (b : bool)
  | VNum (q : Q)
  | VStr (s : pystr)
  | VTime (t : datetime)
  | VList (l : list pyval)
  | VDict (d : list (pystr * pyval))
  | VObj (fields : list (pystr * pyval))
  | VOther (id : N).

(** [d.get(key, default)] on an insertion-ordered dictionary. *)
Fixpoint dict_get {V : Type} (d : list (pystr * V)) (key : pystr) : option V :=
  match d with
  | [] => None
  | (k, v) :: d' => if decide (k = key) then Some v else dict_get d' key
  end.

(** The number a value stands for in arithmetic ([bool] is a subclass of
    [int]); anything else is a [TypeError]. *)
Definition as_number (v : pyval) : result Q :=
  match v with
  | VNum q => Ok q
  | VBool true => Ok 1%Q
  | VBool false => Ok 0%Q
  | _ => Raise TypeError
  end.

(** [max(a, b)] and [min(a, b)] on numbers: the first argument unless the
    second is strictly greater (smaller). *)
Definition py_max (a b : Q) : Q := if Qle_bool b a then a else b.
Definition py_min (a b : Q) : Q := if Qle_bool a b then a else b.

(** ** The schema classes ([models/schemas.py]) *)

Record Keyword : Type := mkKeyword {
  term : pystr;
  score : Q;
  type_ : option pystr
}.

Record Entity : Type := mkEntity {
  text : pystr;
  label : pystr;
  confidence : Q
}.

(** [ProcessedContent].  [quality_score] and [entities] are the attributes
    the scorer probes with [hasattr]: [None] is an instance without the
    attribute, and [quality_score] holds whatever was assigned to it. *)
Record ProcessedContent : Type := mkProcessedContent {
  content_id : pystr;
  title : pystr;
  cleaned_content : pystr;
  summary : option pystr;
  keywords : list Keyword;
  entities : option (list Entity);
  categories : list pystr;
  tags : list pystr;
  importance_score : Q;
  quality_score : option pyval;
  sentiment : option (list (pystr * pyval));
  source : option pystr;
  author : option pystr;
  publish_time : option datetime;
  url : option pystr;
  extracted_links : list pystr;
  source_authority : Q;
  engagement_metrics : option (list (pystr * pyval));
  processing_time : option datetime
}.

(** The assignment [content.importance_score = s]. *)
Definition set_importance_score (c : ProcessedContent) (s : Q) : ProcessedContent :=
  {| content_id := content_id c;
     title := title c;
     cleaned_content := cleaned_content c;
     summary := summary c;
     keywords := keywords c;
     entities := entities c;
     categories := categories c;
     tags := tags c;
     importance_score := s;
     quality_score := quality_score c;
     sentiment := sentiment c;
     source := source c;
     author := author c;
     publish_time := publish_time c;
     url := url c;
     extracted_links := extracted_links c;
     source_authority := source_authority c;
     engagement_metrics := engagement_metrics c;
     processing_time := processing_time c |}.

(** The same document with another [publish_time]. *)
Definition set_publish_time (c : ProcessedContent) (t : option datetime)
    : ProcessedContent :=
  {| content_id := content_id c;
     title := title c;
     cleaned_content := cleaned_content c;
     summary := summary c;
     keywords := keywords c;
     entities := entities c;
     categories := categories c;
     tags := tags c;
     importance_score := importance_score c;
     quality_score := quality_score c;
     sentiment := sentiment c;
     source := source c;
     author := author c;
     publish_time := t;
     url := url c;
     extracted_links := extracted_links c;
     source_authority := source_authority c;
     engagement_metrics := engagement_metrics c;
     processing_time := processing_time c |}.

(** ** ContentScorer ([data_processing/content_scorer.py]) *)

Module ContentScorer.

(** [self.weights]. *)
Definition w_timeliness : Q := 0.25.
Definition w_authority : Q := 0.20.
Definition w_relevance : Q := 0.20.
Definition w_engagement : Q := 0.15.
Definition w_quality : Q := 0.10.
Definition w_uniqueness : Q := 0.10.

(** [self.authority_sources], in insertion order. *)
Definition authority_sources : list (pystr * Q) :=
  [(u "openai", 1.0); (u "google", 0.95); (u "microsoft", 0.95);
   (u "meta", 0.9); (u "deepmind", 0.95); (u "anthropic", 0.9);
   (u "nvidia", 0.85);
   (u "techcrunch", 0.8); (u "verge", 0.75); (u "wired", 0.75);
   (u "mit technology review", 0.85); (u "ieee", 0.85);
   (u "arxiv", 0.9); (u "nature", 0.95); (u "science", 0.95);
   (u "新华社", 0.85); (u "人民日报", 0.85); (u "中科院", 0.9);
   (u "清华大学", 0.85); (u "北京大学", 0.85)]%Q.

(** [self.important_keywords], in insertion order. *)
Definition important_keywords : list (pystr * Q) :=
  [(u "breakthrough", 1.0); (u "revolutionary", 0.9);
   (u "state-of-the-art", 0.85); (u "novel", 0.8); (u "significant", 0.75);
   (u "突破", 1.0); (u "革命性", 0.9); (u "重大", 0.85); (u "创新", 0.8);
   (u "首次", 0.85); (u "最新", 0.7)]%Q.

(** [timedelta(hours=h)] and [timedelta(days=d)], in microseconds. *)
Definition hours (h : Z) : Z := h * 3600 * 1000000.
Definition days (d : Z) : Z := d * 24 * 3600 * 1000000.

(** [_calculate_timeliness], with [datetime.now(timezone.utc)] as [now].
    [publish_time] is the instant of the argument: the function makes a
    naive argument aware with [replace(tzinfo=timezone.utc)], which keeps
    the instant, and reads nothing but the age [now - publish_time]. *)
Definition _calculate_timeliness (now : Z) (publish_time : option Z) : Q :=
  match publish_time with
  | None => 0.3%Q
  | Some pt =>
      let age := now - pt in
      if age <? hours 1 then 1.0%Q
      else if age <? hours 6 then 0.9%Q
      else if age <? days 1 then 0.8%Q
      else if age <? days 3 then 0.6%Q
      else if age <? days 7 then 0.4%Q
      else if age <? days 30 then 0.2%Q
      else 0.1%Q
  end.

(** The loop of [_calculate_authority] over the table: the score of the
    first key, in table order, that occurs in [source_lower]. *)
Fixpoint first_match (table : list (pystr * Q)) (source_lower : pystr) : option Q :=
  match table with
  | [] => None
  | (authority_source, score) :: table' =>
      if contains authority_source source_lower then Some score
      else first_match table' source_lower
  end.

Section Scorer.

(** [str.lower] and [math.log10]. *)
Variable lower : pystr -> pystr.
Variable log10 : Q -> Q.

(** [_calculate_authority]. *)
Definition _calculate_authority (source : option pystr) (base_authority : Q) : Q :=
  match source with
  | None | Some [] => base_authority
  | Some src =>
      let source_lower := lower src in
      match first_match authority_sources source_lower with
      | Some score => py_max score base_authority
      | None =>
          if Qlt_le_dec 0 base_authority then base_authority else 0.5%Q
      end
  end.

Definition ai_keywords : list pystr :=
  [u "ai"; u "artificial intelligence"; u "人工智能"; u "machine learning";
   u "机器学习"; u "deep learning"; u "深度学习"; u "neural"; u "神经"].

Definition ai_categories : list pystr :=
  [u "技术"; u "研究"; u "AI"; u "人工智能"; u "Technology"; u "Research"].

(** [_calculate_relevance]. *)
Definition _calculate_relevance (kws : list Keyword) (cats : list pystr) : Q :=
  let score := 0.5%Q in
  let score :=
    match kws with
    | [] => score
    | _ =>
        let keyword_terms := map (fun kw => lower (term kw)) kws in
        let ai_keyword_count :=
          length (filter (fun t => existsb (fun ai_kw => contains ai_kw t) ai_keywords = true)
                         keyword_terms) in
        if (0 <? ai_keyword_count)%nat
        then (score + py_min 0.3 (inject_Z (Z.of_nat ai_keyword_count) * 0.1))%Q
        else score
    end in
  let score :=
    match cats with
    | [] => score
    | _ =>
        if existsb (fun cat => bool_decide (cat ∈ ai_categories)) cats
        then (score + 0.2)%Q else score
    end in
  py_min 1.0 score.

(** One metric of [_calculate_engagement]:
    [math.log10(max(1, metrics.get(name, 0))) / denominator]. *)
Definition metric_score (metrics : list (pystr * pyval)) (name : pystr)
    (denominator : Q) : result Q :=
  match default (VNum 0) (dict_get metrics name) with
  | VNum q => Ok (log10 (if Qlt_le_dec 1 q then q else 1) / denominator)%Q
  | VBool _ => Ok (log10 1 / denominator)%Q
  | _ => Raise TypeError
  end.

(** [_calculate_engagement]. *)
Definition _calculate_engagement (metrics : option (list (pystr * pyval))) : Q :=
  match metrics with
  | None | Some [] => 0.5
  | Some m =>
      try_except
        (view_score ← metric_score m (u "views") 6 ;
         share_score ← metric_score m (u "shares") 4 ;
         comment_score ← metric_score m (u "comments") 3 ;
         like_score ← metric_score m (u "likes") 5 ;
         let engagement_score :=
           (view_score * 0.2 + share_score * 0.3
            + comment_score * 0.3 + like_score * 0.2)%Q in
         Ok (py_max 0.0 (py_min 1.0 engagement_score)))
        (fun _ => 0.5)
  end%Q.

Definition unique_terms : list pystr :=
  [u "首次"; u "first"; u "创新"; u "innovative"; u "突破"; u "breakthrough";
   u "新型"; u "novel"; u "独家"; u "exclusive"; u "原创"; u "original"].

(** [_calculate_uniqueness]. *)
Definition _calculate_uniqueness (kws : list Keyword) : Q :=
  match kws with
  | [] => 0.5
  | _ =>
      let keyword_terms := map (fun kw => lower (term kw)) kws in
      let unique_score :=
        fold_left
          (fun acc t =>
             if existsb (fun kw_term => contains t kw_term) keyword_terms
             then acc + 0.1 else acc)
          unique_terms 0.5 in
      py_min 1.0 unique_score
  end%Q.

(** [_calculate_boost_factor]. *)
Definition _calculate_boost_factor (content : ProcessedContent) : result Q :=
  (let boost := 1.0%Q in
   let boost :=
     match title content with
     | [] => boost
     | t =>
         let title_lower := lower t in
         fold_left
           (fun b kf =>
              if contains (fst kf) title_lower
              then py_max b (1.0 + (snd kf - 1.0) * 0.5)%Q else b)
           important_keywords boost
     end in
   let boost :=
     match entities content with
     | Some ((_ :: _) as es) =>
         let org_entities := filter (fun e => label e = u "ORG") es in
         if (3 <=? length org_entities)%nat then (boost * 1.1)%Q else boost
     | _ => boost
     end in
   match quality_score content with
   | None => Ok boost
   | Some v =>
       q ← as_number v ;
       Ok (if Qlt_le_dec 0.8 q then (boost * 1.05)%Q else boost)
   end).

(** The body of the [try] block of [calculate_importance]. *)
Definition importance_body (now : Z) (content : ProcessedContent) : result Q :=
  (let s_timeliness :=
     _calculate_timeliness now (instant <$> publish_time content) in
   let s_authority :=
     _calculate_authority (source content) (source_authority content) in
   let s_relevance := _calculate_relevance (keywords content) (categories content) in
   let s_engagement := _calculate_engagement (engagement_metrics content) in
   let s_quality := default (VNum 0.5) (quality_score content) in
   let s_uniqueness := _calculate_uniqueness (keywords content) in
   let total_score := 0.0%Q in
   let total_score := (total_score + s_timeliness * w_timeliness)%Q in
   let total_score := (total_score + s_authority * w_authority)%Q in
   let total_score := (total_score + s_relevance * w_relevance)%Q in
   let total_score := (total_score + s_engagement * w_engagement)%Q in
   q ← as_number s_quality ;
   let total_score := (total_score + q * w_quality)%Q in
   let total_score := (total_score + s_uniqueness * w_uniqueness)%Q in
   boost_factor ← _calculate_boost_factor content ;
   let total_score := (total_score * boost_factor)%Q in
   Ok (py_max 0.0 (py_min 1.0 total_score))).

(** [calculate_importance]. *)
Definition calculate_importance (now : Z) (content : ProcessedContent) : Q :=
  try_except (importance_body now content) (fun _ => 0.5%Q).

End Scorer.

End ContentScorer.

(** ** ContentCleaner ([data_processing/content_cleaner.py]) *)

Module ContentCleaner.

(** [CleaningResult]. *)
Record CleaningResult : Type := mkCleaningResult {
  cr_cleaned_content : pystr;
  cr_extracted_links : list pystr;
  cr_quality_score : Q
}.

(** [self.noise_words]. *)
Definition noise_words : list pystr :=
  [u "点击这里"; u "查看更多"; u "立即购买"; u "免费下载"; u "广告"].

(** [re.sub(r'([...])\1+', r'\1', text)]: a run of one character of the
    class [cls] repeated is replaced by a single occurrence. *)
Fixpoint collapse_repeats (cls : list N) (text : pystr) : pystr :=
  match text with
  | [] => []
  | c :: rest =>
      match rest with
      | c' :: _ =>
          if (c =? c')%N && existsb (N.eqb c) cls
          then collapse_repeats cls rest
          else c :: collapse_repeats cls rest
      | [] => [c]
      end
  end.

(** The test of the line loop of [remove_noise]:
    [len(line) > 10 or (line and not line.isdigit())]. *)
Definition keep_line (line : pystr) : bool :=
  (10 <? len line) ||
  (match line with [] => false | _ => true end && negb (isdigit line)).

(** The lines of the text after the noise words and the repeated
    punctuation are removed, each one stripped. *)
Definition stripped_lines (text : pystr) : list pystr :=
  let text := fold_left (fun t word => remove_all word t) noise_words text in
  let text := collapse_repeats (u "。！？") text in
  let text := collapse_repeats (u ".!?") text in
  let lines := split_on 10%N text in
  map strip lines.

(** The lines [remove_noise] keeps, before they are joined. *)
Definition cleaned_lines (text : pystr) : list pystr :=
  List.filter keep_line (stripped_lines text).

(** [remove_noise]. *)
Definition remove_noise (text : pystr) : pystr :=
  match text with
  | [] => []
  | _ => join [10%N] (cleaned_lines text)
  end.

End ContentCleaner.

(** ** The cache ([core/redis.py]) *)

Module Redis.

(** The Redis server behind a [RedisClient]: the live keys with their value
    and time to live in seconds, and whether the server answers.  A call on
    a server that does not answer raises. *)
Record RedisClient : Type := mkRedis {
  reachable : bool;
  db : gmap pystr (pystr * option Z)
}.

(** [await client.exists(key)]. *)
Definition exists_ (r : RedisClient) (key : pystr) : result bool :=
  if reachable r then Ok (bool_decide (is_Some (db r !! key)))
  else Raise ConnectionError.

(** [await client.set(key, value, expire=expire)]. *)
Definition set (r : RedisClient) (key value : pystr) (expire : option Z)
    : result RedisClient :=
  if reachable r
  then Ok {| reachable := true; db := <[key := (value, expire)]> (db r) |}
  else Raise ConnectionError.

End Redis.

(** ** DataProcessor ([data_processing/data_processor.py]) *)

(** [CollectedData]. *)
Record CollectedData : Type := mkCollectedData {
  data_id : pystr;
  source_id : pystr;
  source_type : pystr;
  cd_source : pystr;
  cd_title : pystr;
  cd_content : option pystr;
  cd_url : pystr;
  cd_author : option pystr;
  cd_publish_time : option datetime;
  cd_tags : list pystr;
  collected_time : Z
}.

Module DataProcessor.

Import ContentCleaner Redis.

(** [self.dedup_expire]. *)
Definition dedup_expire : Z := 86400 * 30.

Section Processor.

(** [hashlib.md5(s.encode()).hexdigest()] and
    [hashlib.sha256(s.encode('utf-8')).hexdigest()]. *)
Variable md5_hex : pystr -> pystr.
Variable sha256_hex : pystr -> pystr.

(** The collaborators handed to the constructor: the cleaner's [clean],
    the extractor's [extract_keywords] (with [max_keywords] and [domain]),
    [extract_entities] and [extract_topics], and the scorer's
    [calculate_importance]. *)
Variable clean : pystr -> CleaningResult.
Variable extract_keywords : pystr -> Z -> pystr -> result (list Keyword).
Variable extract_entities : pystr -> result (list Entity).
Variable extract_topics : pystr -> result (list pystr).
Variable calculate_importance : ProcessedContent -> Q.

(** The private helpers whose values are stored in the result and decide
    nothing: [_analyze_sentiment], [_categorize_content] and [_merge_tags]
    (the last two list a [set], in an order Python does not fix) and
    [_generate_summary]. *)
Variable _analyze_sentiment : pystr -> list (pystr * pyval).
Variable _categorize_content : list Keyword -> list pystr -> list pystr -> list pystr.
Variable _merge_tags : list pystr -> list Keyword -> list pystr.
Variable _generate_summary : pystr -> pystr.

(** [_calculate_content_hash]. *)
Definition _calculate_content_hash (content : pystr) : pystr :=
  let normalized := join (u " ") (split_ws content) in
  sha256_hex normalized.

Definition url_key (url : pystr) : pystr := u "processed_url:" ++ md5_hex url.
Definition hash_key (content_hash : pystr) : pystr := u "content_hash:" ++ content_hash.

(** [_is_already_processed]. *)
Definition _is_already_processed (redis_client : option RedisClient)
    (url : pystr) : bool :=
  match redis_client, url with
  | None, _ | _, [] => false
  | Some r, _ => try_except (exists_ r (url_key url)) (fun _ => false)
  end.

(** [_mark_as_processed]; the client after the call. *)
Definition _mark_as_processed (redis_client : option RedisClient)
    (url content_hash : pystr) : option RedisClient :=
  match redis_client, url with
  | None, _ | _, [] => redis_client
  | Some r, _ =>
      try_except
        (r1 ← set r (url_key url) (u "1") (Some dedup_expire);
         r2 ← set r1 (hash_key content_hash) (u "1") (Some dedup_expire);
         Ok (Some r2))
        (fun _ => redis_client)
  end.

(** [is_duplicate]: the check on the content hash, which adds the hash when
    it is new; the answer and the client after the call. *)
Definition is_duplicate (redis_client : option RedisClient) (content : pystr)
    : bool * option RedisClient :=
  match redis_client with
  | None => (false, None)
  | Some r =>
      let key := hash_key (_calculate_content_hash content) in
      try_except
        (found ← exists_ r key;
         if found : bool then Ok (true, Some r)
         else r' ← set r key (u "1") (Some dedup_expire); Ok (false, Some r'))
        (fun _ => (false, redis_client))
  end.

(** The steps of [process_content] after the URL check, inside its [try]:
    [None] is the early [return None] for too little cleaned text. *)
Definition build_content (now : Z) (collected_data : CollectedData)
    : result (option (ProcessedContent * pystr)) :=
  let cleaning_result := clean (default [] (cd_content collected_data)) in
  let cleaned := cr_cleaned_content cleaning_result in
  let quality := cr_quality_score cleaning_result in
  if len cleaned <? 50 then Ok None
  else
    kws ← extract_keywords cleaned 20 (u "AI");
    ents ← extract_entities cleaned;
    topics ← extract_topics cleaned;
    let sent := _analyze_sentiment cleaned in
    let cats := _categorize_content kws topics (cd_tags collected_data) in
    let processed_content :=
      {| content_id := data_id collected_data;
         title := cd_title collected_data;
         cleaned_content := cleaned;
         summary := Some (_generate_summary cleaned);
         keywords := kws;
         entities := Some ents;
         categories := cats;
         tags := _merge_tags (cd_tags collected_data) kws;
         importance_score := 0.0%Q;
         quality_score := Some (VNum quality);
         sentiment := Some sent;
         source := Some (cd_source collected_data);
         author := cd_author collected_data;
         publish_time := cd_publish_time collected_data;
         url := Some (cd_url collected_data);
         extracted_links := cr_extracted_links cleaning_result;
         source_authority := 0.7%Q;
         engagement_metrics := Some [];
         processing_time := Some (utc now) |} in
    let scored :=
      set_importance_score processed_content
        (calculate_importance processed_content) in
    let content_hash := _calculate_content_hash cleaned in
    Ok (Some (scored, content_hash)).

(** [process_content]: the result ([None] for "no result") and the client
    after the call. *)
Definition process_content (now : Z) (redis_client : option RedisClient)
    (collected_data : CollectedData)
    : option ProcessedContent * option RedisClient :=
  match cd_title collected_data with
  | [] => (None, redis_client)
  | _ =>
      if _is_already_processed redis_client (cd_url collected_data)
      then (None, redis_client)
      else
        match build_content now collected_data with
        | Raise _ => (None, redis_client)
        | Ok None => (None, redis_client)
        | Ok (Some (processed_content, content_hash)) =>
            (Some processed_content,
             _mark_as_processed redis_client (cd_url collected_data) content_hash)
        end
  end.

(** Two documents processed one after the other on the same client. *)
Definition process_two (now1 now2 : Z) (redis_client : option RedisClient)
    (d1 d2 : CollectedData)
    : option ProcessedContent * option ProcessedContent * option RedisClient :=
  let '(r1, c1) := process_content now1 redis_client d1 in
  let '(r2, c2) := process_content now2 c1 d2 in
  (r1, r2, c2).

End Processor.

Section Helpers.

(** [str.lower]. *)
Variable lower : pystr -> pystr.

Definition positive_words : list pystr :=
  [u "突破"; u "创新"; u "成功"; u "领先"; u "优秀";
   u "breakthrough"; u "success"; u "excellent"].

Definition negative_words : list pystr :=
  [u "失败"; u "问题"; u "风险"; u "担忧"; u "争议";
   u "failure"; u "problem"; u "risk"].

(** [sum(1 for word in words if word in text_lower)]. *)
Definition count_words (words : list pystr) (text_lower : pystr) : Z :=
  Z.of_nat (length (List.filter (fun word => contains word text_lower) words)).

(** [_analyze_sentiment]: the dictionary it returns. *)
Definition _analyze_sentiment (text : pystr) : list (pystr * pyval) :=
  let text_lower := lower text in
  let positive_count := count_words positive_words text_lower in
  let negative_count := count_words negative_words text_lower in
  let '(sentiment, confidence) :=
    if negative_count <? positive_count
    then (u "positive", py_min 0.9 (0.5 + inject_Z positive_count * 0.1))
    else if positive_count <? negative_count
    then (u "negative", py_min 0.9 (0.5 + inject_Z negative_count * 0.1))
    else (u "neutral", 0.7%Q) in
  let words := Z.max (Z.of_nat (length (split_ws text))) 1 in
  [(u "label", VStr sentiment);
   (u "confidence", VNum confidence);
   (u "scores",
    VDict [(u "positive", VNum (inject_Z positive_count / inject_Z words));
           (u "negative", VNum (inject_Z negative_count / inject_Z words))])].

Definition topic_category_map : list (pystr * pystr) :=
  [(u "深度学习", u "技术"); (u "自然语言处理", u "技术");
   (u "计算机视觉", u "技术"); (u "机器学习", u "技术");
   (u "大语言模型", u "技术"); (u "生成式AI", u "应用")].

(** [any(term in words for term in keyword_terms)]. *)
Definition any_term_in (words keyword_terms : list pystr) : bool :=
  existsb (fun t => bool_decide (t ∈ words)) keyword_terms.

(** [_categorize_content]: the set it builds.  The list it returns holds
    the elements of this set, in the order Python iterates the set. *)
Definition _categorize_content (kws : list Keyword) (topics tags : list pystr)
    : gset pystr :=
  let categories : gset pystr :=
    fold_left
      (fun acc topic =>
         match dict_get topic_category_map topic with
         | Some category => {[category]} ∪ acc
         | None => acc
         end)
      topics ∅ in
  let keyword_terms := map (fun kw => lower (term kw)) kws in
  let categories :=
    if any_term_in [u "research"; u "研究"; u "paper"; u "论文"] keyword_terms
    then {[u "研究"]} ∪ categories else categories in
  let categories :=
    if any_term_in [u "product"; u "产品"; u "launch"; u "发布"; u "release"]
                   keyword_terms
    then {[u "产品"]} ∪ categories else categories in
  let categories :=
    if any_term_in [u "investment"; u "投资"; u "funding"; u "融资"] keyword_terms
    then {[u "投资"]} ∪ categories else categories in
  if decide (categories = ∅) then {[u "行业动态"]} else categories.

(** [_merge_tags]: the set it builds; the list it returns holds the
    elements of this set. *)
Definition _merge_tags (original_tags : list pystr) (kws : list Keyword)
    : gset pystr :=
  fold_left
    (fun tags kw =>
       if Qlt_le_dec 0.5 (score kw) then {[term kw]} ∪ tags else tags)
    (slice_to kws 5) (list_to_set original_tags).

End Helpers.

(** [_generate_summary]. *)
Definition _generate_summary (content : pystr) : pystr :=
  if len content <=? 200 then content
  else
    let summary := slice_to content 200 in
    let last_period := rfind 12290%N summary in
    let last_period :=
      if last_period =? -1 then rfind 46%N summary else last_period in
    if 100 <? last_period then slice_to summary (last_period + 1)
    else summary ++ u "...".

End DataProcessor.

(** ** Operators on dynamically typed values *)

Module PyVal.

(** The numeric reading of a value, if it has one. *)
Definition num_of (v : pyval) : option Q :=
  match v with
  | VNum q => Some q
  | VBool true => Some 1%Q
  | VBool false => Some 0%Q
  | _ => None
  end.

(** [a == b].  Two instances of a schema class are compared attribute by
    attribute, two dictionaries key by key. *)
Fixpoint py_eq (a b : pyval) : bool :=
  match num_of a, num_of b with
  | Some p, Some q => Qeq_bool p q
  | _, _ =>
      match a, b with
      | VNone, VNone => true
      | VStr s, VStr t => bool_decide (s = t)
      | VTime s, VTime t => datetime_eq s t
      | VOther i, VOther j => (i =? j)%N
      | VList l, VList m =>
          (fix go (l m : list pyval) : bool :=
             match l, m with
             | [], [] => true
             | x :: l', y :: m' => py_eq x y && go l' m'
             | _, _ => false
             end) l m
      | VDict d, VDict e | VObj d, VObj e =>
          (length d =? length e)%nat &&
          (fix go (d : list (pystr * pyval)) : bool :=
             match d with
             | [] => true
             | (k, v) :: d' =>
                 match dict_get e k with
                 | Some v' => py_eq v v'
                 | None => false
                 end && go d'
             end) d
      | _, _ => false
      end
  end.

(** Lexicographic order of two strings by code point: [s <= t]. *)
Fixpoint str_le (s t : pystr) : bool :=
  match s, t with
  | [], _ => true
  | _ :: _, [] => false
  | a :: s', b :: t' => (a <? b)%N || ((a =? b)%N && str_le s' t')
  end.

(** [a >= b] when [ge] holds and [a <= b] otherwise.  Numbers, strings and
    [datetime]s of the same kind are ordered among themselves, lists
    lexicographically; any other pair is a [TypeError]. *)
Fixpoint py_cmp (ge : bool) (a b : pyval) : result bool :=
  match num_of a, num_of b with
  | Some p, Some q => Ok (if ge then Qle_bool q p else Qle_bool p q)
  | _, _ =>
      match a, b with
      | VStr s, VStr t => Ok (if ge then str_le t s else str_le s t)
      | VTime s, VTime t => if ge then datetime_le t s else datetime_le s t
      | VList l, VList m =>
          (fix go (l m : list pyval) : result bool :=
             match l, m with
             | x :: l', y :: m' => if py_eq x y then go l' m' else py_cmp ge x y
             | [], [] => Ok true
             | [], _ :: _ => Ok (negb ge)
             | _ :: _, [] => Ok ge
             end) l m
      | _, _ => Raise TypeError
      end
  end.

Definition py_ge : pyval -> pyval -> result bool := py_cmp true.
Definition py_le : pyval -> pyval -> result bool := py_cmp false.

(** Whether a value can be hashed (be a key of a [dict] or a [set]). *)
Definition hashable (v : pyval) : bool :=
  match v with
  | VList _ | VDict _ | VObj _ => false
  | _ => true
  end.

(** [x in container]. *)
Definition py_in (x container : pyval) : result bool :=
  match container with
  | VList l => Ok (existsb (py_eq x) l)
  | VStr s =>
      match x with
      | VStr p => Ok (contains p s)
      | _ => Raise TypeError
      end
  | VDict d =>
      if hashable x
      then Ok (match x with
               | VStr k => bool_decide (is_Some (dict_get d k))
               | _ => false
               end)
      else Raise TypeError
  | VObj _ => Ok false
  | VNone | VBool _ | VNum _ | VTime _ | VOther _ => Raise TypeError
  end.

(** A list comprehension [[x for x in l if p(x)]] whose test may raise. *)
Fixpoint filter_m {A : Type} (p : A -> result bool) (l : list A) : result (list A) :=
  match l with
  | [] => Ok []
  | x :: l' =>
      keep ← p x;
      rest ← filter_m p l';
      Ok (if keep : bool then x :: rest else rest)
  end.

(** [any(p(x) for x in l)] whose test may raise: it stops at the first
    element for which the test holds. *)
Fixpoint any_m {A : Type} (p : A -> result bool) (l : list A) : result bool :=
  match l with
  | [] => Ok false
  | x :: l' =>
      found ← p x;
      if found : bool then Ok true else any_m p l'
  end.

End PyVal.

(** ** The built-in sort *)

Module PySort.

Section Sort.

Context {A : Type}.
Variable key : A -> Q.
Variable reverse : bool.

(** [a] sorts strictly before [b]: [key a < key b], or [key a > key b] under
    [reverse=True]. *)
Definition strictly_before (a b : A) : bool :=
  if reverse then negb (Qle_bool (key a) (key b))
  else negb (Qle_bool (key b) (key a)).

(** [x] is put behind the elements that sort strictly before it and ahead
    of all others, so ahead of those with an equal key. *)
Fixpoint insert_sorted (x : A) (l : list A) : list A :=
  match l with
  | [] => [x]
  | y :: l' =>
      if strictly_before y x then y :: insert_sorted x l'
      else x :: y :: l'
  end.

(** [sorted(l, key=key, reverse=reverse)]: the stable sort of [l]; each
    element is inserted ahead of the elements that followed it in [l]. *)
Fixpoint sorted (l : list A) : list A :=
  match l with
  | [] => []
  | x :: l' => insert_sorted x (sorted l')
  end.

End Sort.

End PySort.

(** ** ContentAggregator ([report_generation/content_aggregator.py]) *)

Module ContentAggregator.

Import PyVal PySort.

(** An instance of [Keyword], [Entity] and [ProcessedContent] as the
    object [hasattr] and [getattr] see: its data attributes by name. *)
Definition opt_val {A : Type} (f : A -> pyval) (o : option A) : pyval :=
  match o with
  | Some a => f a
  | None => VNone
  end.

Definition str_list (l : list pystr) : pyval := VList (map VStr l).

Definition keyword_obj (kw : Keyword) : pyval :=
  VObj [(u "term", VStr (term kw)); (u "score", VNum (score kw));
        (u "type", opt_val VStr (type_ kw))].

Definition entity_obj (e : Entity) : pyval :=
  VObj [(u "text", VStr (text e)); (u "label", VStr (label e));
        (u "confidence", VNum (confidence e))].

Definition opt_field {A : Type} (name : pystr) (f : A -> pyval) (o : option A)
    : list (pystr * pyval) :=
  match o with
  | Some a => [(name, f a)]
  | None => []
  end.

Definition content_obj (c : ProcessedContent) : pyval :=
  VObj ([(u "content_id", VStr (content_id c));
         (u "title", VStr (title c));
         (u "cleaned_content", VStr (cleaned_content c));
         (u "summary", opt_val VStr (summary c));
         (u "keywords", VList (map keyword_obj (keywords c)))]
        ++ opt_field (u "entities") (fun es => VList (map entity_obj es)) (entities c)
        ++ [(u "categories", str_list (categories c));
            (u "tags", str_list (tags c));
            (u "importance_score", VNum (importance_score c))]
        ++ opt_field (u "quality_score") (fun v => v) (quality_score c)
        ++ [(u "sentiment", opt_val VDict (sentiment c));
            (u "source", opt_val VStr (source c));
            (u "author", opt_val VStr (author c));
            (u "publish_time", opt_val VTime (publish_time c));
            (u "url", opt_val VStr (url c));
            (u "extracted_links", str_list (extracted_links c));
            (u "source_authority", VNum (source_authority c));
            (u "engagement_metrics", opt_val VDict (engagement_metrics c));
            (u "processing_time", opt_val VTime (processing_time c))]).

Section Filters.

(** [getattr(value, name)] for a name that is not a data attribute of an
    instance of a schema class.  Python gives every value attributes of
    its own: a [str] has its methods ([title.upper]), a number its [real],
    a [dict] its [get], an instance of a schema class the methods of the
    class.  [None]: the value has no attribute of that name, [hasattr] is
    false.  A bound method is a [VOther]. *)
Variable other_attr : pyval -> pystr -> option pyval.

(** [getattr(value, name)], with [None] where [hasattr(value, name)] is
    false: the data attributes of an instance first. *)
Definition py_getattr (value : pyval) (name : pystr) : option pyval :=
  match value with
  | VObj fields =>
      match dict_get fields name with
      | Some v => Some v
      | None => other_attr value name
      end
  | _ => other_attr value name
  end.

(** The loop of [_get_nested_value] over the parts of the path: an
    attribute where [hasattr] finds one, else the entry of a [dict], else
    the default. *)
Fixpoint walk_path (value : pyval) (parts : list pystr) (dflt : pyval) : pyval :=
  match parts with
  | [] => value
  | part :: parts' =>
      match py_getattr value part with
      | Some v => walk_path v parts' dflt
      | None =>
          match value with
          | VDict d => walk_path (default VNone (dict_get d part)) parts' dflt
          | _ => dflt
          end
      end
  end.

(** [_get_nested_value]. *)
Definition _get_nested_value (obj : pyval) (path : pystr) (dflt : pyval) : pyval :=
  walk_path obj (split_on 46%N path) dflt.

(** One round of the loop of [apply_filters]. *)
Definition apply_filter (filtered_contents : list ProcessedContent)
    (field : pystr) (condition : pyval) : result (list ProcessedContent) :=
  match condition with
  | VDict cond =>
      match dict_get cond (u "$gte") with
      | Some threshold =>
          filter_m (fun c => py_ge (_get_nested_value (content_obj c) field VNone) threshold)
                   filtered_contents
      | None =>
          match dict_get cond (u "$lte") with
          | Some threshold =>
              filter_m (fun c => py_le (_get_nested_value (content_obj c) field VNone) threshold)
                       filtered_contents
          | None =>
              match dict_get cond (u "$in") with
              | Some values =>
                  filter_m (fun c => py_in (_get_nested_value (content_obj c) field VNone) values)
                           filtered_contents
              | None => Ok filtered_contents
              end
          end
      end
  | VList cond =>
      filter_m
        (fun c => any_m (fun val => py_in val (_get_nested_value (content_obj c) field (VList [])))
                        cond)
        filtered_contents
  | _ =>
      Ok (List.filter
            (fun c => py_eq (_get_nested_value (content_obj c) field VNone) condition)
            filtered_contents)
  end.

(** [apply_filters]: the conditions of [filters.items()], in order. *)
Fixpoint apply_filters (contents : list ProcessedContent)
    (filters : list (pystr * pyval)) : result (list ProcessedContent) :=
  match filters with
  | [] => Ok contents
  | (field, condition) :: filters' =>
      filtered_contents ← apply_filter contents field condition;
      apply_filters filtered_contents filters'
  end.

End Filters.

(** [sort_by_importance]. *)
Definition sort_by_importance (contents : list ProcessedContent)
    : list ProcessedContent :=
  sorted importance_score true contents.

(** The list objects of the caller, by address.  [sort_by_importance_at]
    is [sort_by_importance] on the object at [contents]: [sorted] builds
    its result in a new object, whose address is returned. *)
Definition sort_by_importance_at (heap : gmap nat (list ProcessedContent))
    (contents : nat) : option (gmap nat (list ProcessedContent) * nat) :=
  l ← heap !! contents;
  let fresh_address := fresh (dom heap) in
  Some (<[fresh_address := sort_by_importance l]> heap, fresh_address).

(** [categorized[category].append(content)] on a [defaultdict(list)]. *)
Definition append_to (categorized : gmap pystr (list ProcessedContent))
    (category : pystr) (content : ProcessedContent)
    : gmap pystr (list ProcessedContent) :=
  <[category := default [] (categorized !! category) ++ [content]]> categorized.

(** One round of the first loop of [aggregate_by_category]. *)
Definition categorize_step (categorized : gmap pystr (list ProcessedContent))
    (content : ProcessedContent) : gmap pystr (list ProcessedContent) :=
  match categories content with
  | [] => append_to categorized (u "未分类") content
  | cats => fold_left (fun m category => append_to m category content)
                      cats categorized
  end.

(** The first loop of [aggregate_by_category]. *)
Definition categorize (contents : list ProcessedContent)
    : gmap pystr (list ProcessedContent) :=
  fold_left categorize_step contents ∅.

(** [aggregate_by_category]: every group is then sorted in place. *)
Definition aggregate_by_category (contents : list ProcessedContent)
    : gmap pystr (list ProcessedContent) :=
  sorted importance_score true <$> categorize contents.

(** [round(x, 3)]: to the nearest multiple of 1/1000, a tie to the even
    one. *)
Definition round3 (x : Q) : Q :=
  let scaled := (x * 1000)%Q in
  let lower := Qfloor scaled in
  let rest := (scaled - inject_Z lower)%Q in
  let nearest :=
    if Qlt_le_dec rest 0.5 then lower
    else if Qlt_le_dec 0.5 rest then lower + 1
    else if Z.even lower then lower else lower + 1 in
  (inject_Z nearest / 1000)%Q.

(** [counts[key] += 1] on a [defaultdict(int)] whose keys are compared with
    [==]; the key has to be hashable. *)
Fixpoint count_up (counts : list (pyval * nat)) (key : pyval) : list (pyval * nat) :=
  match counts with
  | [] => [(key, 1%nat)]
  | (k, n) :: counts' =>
      if py_eq k key then (k, S n) :: counts'
      else (k, n) :: count_up counts' key
  end.

Definition count_key (counts : list (pyval * nat)) (key : pyval)
    : result (list (pyval * nat)) :=
  if hashable key then Ok (count_up counts key) else Raise TypeError.

(** The value of ["date_range"]; the [datetime]s stand for their
    [isoformat()]. *)
Record DateRange : Type := mkDateRange {
  dr_start : datetime;
  dr_end : datetime;
  dr_days : Z
}.

(** The dictionary [calculate_statistics] returns. *)
Record Statistics : Type := mkStatistics {
  total_count : Z;
  avg_importance_score : Q;
  st_categories : list (pyval * nat);
  st_sources : list (pyval * nat);
  sentiment_distribution : list (pyval * nat);
  date_range : option DateRange
}.

(** The time a document counts with, if any. *)
Definition time_of (c : ProcessedContent) : option datetime :=
  match publish_time c with
  | Some t => Some t
  | None => processing_time c
  end.

Definition microseconds_per_day : Z := 86400 * 1000000.

(** [min(times)] and [max(times)] on a list that is not empty: the first
    element, replaced along the list by each element that is less
    (greater) than the one held.  The comparison raises on a naive and an
    aware [datetime]. *)
Fixpoint min_time (held : datetime) (times : list datetime) : result datetime :=
  match times with
  | [] => Ok held
  | t :: times' =>
      less ← datetime_lt t held;
      min_time (if less : bool then t else held) times'
  end.

Fixpoint max_time (held : datetime) (times : list datetime) : result datetime :=
  match times with
  | [] => Ok held
  | t :: times' =>
      greater ← datetime_lt held t;
      max_time (if greater : bool then t else held) times'
  end.

(** [sum(c.importance_score for c in contents)]. *)
Definition sum_importance (contents : list ProcessedContent) : Q :=
  fold_left (fun acc c => (acc + importance_score c)%Q) contents 0%Q.

(** The label loop of [calculate_statistics]. *)
Fixpoint sentiment_stats (contents : list ProcessedContent)
    (counts : list (pyval * nat)) : result (list (pyval * nat)) :=
  match contents with
  | [] => Ok counts
  | c :: contents' =>
      match sentiment c with
      | Some ((_ :: _) as d) =>
          counts' ← count_key counts (default (VStr (u "neutral")) (dict_get d (u "label")));
          sentiment_stats contents' counts'
      | _ => sentiment_stats contents' counts
      end
  end.

(** [calculate_statistics]. *)
Definition calculate_statistics (contents : list ProcessedContent)
    : result Statistics :=
  match contents with
  | [] =>
      Ok {| total_count := 0; avg_importance_score := 0;
            st_categories := []; st_sources := [];
            sentiment_distribution := []; date_range := None |}
  | _ =>
      let total := Z.of_nat (length contents) in
      let avg_importance := (sum_importance contents / inject_Z total)%Q in
      let category_stats :=
        fold_left
          (fun stats c => fold_left (fun s cat => count_up s (VStr cat)) (categories c) stats)
          contents [] in
      let source_stats :=
        fold_left
          (fun stats c =>
             count_up stats
               (VStr (match source c with
                      | Some ((_ :: _) as s) => s
                      | _ => u "未知来源"
                      end)))
          contents [] in
      sent_stats ← sentiment_stats contents [];
      let times := omap time_of contents in
      range ←
        match times with
        | [] => Ok None
        | t :: ts =>
            first ← min_time t ts;
            last ← max_time t ts;
            span ← datetime_sub last first;
            Ok (Some {| dr_start := first; dr_end := last;
                        dr_days := span / microseconds_per_day + 1 |})
        end;
      Ok {| total_count := total;
            avg_importance_score := round3 avg_importance;
            st_categories := category_stats;
            st_sources := source_stats;
            sentiment_distribution := sent_stats;
            date_range := range |}
  end.

Section Dedup.

(** [str.lower]. *)
Variable lower : pystr -> pystr.

(** The loop of [deduplicate_by_title]. *)
Fixpoint dedup_loop (seen_titles : gset pystr) (contents : list ProcessedContent)
    : list ProcessedContent :=
  match contents with
  | [] => []
  | content :: contents' =>
      let title_lower := strip (lower (title content)) in
      if decide (title_lower ∈ seen_titles)
      then dedup_loop seen_titles contents'
      else content :: dedup_loop ({[title_lower]} ∪ seen_titles) contents'
  end.

(** [deduplicate_by_title]. *)
Definition deduplicate_by_title (contents : list ProcessedContent)
    (similarity_threshold : Q) : list ProcessedContent :=
  match contents with
  | [] => []
  | _ => dedup_loop ∅ contents
  end.

End Dedup.

(** [t.replace(tzinfo=timezone.utc)] for a [t] whose [tzinfo] is [None],
    [t] itself otherwise. *)
Definition as_utc (t : datetime) : datetime :=
  if aware t then t else {| instant := instant t; aware := true |}.

(** [start_time <= t <= end_time] on aware [datetime]s. *)
Definition between (start_time end_time t : datetime) : bool :=
  (instant start_time <=? instant t) && (instant t <=? instant end_time).

(** The test of the loop of [aggregate_by_time_range]: the publish time
    if there is one, else the processing time, made aware and within the
    inclusive bounds. *)
Definition in_time_range (start_time end_time : datetime)
    (content : ProcessedContent) : bool :=
  match publish_time content with
  | Some t => between start_time end_time (as_utc t)
  | None =>
      match processing_time content with
      | Some t => between start_time end_time (as_utc t)
      | None => false
      end
  end.

(** [aggregate_by_time_range]: the bounds are made aware first. *)
Definition aggregate_by_time_range (contents : list ProcessedContent)
    (start_time end_time : datetime) : list ProcessedContent :=
  match contents with
  | [] => []
  | _ =>
      let start_time := as_utc start_time in
      let end_time := as_utc end_time in
      List.filter (in_time_range start_time end_time) contents
  end.

(** [content.source or "未知来源"]. *)
Definition source_name (content : ProcessedContent) : pystr :=
  match source content with
  | Some ((_ :: _) as s) => s
  | _ => u "未知来源"
  end.

(** [aggregate_by_source]. *)
Definition aggregate_by_source (contents : list ProcessedContent)
    : gmap pystr (list ProcessedContent) :=
  sorted importance_score true
    <$> fold_left (fun m content => append_to m (source_name content) content)
                  contents ∅.

(** [grouped[key].append(content)] on a [defaultdict(list)], kept in the
    order in which its keys were first used. *)
Fixpoint od_append (grouped : list (pystr * list ProcessedContent))
    (key : pystr) (content : ProcessedContent)
    : list (pystr * list ProcessedContent) :=
  match grouped with
  | [] => [(key, [content])]
  | (k, group) :: grouped' =>
      if decide (k = key) then (k, group ++ [content]) :: grouped'
      else (k, group) :: od_append grouped' key content
  end.

(** [sorted(grouped.items(), key=lambda x: len(x[1]), reverse=True)]. *)
Definition by_group_size (grouped : list (pystr * list ProcessedContent))
    : list (pystr * list ProcessedContent) :=
  sorted (fun kv => inject_Z (Z.of_nat (length (snd kv)))) true grouped.

(** [aggregate_by_keywords]: the groups in the order of the returned
    dictionary. *)
Definition aggregate_by_keywords (contents : list ProcessedContent)
    (min_score : Q) : list (pystr * list ProcessedContent) :=
  by_group_size
    (fold_left
       (fun grouped content =>
          fold_left
            (fun grouped keyword =>
               if Qle_bool min_score (score keyword)
               then od_append grouped (term keyword) content
               else grouped)
            (keywords content) grouped)
       contents []).

(** [aggregate_by_entity]. *)
Definition aggregate_by_entity (contents : list ProcessedContent)
    (entity_type : option pystr) : list (pystr * list ProcessedContent) :=
  by_group_size
    (fold_left
       (fun grouped content =>
          fold_left
            (fun grouped entity =>
               if match entity_type with
                  | None => true
                  | Some wanted => bool_decide (label entity = wanted)
                  end
               then od_append grouped (text entity) content
               else grouped)
            (default [] (entities content)) grouped)
       contents []).

(** [datetime.min.replace(tzinfo=timezone.utc)]: the first instant of the
    year 1, aware. *)
Definition datetime_min : datetime := utc (-62135596800 * 1000000).

(** [get_time] of [sort_by_time]. *)
Definition get_time (content : ProcessedContent) : datetime :=
  match publish_time content with
  | Some t => t
  | None =>
      match processing_time content with
      | Some t => t
      | None => datetime_min
      end
  end.

(** The keys of a sort can be ordered: they are all naive or all
    aware. *)
Definition same_kind (keys : list datetime) : bool :=
  match keys with
  | [] => true
  | t :: keys' => forallb (fun s => Bool.eqb (aware s) (aware t)) keys'
  end.

(** [sort_by_time].  The sort compares the keys as they are: on a list
    that holds a naive and an aware key it cannot finish without comparing
    two such keys, which raises; otherwise the keys are ordered by their
    instants. *)
Definition sort_by_time (contents : list ProcessedContent) (ascending : bool)
    : result (list ProcessedContent) :=
  if same_kind (map get_time contents)
  then Ok (sorted (fun content => inject_Z (instant (get_time content)))
                  (negb ascending) contents)
  else Raise TypeError.

(** [limit_items]. *)
Definition limit_items (contents : list ProcessedContent) (max_items : Z)
    : list ProcessedContent :=
  slice_to contents max_items.

(** The first two steps of [ReportGenerator._generate_section_content]
    ([report_generation/report_generator.py]): the section's filters, if it
    has any, then its limit, if it has one that is not 0. *)
Definition section_contents (other_attr : pyval -> pystr -> option pyval)
    (contents : list ProcessedContent)
    (filters : option (list (pystr * pyval))) (max_items : option Z)
    : result (list ProcessedContent) :=
  filtered ←
    match filters with
    | Some ((_ :: _) as conditions) => apply_filters other_attr contents conditions
    | _ => Ok contents
    end;
  Ok match max_items with
     | Some n => if n =? 0 then filtered else limit_items filtered n
     | None => filtered
     end.

End ContentAggregator.

(** ** Predicates of the statements *)

(** The sentiment label of a document, when it has one, can be the key of
    a dictionary. *)
Definition label_hashable (c : ProcessedContent) : Prop :=
  match sentiment c with
  | Some ((_ :: _) as d) =>
      PyVal.hashable (default (VStr (u "neutral")) (dict_get d (u "label"))) = true
  | _ => True
  end.

Definition labels_hashable (contents : list ProcessedContent) : Prop :=
  Forall label_hashable contents.

(** The times the documents count with are all naive or all aware. *)
Definition times_comparable (contents : list ProcessedContent) : Prop :=
  ContentAggregator.same_kind (omap ContentAggregator.time_of contents) = true.

(** The number of entities labelled ORG. *)
Definition org_count (c : ProcessedContent) : nat :=
  match entities c with
  | Some es => length (filter (fun e => label e = u "ORG") es)
  | None => O
  end.

(** The keys of a list do not increase. *)
Definition descending {A : Type} (key : A -> Q) (l : list A) : Prop :=
  StronglySorted (fun a b => (key b <= key a)%Q) l.

(** The keys of a list do not decrease. *)
Definition ascending {A : Type} (key : A -> Q) (l : list A) : Prop :=
  StronglySorted (fun a b => (key a <= key b)%Q) l.

(** [x] is in the group of [category]. *)
Definition in_group (m : gmap pystr (list ProcessedContent)) (category : pystr)
    (x : ProcessedContent) : Prop :=
  exists group, m !! category = Some group /\ In x group.

(** [x] is in the group of [key] of a dictionary kept in order. *)
Definition in_ordered_group (grouped : list (pystr * list ProcessedContent))
    (key : pystr) (x : ProcessedContent) : Prop :=
  exists group, In (key, group) grouped /\ In x group.

(** The size of a group, as the sort of the groups reads it. *)
Definition group_size (kv : pystr * list ProcessedContent) : Q :=
  inject_Z (Z.of_nat (length (snd kv))).

(** The inner loop of the grouping functions [aggregate_by_keywords] and
    [aggregate_by_entity]: the items of one document that are selected, each
    under its key. *)
Definition group_items {Item : Type} (selected : Item -> bool)
    (key_of : Item -> pystr) (items_of : ProcessedContent -> list Item)
    (grouped : list (pystr * list ProcessedContent))
    (content : ProcessedContent) : list (pystr * list ProcessedContent) :=
  fold_left
    (fun grouped item =>
       if selected item
       then ContentAggregator.od_append grouped (key_of item) content
       else grouped)
    (items_of content) grouped.

(** The sum of the counts of a counting dictionary. *)
Definition total_counted (counts : list (pyval * nat)) : nat :=
  fold_right (fun kn total => (snd kn + total)%nat) O counts.

(** The words [split] returns: not empty, no white space inside. *)
Definition is_word (w : pystr) : Prop :=
  w <> [] /\ Forall (fun c => is_space c = false) w.

(** The title as [deduplicate_by_title] compares it. *)
Definition normalized_title (lower : pystr -> pystr) (c : ProcessedContent) : pystr :=
  strip (lower (title c)).

(** ** Sample documents *)

Module Samples.

(** A document with every optional attribute empty. *)
Definition blank : ProcessedContent :=
  {| content_id := u "doc"; title := u "AI news"; cleaned_content := [];
     summary := None; keywords := []; entities := Some []; categories := [];
     tags := []; importance_score := 0.5; quality_score := Some (VNum 0.5);
     sentiment := None; source := Some (u "TechNews"); author := None;
     publish_time := None; url := None; extracted_links := [];
     source_authority := 0.5; engagement_metrics := None;
     processing_time := None |}.

(** [blank] after the assignment [content.quality_score = None]. *)
Definition no_quality : ProcessedContent :=
  {| content_id := u "doc"; title := u "AI news"; cleaned_content := [];
     summary := None; keywords := []; entities := Some []; categories := [];
     tags := []; importance_score := 0.5; quality_score := Some VNone;
     sentiment := None; source := Some (u "TechNews"); author := None;
     publish_time := None; url := None; extracted_links := [];
     source_authority := 0.5; engagement_metrics := None;
     processing_time := None |}.

(** A document with a title and an importance score. *)
Definition doc (name : string) (importance : Q) : ProcessedContent :=
  {| content_id := u name; title := u name; cleaned_content := [];
     summary := None; keywords := []; entities := Some []; categories := [];
     tags := []; importance_score := importance;
     quality_score := Some (VNum 0.5);
     sentiment := None; source := Some (u "TechNews"); author := None;
     publish_time := None; url := None; extracted_links := [];
     source_authority := 0.5; engagement_metrics := None;
     processing_time := None |}.

(** Sixty characters of text without markup. *)
Definition sixty : pystr := repeat 97%N 60.

(** A fetched item with a title, a body and a URL. *)
Definition item (name : string) (body : pystr) (address : string) : CollectedData :=
  {| data_id := u name; source_id := u "source_1"; source_type := u "rss";
     cd_source := u "TechNews"; cd_title := u name; cd_content := Some body;
     cd_url := u address; cd_author := None; cd_publish_time := None;
     cd_tags := []; collected_time := 0 |}.

(** A cleaner that returns text without markup as it is. *)
Definition plain_clean (raw : pystr) : ContentCleaner.CleaningResult :=
  {| ContentCleaner.cr_cleaned_content := raw;
     ContentCleaner.cr_extracted_links := [];
     ContentCleaner.cr_quality_score := 0.9 |}.

(** A document with one keyword, one organisation and one category. *)
Definition about (name : string) (keyword organisation category : string)
    : ProcessedContent :=
  {| content_id := u name; title := u name; cleaned_content := [];
     summary := None; keywords := [mkKeyword (u keyword) 0.8 None];
     entities := Some [mkEntity (u organisation) (u "ORG") 0.9];
     categories := [u category];
     tags := []; importance_score := 0.5; quality_score := Some (VNum 0.5);
     sentiment := None; source := Some (u "TechNews"); author := None;
     publish_time := None; url := None; extracted_links := [];
     source_authority := 0.5; engagement_metrics := None;
     processing_time := None |}.

(** What the processor makes of the item ["first"] with sixty characters
    of text, when nothing is extracted and the score is 0.5. *)
Definition first_processed : ProcessedContent :=
  {| content_id := u "first"; title := u "first";
     cleaned_content := sixty;
     summary := Some sixty; keywords := [];
     entities := Some []; categories := []; tags := [];
     importance_score := 0.5; quality_score := Some (VNum 0.9);
     sentiment := Some []; source := Some (u "TechNews");
     author := None; publish_time := None;
     url := Some (u "https://a.example/1");
     extracted_links := []; source_authority := 0.7;
     engagement_metrics := Some []; processing_time := Some (utc 0) |}.

(** The answer of [getattr] where none of the names that are probed is
    an attribute beyond the data attributes. *)
Definition data_attrs (value : pyval) (name : pystr) : option pyval := None.

(** The same with the sentiment [_analyze_sentiment] finds in sixty
    letters: none. *)
Definition first_analysed : ProcessedContent :=
  {| content_id := u "first"; title := u "first";
     cleaned_content := sixty;
     summary := Some sixty; keywords := [];
     entities := Some []; categories := []; tags := [];
     importance_score := 0.5; quality_score := Some (VNum 0.9);
     sentiment :=
       Some [(u "label", VStr (u "neutral")); (u "confidence", VNum 0.7);
             (u "scores", VDict [(u "positive", VNum 0); (u "negative", VNum 0)])];
     source := Some (u "TechNews");
     author := None; publish_time := None;
     url := Some (u "https://a.example/1");
     extracted_links := []; source_authority := 0.7;
     engagement_metrics := Some []; processing_time := Some (utc 0) |}.

(** What [getattr] answers on the values of [blank] beyond the data
    attributes, in part: the [real] of a number is the number, the [upper]
    of the title is a bound method. *)
Definition blank_attrs (value : pyval) (name : pystr) : option pyval :=
  match value with
  | VNum q => if decide (name = u "real") then Some (VNum q) else None
  | VStr s =>
      if decide (s = u "AI news")
      then if decide (name = u "upper") then Some (VOther 1) else None
      else None
  | _ => None
  end.

(** A server that answers and holds no key. *)
Definition empty_server : Redis.RedisClient :=
  {| Redis.reachable := true; Redis.db := ∅ |}.

End Samples.

(** * Properties *)


(** ** Strings *)

Lemma startswith_prefix (p s : pystr) :
  startswith p s = true <-> exists rest, s = p ++ rest.
Proof.
  revert s. induction p as [|a p IH]; intros s; simpl.
  - split; [intros _; exists s; reflexivity | reflexivity].
  - destruct s as [|b s].
    + split; [discriminate | intros [rest H]; discriminate].
    + rewrite andb_true_iff, N.eqb_eq, IH. split.
      * intros [-> [rest ->]]. exists rest. reflexivity.
      * intros [rest H]. injection H as -> ->. split; [reflexivity | eauto].
Qed.

(** [contains p s] is the substring test [p in s]. *)
Lemma contains_substring (p s : pystr) :
  contains p s = true <-> exists before after, s = before ++ p ++ after.
Proof.
  induction s as [|c s IH].
  - simpl. rewrite orb_false_r, startswith_prefix. split.
    + intros [rest H]. exists [], rest. exact H.
    + intros [before [after H]]. destruct before; [eauto | discriminate].
  - cbn [contains]. rewrite orb_true_iff, startswith_prefix, IH. split.
    + intros [[rest H] | [before [after H]]].
      * exists [], rest. exact H.
      * exists (c :: before), after. rewrite H. reflexivity.
    + intros [before [after H]]. destruct before as [|b before].
      * left. exists after. exact H.
      * right. injection H as _ H. eauto.
Qed.

(** ** ContentScorer *)

Module ScorerProps.

Import ContentScorer.

Lemma clamp_bounds (x : Q) : (0 <= py_max 0.0 (py_min 1.0 x) <= 1)%Q.
Proof.
  unfold py_max, py_min.
  destruct (Qle_bool 1.0 x) eqn:H1.
  - destruct (Qle_bool 1.0 0.0) eqn:H2; [discriminate H2|]. lra.
  - destruct (Qle_bool x 0.0) eqn:H2; [lra|].
    assert (~ (1.0 <= x)%Q) by (rewrite <- Qle_bool_iff; congruence).
    assert (~ (x <= 0.0)%Q) by (rewrite <- Qle_bool_iff; congruence).
    lra.
Qed.

(** The result of the [try] block, when it completes, is a clamped value. *)
Lemma importance_body_clamped lower log10 now c r :
  importance_body lower log10 now c = Ok r ->
  exists x, r = py_max 0.0 (py_min 1.0 x).
Proof.
  unfold importance_body. intros H.
  destruct (as_number _) as [q|e]; [|discriminate H].
  cbn [mbind result_bind] in H.
  destruct (_calculate_boost_factor lower c) as [b|e]; [|discriminate H].
  cbn [mbind result_bind] in H. injection H as <-. eauto.
Qed.

(** C3: [calculate_importance] returns a value in [0,1] on every
    document, and when the body of its [try] block raises, whatever the
    exception, it returns 0.5. *)
Theorem calculate_importance_bounded lower log10 now c :
  (0 <= calculate_importance lower log10 now c <= 1)%Q /\
  (forall e, importance_body lower log10 now c = Raise e ->
             calculate_importance lower log10 now c = 0.5%Q).
Proof.
  unfold calculate_importance.
  destruct (importance_body lower log10 now c) as [r|e] eqn:Hbody.
  - split; [|discriminate].
    destruct (importance_body_clamped _ _ _ _ _ Hbody) as [x ->].
    apply clamp_bounds.
  - split; [cbn; lra | reflexivity].
Qed.

(** The error path is taken: a document whose [quality_score] is [None]
    makes [score * weight] raise, and the score is 0.5. *)
Lemma calculate_importance_bounded_witness :
  importance_body ascii_lower (fun _ => 0%Q) 0 Samples.no_quality = Raise TypeError /\
  calculate_importance ascii_lower (fun _ => 0%Q) 0 Samples.no_quality = 0.5%Q.
Proof.
  split; [reflexivity|].
  apply (proj2 (calculate_importance_bounded ascii_lower (fun _ => 0%Q) 0
                  Samples.no_quality) TypeError).
  reflexivity.
Defined.

(** What the table loop finds. *)
Lemma first_match_none table s :
  first_match table s = None <->
  forall key score, In (key, score) table -> contains key s = false.
Proof.
  induction table as [|[k sc] table IH]; simpl.
  - split; [intros _ ? ? [] | reflexivity].
  - destruct (contains k s) eqn:Hk.
    + split; [discriminate|]. intros H. specialize (H k sc (or_introl eq_refl)).
      congruence.
    + rewrite IH. split.
      * intros H key score [Heq | Hin]; [congruence | eauto].
      * intros H key score Hin. eauto.
Qed.

Lemma first_match_some table s score :
  first_match table s = Some score <->
  exists earlier key later,
    table = earlier ++ (key, score) :: later /\
    contains key s = true /\
    forall key' score', In (key', score') earlier -> contains key' s = false.
Proof.
  induction table as [|[k sc] table IH]; simpl.
  - split; [discriminate|]. intros (earlier & key & later & H & _).
    destruct earlier; discriminate H.
  - destruct (contains k s) eqn:Hk.
    + split.
      * intros [= ->]. exists [], k, table. split; [reflexivity|].
        split; [exact Hk | intros ? ? []].
      * intros (earlier & key & later & H & Hkey & Hearlier).
        destruct earlier as [|[k' sc'] earlier]; simpl in H.
        -- congruence.
        -- assert (k' = k) as -> by congruence.
           specialize (Hearlier k sc' (or_introl eq_refl)). congruence.
    + rewrite IH. split.
      * intros (earlier & key & later & -> & Hkey & Hearlier).
        exists ((k, sc) :: earlier), key, later. split; [reflexivity|].
        split; [exact Hkey|].
        intros key' score' [Heq | Hin]; [congruence | eauto].
      * intros (earlier & key & later & H & Hkey & Hearlier).
        destruct earlier as [|[k' sc'] earlier]; simpl in H.
        -- assert (key = k) as -> by congruence. congruence.
        -- exists earlier, key, later.
           split; [congruence|]. split; [exact Hkey|].
           intros key' score' Hin. apply (Hearlier key' score').
           right. exact Hin.
Qed.

(** C4 as stated fails on the empty source: no key of the table occurs in
    it and the base authority is not positive, so the claim gives 0.5,
    while the guard [if not source] returns the base authority, 0. *)
Lemma authority_empty_source_counterexample :
  first_match authority_sources (ascii_lower []) = None /\
  ~ (0 < 0)%Q /\
  ~ (_calculate_authority ascii_lower (Some []) 0 == 0.5)%Q.
Proof.
  split; [reflexivity|]. split; [lra|]. cbn. intros H. discriminate H.
Qed.

(** C4, amended: for a non-empty source the authority factor is
    [max(score, base)] for the score of the first key of the table, in
    table order, that occurs in the lower-cased source, and, when no key
    occurs in it, the base authority if it is positive and 0.5 if not;
    for an empty or absent source it is the base authority as given. *)
Theorem calculate_authority_cases lower (src : pystr) (base : Q) :
  src <> [] ->
  (forall earlier key score later,
      authority_sources = earlier ++ (key, score) :: later ->
      contains key (lower src) = true ->
      (forall key' score', In (key', score') earlier ->
                           contains key' (lower src) = false) ->
      _calculate_authority lower (Some src) base = py_max score base) /\
  ((forall key score, In (key, score) authority_sources ->
                      contains key (lower src) = false) ->
   _calculate_authority lower (Some src) base
   = if Qlt_le_dec 0 base then base else 0.5%Q) /\
  _calculate_authority lower (Some []) base = base /\
  _calculate_authority lower None base = base.
Proof.
  intros Hsrc. destruct src as [|c src]; [congruence|].
  split; [|split; [|split; reflexivity]].
  - intros earlier key score later Htable Hkey Hearlier.
    unfold _calculate_authority.
    replace (first_match authority_sources (lower (c :: src))) with (Some score);
      [reflexivity|].
    symmetry. apply first_match_some. exists earlier, key, later. auto.
  - intros Hnone. unfold _calculate_authority.
    replace (first_match authority_sources (lower (c :: src))) with (@None Q);
      [reflexivity|].
    symmetry. apply first_match_none. exact Hnone.
Qed.

(** "Google DeepMind" matches [google] before [deepmind]; with base 0.7
    the factor is 0.95. *)
Lemma calculate_authority_cases_witness :
  _calculate_authority ascii_lower (Some (u "Google DeepMind")) 0.7
  = py_max 0.95 0.7.
Proof.
  refine (proj1 (calculate_authority_cases ascii_lower (u "Google DeepMind") 0.7 _)
            [(u "openai", 1.0%Q)] (u "google") 0.95%Q _ _ _ _).
  - vm_compute. discriminate.
  - reflexivity.
  - reflexivity.
  - intros key' score' [[= <- <-] | []]. reflexivity.
Defined.

Ltac by_schedule :=
  unfold _calculate_timeliness, hours, days;
  repeat match goal with
         | |- context [?a <? ?b] => destruct (Z.ltb_spec a b); try lia
         end.

(** C5: against one current time, a later publish time gets a timeliness
    factor at least as large as an earlier one; the factor follows the step
    schedule on the age [now - publish_time], and it is 0.3 without a
    publish time. *)
Theorem timeliness_monotone (now t1 t2 : Z) :
  t1 <= t2 ->
  (_calculate_timeliness now (Some t1) <= _calculate_timeliness now (Some t2))%Q /\
  (now - t1 < hours 1 -> _calculate_timeliness now (Some t1) = 1.0%Q) /\
  (hours 1 <= now - t1 < hours 6 -> _calculate_timeliness now (Some t1) = 0.9%Q) /\
  (hours 6 <= now - t1 < days 1 -> _calculate_timeliness now (Some t1) = 0.8%Q) /\
  (days 1 <= now - t1 < days 3 -> _calculate_timeliness now (Some t1) = 0.6%Q) /\
  (days 3 <= now - t1 < days 7 -> _calculate_timeliness now (Some t1) = 0.4%Q) /\
  (days 7 <= now - t1 < days 30 -> _calculate_timeliness now (Some t1) = 0.2%Q) /\
  (days 30 <= now - t1 -> _calculate_timeliness now (Some t1) = 0.1%Q) /\
  _calculate_timeliness now None = 0.3%Q.
Proof.
  intros Hle. split.
  - by_schedule; unfold Qle; simpl; lia.
  - repeat split; try (intros H; revert H); by_schedule;
      intros; try reflexivity; lia.
Qed.

(** A document of two hours ago against one of two days ago. *)
Lemma timeliness_monotone_witness :
  let now := days 10 in
  let older := days 8 in
  let newer := days 10 - hours 2 in
  (_calculate_timeliness now (Some older)
   <= _calculate_timeliness now (Some newer))%Q.
Proof.
  refine (proj1 (timeliness_monotone (days 10) (days 8) (days 10 - hours 2) _)).
  vm_compute. discriminate.
Defined.

End ScorerProps.

(** ** ContentCleaner *)

Module CleanerProps.

Import ContentCleaner.

Lemma forallb_false_witness {A : Type} (f : A -> bool) (l : list A) :
  forallb f l = false -> exists x, In x l /\ f x = false.
Proof.
  induction l as [|a l IH]; simpl; [discriminate|].
  destruct (f a) eqn:Ha; simpl.
  - intros H. destruct (IH H) as (x & Hin & Hx). eauto.
  - intros _. eauto.
Qed.

(** What the test of the line loop means. *)
Lemma keep_line_true (line : pystr) :
  keep_line line = true <->
  10 < len line \/ exists c, In c line /\ is_digit_cp c = false.
Proof.
  unfold keep_line. rewrite orb_true_iff, andb_true_iff, negb_true_iff.
  rewrite Z.ltb_lt. split.
  - intros [H | [Hne Hdigit]]; [left; exact H | right].
    destruct line as [|c line]; [discriminate Hne|].
    apply forallb_false_witness. exact Hdigit.
  - intros [H | (c & Hin & Hc)]; [left; exact H | right].
    destruct line as [|c0 line]; [destruct Hin|].
    split; [reflexivity|]. unfold isdigit.
    destruct (forallb is_digit_cp (c0 :: line)) eqn:Hall; [|reflexivity].
    rewrite forallb_forall in Hall. rewrite (Hall c Hin) in Hc. discriminate Hc.
Qed.

Lemma keep_line_false (line : pystr) :
  keep_line line = false <->
  len line <= 10 /\ (line = [] \/ forall c, In c line -> is_digit_cp c = true).
Proof.
  unfold keep_line. rewrite orb_false_iff, andb_false_iff, negb_false_iff.
  rewrite Z.ltb_ge. split.
  - intros [Hlen [Hempty | Hdigit]]; split; try exact Hlen.
    + left. destruct line; [reflexivity | discriminate Hempty].
    + right. unfold isdigit in Hdigit. destruct line; [discriminate Hdigit|].
      apply forallb_forall. exact Hdigit.
  - intros [Hlen [-> | Hdigit]]; split; try exact Hlen.
    + left. reflexivity.
    + destruct line as [|c line]; [left; reflexivity | right].
      unfold isdigit. apply forallb_forall. exact Hdigit.
Qed.

(** A piece of [split_on] holds no separator. *)
Lemma split_on_no_sep (sep : N) (s piece : pystr) :
  In piece (split_on sep s) -> ~ In sep piece.
Proof.
  revert piece. induction s as [|c s IH]; simpl; intros piece.
  - intros [<- | []]. intros [].
  - destruct (N.eqb_spec c sep) as [-> | Hne].
    + intros [<- | Hin]; [intros [] | apply IH; exact Hin].
    + destruct (split_on sep s) as [|first pieces] eqn:Hsplit.
      * intros [<- | []]. intros [Heq | []]. congruence.
      * intros [<- | Hin].
        -- intros [Heq | Hin]; [congruence|].
           apply (IH first); [left; reflexivity | exact Hin].
        -- apply IH. right. exact Hin.
Qed.

Lemma split_on_single (sep : N) (piece : pystr) :
  ~ In sep piece -> split_on sep piece = [piece].
Proof.
  induction piece as [|c piece IH]; simpl; [reflexivity|].
  intros Hnot. destruct (N.eqb_spec c sep) as [-> | Hne].
  - exfalso. apply Hnot. left. reflexivity.
  - rewrite IH; [reflexivity|]. intros Hin. apply Hnot. right. exact Hin.
Qed.

Lemma split_on_app (sep : N) (piece rest : pystr) :
  ~ In sep piece ->
  split_on sep (piece ++ sep :: rest) = piece :: split_on sep rest.
Proof.
  induction piece as [|c piece IH]; simpl.
  - intros _. rewrite N.eqb_refl. reflexivity.
  - intros Hnot. destruct (N.eqb_spec c sep) as [-> | Hne].
    + exfalso. apply Hnot. left. reflexivity.
    + rewrite IH; [reflexivity|]. intros Hin. apply Hnot. right. exact Hin.
Qed.

(** Splitting what [join] built gives the pieces back. *)
Lemma split_on_join (sep : N) (pieces : list pystr) :
  pieces <> [] ->
  (forall piece, In piece pieces -> ~ In sep piece) ->
  split_on sep (join [sep] pieces) = pieces.
Proof.
  induction pieces as [|piece pieces IH]; [congruence|].
  intros _ Hnot. destruct pieces as [|next pieces].
  - simpl. apply split_on_single. apply Hnot. left. reflexivity.
  - change (join [sep] (piece :: next :: pieces))
      with (piece ++ sep :: join [sep] (next :: pieces)).
    rewrite split_on_app by (apply Hnot; left; reflexivity).
    f_equal. apply IH; [discriminate|].
    intros p Hin. apply Hnot. right. exact Hin.
Qed.

Lemma lstrip_sublist (s : pystr) (c : N) : In c (lstrip s) -> In c s.
Proof.
  induction s as [|a s IH]; simpl; [tauto|].
  destruct (is_space a); [intros H; right; apply IH; exact H | tauto].
Qed.

Lemma strip_sublist (s : pystr) (c : N) : In c (strip s) -> In c s.
Proof.
  unfold strip, rstrip. intros H.
  apply lstrip_sublist. apply in_rev. apply lstrip_sublist.
  apply in_rev. exact H.
Qed.

Lemma stripped_lines_no_newline (text line : pystr) :
  In line (stripped_lines text) -> ~ In 10%N line.
Proof.
  unfold stripped_lines. rewrite in_map_iff. intros (raw & <- & Hraw) Hin.
  apply (split_on_no_sep _ _ _ Hraw). apply strip_sublist. exact Hin.
Qed.

(** C7 as stated fails on the one-line text [---]: the line is kept, it
    is 3 characters long, and none of its characters is alphabetic. *)
Lemma remove_noise_short_line_counterexample :
  remove_noise (u "---") = u "---" /\
  split_on 10%N (remove_noise (u "---")) = [u "---"] /\
  ~ 10 < len (u "---") /\
  forallb (fun c => negb (may_be_alphabetic c)) (u "---") = true.
Proof.
  split; [reflexivity|]. split; [reflexivity|]. split; [|reflexivity].
  vm_compute. discriminate.
Qed.

(** C7, amended: [remove_noise] joins the stripped lines that pass its
    test, in order, and a stripped line is dropped exactly when it is empty
    or is at most 10 characters long and all digits.  So every line of a
    non-empty output exceeds 10 characters or contains a character that is
    not a digit, and no line that contains a character that is not a digit
    (a letter, for one) is dropped, however short. *)
Theorem remove_noise_lines (text line : pystr) :
  remove_noise text = join [10%N] (cleaned_lines text) /\
  cleaned_lines text = List.filter keep_line (stripped_lines text) /\
  (cleaned_lines text <> [] ->
   split_on 10%N (remove_noise text) = cleaned_lines text) /\
  (In line (cleaned_lines text) ->
   10 < len line \/ exists c, In c line /\ is_digit_cp c = false) /\
  (In line (stripped_lines text) ->
   (exists c, In c line /\ is_digit_cp c = false) ->
   In line (cleaned_lines text)) /\
  (In line (stripped_lines text) -> ~ In line (cleaned_lines text) ->
   len line <= 10 /\ (line = [] \/ forall c, In c line -> is_digit_cp c = true)).
Proof.
  assert (Hjoin : remove_noise text = join [10%N] (cleaned_lines text)).
  { destruct text; reflexivity. }
  split; [exact Hjoin|]. split; [reflexivity|]. split; [|split; [|split]].
  - intros Hne. rewrite Hjoin. apply split_on_join; [exact Hne|].
    intros piece Hin. apply (stripped_lines_no_newline text).
    unfold cleaned_lines in Hin. apply filter_In in Hin. tauto.
  - unfold cleaned_lines. rewrite filter_In. intros [_ Hkeep].
    apply keep_line_true. exact Hkeep.
  - intros Hin Hc. unfold cleaned_lines. apply filter_In. split; [exact Hin|].
    apply keep_line_true. right. exact Hc.
  - intros Hin Hnot. apply keep_line_false.
    destruct (keep_line line) eqn:Hkeep; [|reflexivity].
    exfalso. apply Hnot. unfold cleaned_lines. apply filter_In. auto.
Qed.

(** The text "Home / 2024 / --- / (empty)": the all-digit line and the
    empty line are dropped, the others are kept. *)
Lemma remove_noise_lines_witness :
  cleaned_lines (u "Home
2024
---
") = [u "Home"; u "---"] /\
  In (u "Home") (cleaned_lines (u "Home
2024
---
")).
Proof.
  split; [reflexivity|].
  refine (proj1 (proj2 (proj2 (proj2 (proj2
            (remove_noise_lines (u "Home
2024
---
") (u "Home")))))) _ _).
  - vm_compute. auto.
  - exists 72%N. split; [vm_compute; auto | reflexivity].
Defined.

End CleanerProps.

(** ** DataProcessor *)

Module ProcessorProps.

Import ContentCleaner Redis DataProcessor.

Section Processor.

Variable md5_hex : pystr -> pystr.
Variable sha256_hex : pystr -> pystr.
Variable clean : pystr -> CleaningResult.
Variable extract_keywords : pystr -> Z -> pystr -> result (list Keyword).
Variable extract_entities : pystr -> result (list Entity).
Variable extract_topics : pystr -> result (list pystr).
Variable calculate_importance : ProcessedContent -> Q.
Variable _analyze_sentiment : pystr -> list (pystr * pyval).
Variable _categorize_content : list Keyword -> list pystr -> list pystr -> list pystr.
Variable _merge_tags : list pystr -> list Keyword -> list pystr.
Variable _generate_summary : pystr -> pystr.

Local Abbreviation build := (build_content sha256_hex clean extract_keywords
                     extract_entities extract_topics calculate_importance
                     _analyze_sentiment _categorize_content _merge_tags
                     _generate_summary).
Local Abbreviation process := (process_content md5_hex sha256_hex clean extract_keywords
                       extract_entities extract_topics calculate_importance
                       _analyze_sentiment _categorize_content _merge_tags
                       _generate_summary).
Local Abbreviation process2 := (process_two md5_hex sha256_hex clean extract_keywords
                        extract_entities extract_topics calculate_importance
                        _analyze_sentiment _categorize_content _merge_tags
                        _generate_summary).

(** The two namespaces do not meet. *)
Lemma url_key_not_hash_key (url h : pystr) : url_key md5_hex url <> hash_key h.
Proof. unfold url_key, hash_key. vm_compute. discriminate. Qed.

Lemma url_key_inj (url1 url2 : pystr) :
  url_key md5_hex url1 = url_key md5_hex url2 -> md5_hex url1 = md5_hex url2.
Proof. unfold url_key. apply app_inv_head. Qed.

(** On a server that answers, marking adds the two keys and nothing
    else. *)
Lemma mark_as_processed_live (r : RedisClient) (url h : pystr) :
  reachable r = true -> url <> [] ->
  exists r',
    _mark_as_processed md5_hex (Some r) url h = Some r' /\
    reachable r' = true /\
    db r' = <[hash_key h := (u "1", Some dedup_expire)]>
              (<[url_key md5_hex url := (u "1", Some dedup_expire)]> (db r)).
Proof.
  intros Hlive Hurl. destruct url as [|c url]; [congruence|].
  unfold _mark_as_processed, set. rewrite Hlive.
  cbn [mbind result_bind try_except reachable db].
  eexists. split; [reflexivity|]. split; reflexivity.
Qed.

Lemma is_already_processed_live (r : RedisClient) (url : pystr) :
  reachable r = true -> url <> [] ->
  _is_already_processed md5_hex (Some r) url
  = bool_decide (is_Some (db r !! url_key md5_hex url)).
Proof.
  intros Hlive Hurl. destruct url as [|c url]; [congruence|].
  unfold _is_already_processed, exists_. rewrite Hlive. reflexivity.
Qed.

(** [process_content] emits a document exactly when it has a title, its
    URL is not marked, and the pipeline produces a content. *)
Lemma process_content_emits now rc d p :
  fst (process now rc d) = Some p <->
  cd_title d <> [] /\
  _is_already_processed md5_hex rc (cd_url d) = false /\
  exists h, build now d = Ok (Some (p, h)).
Proof.
  unfold process_content. destruct (cd_title d) as [|t ts].
  - simpl. split; [discriminate | intros [H _]; congruence].
  - destruct (_is_already_processed md5_hex rc (cd_url d)).
    + simpl. split; [discriminate | intros (_ & H & _); discriminate].
    + destruct (build now d) as [[[p' h']|]|e]; simpl.
      * split.
        -- intros [= ->]. split; [discriminate|]. split; [reflexivity|]. eauto.
        -- intros (_ & _ & h & [= -> _]). reflexivity.
      * split; [discriminate | intros (_ & _ & h & H); discriminate].
      * split; [discriminate | intros (_ & _ & h & H); discriminate].
Qed.

(** The client after a document was emitted. *)
Lemma process_content_marks now rc d p h :
  cd_title d <> [] ->
  _is_already_processed md5_hex rc (cd_url d) = false ->
  build now d = Ok (Some (p, h)) ->
  process now rc d = (Some p, _mark_as_processed md5_hex rc (cd_url d) h).
Proof.
  intros Ht Hurl Hbuild. unfold process_content.
  destruct (cd_title d); [congruence|]. rewrite Hurl, Hbuild. reflexivity.
Qed.

(** A URL is admitted at most once: after a document was emitted on a
    server that answers, a document with the same non-empty URL gives no
    result. *)
Lemma process_content_same_url now1 now2 r d1 d2 p1 :
  reachable r = true ->
  cd_url d1 <> [] ->
  cd_url d2 = cd_url d1 ->
  fst (process now1 (Some r) d1) = Some p1 ->
  fst (process now2 (snd (process now1 (Some r) d1)) d2) = None.
Proof.
  intros Hlive Hurl Hsame Hfirst.
  apply process_content_emits in Hfirst as (Ht & Hnew & h & Hbuild).
  rewrite (process_content_marks _ _ _ _ _ Ht Hnew Hbuild). cbn [snd].
  destruct (mark_as_processed_live r (cd_url d1) h Hlive Hurl)
    as (r' & -> & Hlive' & Hdb).
  unfold process_content. destruct (cd_title d2); [reflexivity|].
  rewrite Hsame, (is_already_processed_live r' _ Hlive' Hurl), Hdb.
  rewrite lookup_insert_ne by (apply not_eq_sym, url_key_not_hash_key).
  rewrite lookup_insert_eq.
  rewrite bool_decide_eq_true_2 by eauto. reflexivity.
Qed.

(** C1 at the failing input: two documents with different URLs and the
    same cleaned text, processed one after the other on a server that
    answers.  The first call stores the content hash; the second call
    finds no mark for its URL, never looks the hash up, and emits the
    second document too. *)
Theorem process_content_same_content_twice now1 now2 r d1 d2 p1 p2 h :
  reachable r = true ->
  db r !! url_key md5_hex (cd_url d1) = None ->
  db r !! url_key md5_hex (cd_url d2) = None ->
  cd_url d1 <> [] -> cd_url d2 <> [] ->
  md5_hex (cd_url d1) <> md5_hex (cd_url d2) ->
  cd_title d1 <> [] -> cd_title d2 <> [] ->
  build now1 d1 = Ok (Some (p1, h)) ->
  build now2 d2 = Ok (Some (p2, h)) ->
  (exists r1, snd (process now1 (Some r) d1) = Some r1 /\
              is_Some (db r1 !! hash_key h)) /\
  fst (process2 now1 now2 (Some r) d1 d2) = (Some p1, Some p2).
Proof.
  intros Hlive Hnew1 Hnew2 Hurl1 Hurl2 Hmd5 Ht1 Ht2 Hb1 Hb2.
  assert (Hfirst : _is_already_processed md5_hex (Some r) (cd_url d1) = false).
  { rewrite (is_already_processed_live r _ Hlive Hurl1), Hnew1.
    apply bool_decide_eq_false_2. intros [x Hx]. discriminate Hx. }
  destruct (mark_as_processed_live r (cd_url d1) h Hlive Hurl1)
    as (r1 & Hmark & Hlive1 & Hdb1).
  assert (Hsecond : _is_already_processed md5_hex (Some r1) (cd_url d2) = false).
  { rewrite (is_already_processed_live r1 _ Hlive1 Hurl2), Hdb1.
    rewrite lookup_insert_ne by (apply not_eq_sym, url_key_not_hash_key).
    rewrite lookup_insert_ne
      by (intros Heq; apply Hmd5; apply url_key_inj; exact Heq).
    rewrite Hnew2. apply bool_decide_eq_false_2. intros [x Hx]. discriminate Hx. }
  split.
  - exists r1. rewrite (process_content_marks _ _ _ _ _ Ht1 Hfirst Hb1).
    cbn [snd]. split; [exact Hmark|]. rewrite Hdb1, lookup_insert_eq. eauto.
  - unfold process_two.
    rewrite (process_content_marks _ _ _ _ _ Ht1 Hfirst Hb1), Hmark.
    rewrite (process_content_marks _ _ _ _ _ Ht2 Hsecond Hb2). reflexivity.
Qed.

End Processor.

(** The same sixty characters fetched from two addresses, with a cleaner
    that returns them as they are and hash functions without collisions:
    both documents are emitted. *)
Lemma process_content_same_content_twice_witness :
  exists p1 p2,
    fst (process_two (fun s => s) (fun s => s) Samples.plain_clean
           (fun _ _ _ => Ok []) (fun _ => Ok []) (fun _ => Ok [])
           (fun _ => 0.5%Q) (fun _ => []) (fun _ _ _ => []) (fun _ _ => [])
           (fun s => s) 0 1 (Some Samples.empty_server)
           (Samples.item "first" Samples.sixty "https://a.example/1")
           (Samples.item "second" Samples.sixty "https://b.example/2"))
    = (Some p1, Some p2) /\
    cleaned_content p1 = cleaned_content p2.
Proof.
  eexists. eexists. split.
  - refine (proj2 (process_content_same_content_twice
             (fun s => s) (fun s => s) Samples.plain_clean
             (fun _ _ _ => Ok []) (fun _ => Ok []) (fun _ => Ok [])
             (fun _ => 0.5%Q) (fun _ => []) (fun _ _ _ => []) (fun _ _ => [])
             (fun s => s) 0 1 Samples.empty_server
             (Samples.item "first" Samples.sixty "https://a.example/1")
             (Samples.item "second" Samples.sixty "https://b.example/2")
             _ _ (Samples.sixty) _ _ _ _ _ _ _ _ _ _)).
    + reflexivity.
    + reflexivity.
    + reflexivity.
    + vm_compute. discriminate.
    + vm_compute. discriminate.
    + vm_compute. discriminate.
    + vm_compute. discriminate.
    + vm_compute. discriminate.
    + reflexivity.
    + reflexivity.
  - reflexivity.
Defined.

End ProcessorProps.

(** ** The built-in sort *)

Module SortProps.

Import PySort.

Section Sort.

Context {A : Type}.
Variable key : A -> Q.

Lemma insert_sorted_perm reverse (x : A) (l : list A) :
  Permutation (insert_sorted key reverse x l) (x :: l).
Proof.
  induction l as [|y l IH]; cbn [insert_sorted]; [reflexivity|].
  destruct (strictly_before key reverse y x); [|reflexivity].
  rewrite IH. apply perm_swap.
Qed.

Lemma sorted_perm reverse (l : list A) : Permutation (sorted key reverse l) l.
Proof.
  induction l as [|x l IH]; simpl; [reflexivity|].
  rewrite insert_sorted_perm, IH. reflexivity.
Qed.

Lemma strictly_before_desc (y x : A) :
  strictly_before key true y x = true <-> (key x < key y)%Q.
Proof.
  unfold strictly_before. rewrite negb_true_iff. split.
  - intros H. apply Qnot_le_lt. rewrite <- Qle_bool_iff. congruence.
  - intros H. destruct (Qle_bool (key y) (key x)) eqn:Hle; [|reflexivity].
    apply Qle_bool_iff in Hle. lra.
Qed.

Lemma strictly_before_desc_false (y x : A) :
  strictly_before key true y x = false <-> (key y <= key x)%Q.
Proof.
  unfold strictly_before. rewrite negb_false_iff. apply Qle_bool_iff.
Qed.

Lemma insert_sorted_descending (x : A) (l : list A) :
  descending key l -> descending key (insert_sorted key true x l).
Proof.
  unfold descending. induction l as [|y l IH]; cbn [insert_sorted]; intros Hl.
  - constructor; constructor.
  - destruct (strictly_before key true y x) eqn:Hyx.
    + apply strictly_before_desc in Hyx.
      apply StronglySorted_inv in Hl as [Hl Hy].
      constructor; [apply IH; exact Hl|].
      rewrite !List.Forall_forall in Hy |- *. intros z Hz.
      apply (Permutation_in _ (insert_sorted_perm true x l)) in Hz.
      destruct Hz as [<- | Hz]; [lra | apply Hy; exact Hz].
    + apply strictly_before_desc_false in Hyx.
      constructor; [exact Hl|].
      apply StronglySorted_inv in Hl as [_ Hy].
      constructor; [exact Hyx|].
      rewrite !List.Forall_forall in Hy |- *. intros z Hz.
      specialize (Hy z Hz). lra.
Qed.

Lemma sorted_descending (l : list A) : descending key (sorted key true l).
Proof.
  induction l as [|x l IH]; simpl; [constructor|].
  apply insert_sorted_descending. exact IH.
Qed.

(** The elements with one key keep their order. *)
Lemma insert_sorted_stable (v : Q) (x : A) (l : list A) :
  List.filter (fun a => Qeq_bool (key a) v) (insert_sorted key true x l)
  = List.filter (fun a => Qeq_bool (key a) v) (x :: l).
Proof.
  induction l as [|y l IH]; [reflexivity|].
  cbn [insert_sorted]. destruct (strictly_before key true y x) eqn:Hyx;
    [|reflexivity].
  apply strictly_before_desc in Hyx.
  cbn [List.filter] in *. rewrite IH.
  destruct (Qeq_bool (key x) v) eqn:Hx; [|reflexivity].
  destruct (Qeq_bool (key y) v) eqn:Hy; [|reflexivity].
  apply Qeq_bool_iff in Hx, Hy. lra.
Qed.

Lemma sorted_stable (v : Q) (l : list A) :
  List.filter (fun a => Qeq_bool (key a) v) (sorted key true l)
  = List.filter (fun a => Qeq_bool (key a) v) l.
Proof.
  induction l as [|x l IH]; [reflexivity|].
  cbn [sorted]. rewrite insert_sorted_stable.
  cbn [List.filter]. rewrite IH. reflexivity.
Qed.

End Sort.

End SortProps.

(** ** ContentAggregator *)

Module AggregatorProps.

Import PyVal PySort ContentAggregator SortProps.

(** C6: [sort_by_importance] returns a permutation of its input whose
    importance scores do not increase; the documents with one score keep
    their relative order; and the call builds a new list, the list object
    it was given holding afterwards what it held before. *)
Theorem sort_by_importance_stable (contents : list ProcessedContent) :
  Permutation (sort_by_importance contents) contents /\
  descending importance_score (sort_by_importance contents) /\
  (forall v : Q,
      List.filter (fun c => Qeq_bool (importance_score c) v)
                  (sort_by_importance contents)
      = List.filter (fun c => Qeq_bool (importance_score c) v) contents) /\
  (forall (heap : gmap nat (list ProcessedContent)) (address : nat),
      heap !! address = Some contents ->
      exists heap' address',
        sort_by_importance_at heap address = Some (heap', address') /\
        address' <> address /\
        heap' !! address = Some contents /\
        heap' !! address' = Some (sort_by_importance contents)).
Proof.
  split; [apply sorted_perm|]. split; [apply sorted_descending|].
  split; [intros v; apply sorted_stable|].
  intros heap address Hheap. unfold sort_by_importance_at. rewrite Hheap.
  cbn. eexists. eexists. split; [reflexivity|].
  assert (Hfresh : fresh (dom heap) <> address).
  { intros Heq. apply (is_fresh (dom heap)). rewrite Heq.
    apply elem_of_dom. eauto. }
  split; [exact Hfresh|]. split.
  - rewrite lookup_insert_ne by exact Hfresh. exact Hheap.
  - apply lookup_insert_eq.
Qed.

(** Three documents scored 0.5, 0.9, 0.5 stored at address 0. *)
Lemma sort_by_importance_stable_witness :
  sort_by_importance [Samples.doc "a" 0.5; Samples.doc "b" 0.9; Samples.doc "c" 0.5]
  = [Samples.doc "b" 0.9; Samples.doc "a" 0.5; Samples.doc "c" 0.5] /\
  exists heap' address',
    sort_by_importance_at
      {[ 0%nat := [Samples.doc "a" 0.5; Samples.doc "b" 0.9; Samples.doc "c" 0.5] ]}
      0%nat = Some (heap', address') /\
    address' <> 0%nat /\
    heap' !! 0%nat
    = Some [Samples.doc "a" 0.5; Samples.doc "b" 0.9; Samples.doc "c" 0.5] /\
    heap' !! address'
    = Some (sort_by_importance
              [Samples.doc "a" 0.5; Samples.doc "b" 0.9; Samples.doc "c" 0.5]).
Proof.
  split; [reflexivity|].
  refine (proj2 (proj2 (proj2 (sort_by_importance_stable
            [Samples.doc "a" 0.5; Samples.doc "b" 0.9; Samples.doc "c" 0.5])))
            {[ 0%nat := _ ]} 0%nat _).
  apply lookup_singleton_eq.
Defined.

(** *** [apply_filters] *)

Section Filters.

Variable other_attr : pyval -> pystr -> option pyval.

Local Abbreviation _get_nested_value := (_get_nested_value other_attr).
Local Abbreviation apply_filter := (apply_filter other_attr).
Local Abbreviation apply_filters := (apply_filters other_attr).

(** The attribute [importance_score] is read as the score. *)
Lemma get_importance_score (c : ProcessedContent) :
  _get_nested_value (content_obj c) (u "importance_score") VNone
  = VNum (importance_score c).
Proof.
  unfold _get_nested_value, content_obj.
  destruct (entities c), (quality_score c); reflexivity.
Qed.

Lemma filter_m_total {A : Type} (p : A -> result bool) (q : A -> bool)
    (l : list A) :
  (forall a, p a = Ok (q a)) -> filter_m p l = Ok (List.filter q l).
Proof.
  intros Hp. induction l as [|a l IH]; [reflexivity|].
  cbn [filter_m List.filter]. rewrite Hp, IH. cbn. destruct (q a); reflexivity.
Qed.

(** The filter of the specification, [{importance_score: {"$gte": t}}],
    returns exactly the documents whose score is at least [t]. *)
Lemma apply_filters_importance_gte (contents : list ProcessedContent) (t : Q) :
  apply_filters contents [(u "importance_score", VDict [(u "$gte", VNum t)])]
  = Ok (List.filter (fun c => Qle_bool t (importance_score c)) contents).
Proof.
  cbn [apply_filters]. unfold apply_filter.
  change (dict_get [(u "$gte", VNum t)] (u "$gte")) with (Some (VNum t)).
  cbv beta iota.
  rewrite (filter_m_total _ (fun c => Qle_bool t (importance_score c))).
  - reflexivity.
  - intros c. rewrite get_importance_score. reflexivity.
Qed.

(** [None] is ordered with nothing. *)
Lemma py_cmp_none (ge : bool) (b : pyval) : py_cmp ge VNone b = Raise TypeError.
Proof. destruct b; reflexivity. Qed.

(** A list condition drops a document whose field is missing, and so
    does an equality with a value other than [None]. *)
Lemma apply_filter_missing_field_excluded (c : ProcessedContent)
    (field : pystr) (vals : list pyval) (v : pyval) :
  _get_nested_value (content_obj c) field (VList []) = VList [] ->
  _get_nested_value (content_obj c) field VNone = VNone ->
  apply_filter [c] field (VList vals) = Ok [] /\
  apply_filter [c] field (VStr (u "ORG")) = Ok [] /\
  apply_filter [c] field (VDict [(u "$in", VList [VStr (u "ORG")])]) = Ok [].
Proof.
  intros Hlist Hnone. unfold apply_filter. cbn [filter_m List.filter].
  rewrite Hlist, Hnone. split; [|split; reflexivity].
  assert (Hany : any_m (fun val => py_in val (VList [])) vals = Ok false).
  { induction vals as [|val vals IH]; [reflexivity|]. cbn. exact IH. }
  rewrite Hany. reflexivity.
Qed.

(** C2 at the failing input: a [$gte] (or [$lte]) condition on a field
    that the first document does not have, or has as [None].
    [_get_nested_value] returns [None], nothing guards the comparison with
    the threshold, and [apply_filters] raises a [TypeError] instead of
    leaving the document out. *)
Theorem apply_filters_missing_field_raises (c : ProcessedContent)
    (rest : list ProcessedContent) (field : pystr)
    (cond : list (pystr * pyval)) (threshold : pyval)
    (more : list (pystr * pyval)) :
  _get_nested_value (content_obj c) field VNone = VNone ->
  (dict_get cond (u "$gte") = Some threshold \/
   dict_get cond (u "$gte") = None /\ dict_get cond (u "$lte") = Some threshold) ->
  apply_filters (c :: rest) ((field, VDict cond) :: more) = Raise TypeError.
Proof.
  intros Hnone [Hgte | [Hgte Hlte]]; cbn [apply_filters]; unfold apply_filter;
    rewrite Hgte; try rewrite Hlte; cbn [filter_m]; rewrite Hnone;
    unfold py_ge, py_le; rewrite py_cmp_none; reflexivity.
Qed.

End Filters.

(** The filter [{"nonexistent": {"$gte": 0.7}}] on one document. *)
Lemma apply_filters_missing_field_raises_witness :
  apply_filters Samples.data_attrs [Samples.blank]
    [(u "nonexistent", VDict [(u "$gte", VNum 0.7)])] = Raise TypeError.
Proof.
  refine (apply_filters_missing_field_raises Samples.data_attrs Samples.blank []
            (u "nonexistent") [(u "$gte", VNum 0.7)] (VNum 0.7) [] _ _).
  - reflexivity.
  - left. reflexivity.
Defined.

(** *** [calculate_statistics] *)

Lemma round3_multiple (x : Q) : exists k : Z, round3 x = (inject_Z k / 1000)%Q.
Proof. unfold round3. eexists. reflexivity. Qed.

Ltac by_floor :=
  unfold Qdiv; change (/ 1000)%Q with (1 # 1000)%Q;
  match goal with
  | |- context [inject_Z (Qfloor ?y)] =>
      generalize dependent (inject_Z (Qfloor y)); intros; lra
  end.

Lemma round3_close (x : Q) :
  (- (1 # 2000) <= round3 x - x <= 1 # 2000)%Q.
Proof.
  unfold round3.
  pose proof (Qfloor_le (x * 1000)) as Hlow.
  pose proof (Qlt_floor (x * 1000)) as Hhigh.
  rewrite inject_Z_plus in Hhigh. change (inject_Z 1) with 1%Q in Hhigh.
  destruct (Qlt_le_dec (x * 1000 - inject_Z (Qfloor (x * 1000))) 0.5)
    as [Hlt | Hge].
  - by_floor.
  - destruct (Qlt_le_dec 0.5 (x * 1000 - inject_Z (Qfloor (x * 1000))))
      as [Hgt | Hle].
    + rewrite inject_Z_plus. change (inject_Z 1) with 1%Q.
      by_floor.
    + destruct (Z.even (Qfloor (x * 1000))).
      * by_floor.
      * rewrite inject_Z_plus. change (inject_Z 1) with 1%Q.
        by_floor.
Qed.

Lemma sentiment_stats_total (contents : list ProcessedContent)
    (counts : list (pyval * nat)) :
  labels_hashable contents ->
  exists counts', sentiment_stats contents counts = Ok counts'.
Proof.
  intros Hall. revert counts.
  induction Hall as [|c contents Hc Hall IH]; intros counts; cbn [sentiment_stats].
  - eauto.
  - unfold label_hashable in Hc. destruct (sentiment c) as [[|kv d]|]; try apply IH.
    unfold count_key. rewrite Hc. cbn. apply IH.
Qed.

Lemma sentiment_stats_hashable (contents : list ProcessedContent)
    (counts counts' : list (pyval * nat)) :
  sentiment_stats contents counts = Ok counts' -> labels_hashable contents.
Proof.
  revert counts. induction contents as [|c contents IH]; intros counts;
    cbn [sentiment_stats]; [constructor|].
  intros H. constructor.
  - unfold label_hashable.
    destruct (sentiment c) as [[|kv d]|]; try exact I.
    unfold count_key in H.
    destruct (hashable (default (VStr (u "neutral"))
                          (dict_get (kv :: d) (u "label"))));
      [reflexivity | discriminate H].
  - destruct (sentiment c) as [[|kv d]|]; try (eapply IH; exact H).
    unfold count_key in H.
    destruct (hashable (default (VStr (u "neutral"))
                          (dict_get (kv :: d) (u "label"))));
      [|discriminate H].
    cbn [mbind result_bind] in H. eapply IH. exact H.
Qed.

(** [min(times)] and [max(times)] return exactly when every element is
    of the kind, naive or aware, of the first, and what they return is of
    that kind and bounds the instants. *)
Lemma min_time_total (held : datetime) (times : list datetime) :
  forallb (fun s => Bool.eqb (aware s) (aware held)) times = true ->
  exists first, min_time held times = Ok first.
Proof.
  revert held. induction times as [|t times IH]; intros held;
    cbn [forallb min_time]; [eauto|].
  intros H. apply andb_true_iff in H as [Ht Hall].
  unfold datetime_lt. rewrite Ht. cbn [mbind result_bind].
  apply IH. apply eqb_prop in Ht.
  destruct (instant t <? instant held); [|exact Hall].
  rewrite Ht. exact Hall.
Qed.

Lemma max_time_total (held : datetime) (times : list datetime) :
  forallb (fun s => Bool.eqb (aware s) (aware held)) times = true ->
  exists last, max_time held times = Ok last.
Proof.
  revert held. induction times as [|t times IH]; intros held;
    cbn [forallb max_time]; [eauto|].
  intros H. apply andb_true_iff in H as [Ht Hall].
  apply eqb_prop in Ht.
  unfold datetime_lt. rewrite Ht, Bool.eqb_reflx. cbn [mbind result_bind].
  apply IH. destruct (instant held <? instant t); [|exact Hall].
  rewrite Ht. exact Hall.
Qed.

Lemma min_time_result (held first : datetime) (times : list datetime) :
  min_time held times = Ok first ->
  aware first = aware held /\
  forallb (fun s => Bool.eqb (aware s) (aware held)) times = true /\
  instant first <= instant held /\
  Forall (fun t => instant first <= instant t) times.
Proof.
  revert held. induction times as [|t times IH]; intros held;
    cbn [forallb min_time].
  - intros [= <-]. repeat split; [lia | constructor].
  - unfold datetime_lt.
    destruct (Bool.eqb (aware t) (aware held)) eqn:Ht; [|discriminate].
    cbn [mbind result_bind]. apply eqb_prop in Ht.
    destruct (Z.ltb_spec (instant t) (instant held)) as [Hlt | Hge];
      intros H; apply IH in H as (Haware & Hall & Hle & Hles).
    + rewrite Ht in Haware, Hall.
      split; [exact Haware|]. split; [exact Hall|]. split; [lia|].
      constructor; [lia | exact Hles].
    + split; [exact Haware|]. split; [exact Hall|]. split; [lia|].
      constructor; [lia | exact Hles].
Qed.

Lemma max_time_result (held last : datetime) (times : list datetime) :
  max_time held times = Ok last ->
  aware last = aware held /\
  forallb (fun s => Bool.eqb (aware s) (aware held)) times = true /\
  instant held <= instant last /\
  Forall (fun t => instant t <= instant last) times.
Proof.
  revert held. induction times as [|t times IH]; intros held;
    cbn [forallb max_time].
  - intros [= <-]. repeat split; [lia | constructor].
  - unfold datetime_lt.
    destruct (Bool.eqb (aware held) (aware t)) eqn:Ht; [|discriminate].
    cbn [mbind result_bind]. apply eqb_prop in Ht.
    rewrite <- Ht, Bool.eqb_reflx. cbn [andb].
    destruct (Z.ltb_spec (instant held) (instant t)) as [Hlt | Hge];
      intros H; apply IH in H as (Haware & Hall & Hle & Hles).
    + rewrite <- Ht in Haware, Hall.
      split; [exact Haware|]. split; [exact Hall|]. split; [lia|].
      constructor; [lia | exact Hles].
    + split; [exact Haware|]. split; [exact Hall|]. split; [lia|].
      constructor; [lia | exact Hles].
Qed.

(** The date range is built exactly when the times are of one kind. *)
Lemma date_range_returns (t : datetime) (ts : list datetime) :
  (exists range,
      (first ← min_time t ts;
       last ← max_time t ts;
       span ← datetime_sub last first;
       Ok (Some {| dr_start := first; dr_end := last;
                   dr_days := span / microseconds_per_day + 1 |}))
      = Ok range)
  <-> same_kind (t :: ts) = true.
Proof.
  cbn [same_kind]. split.
  - intros [r Hr].
    destruct (min_time t ts) as [first|e] eqn:Hmin; [|discriminate Hr].
    apply min_time_result in Hmin as (_ & Hall & _). exact Hall.
  - intros Hall.
    destruct (min_time_total t ts Hall) as [first Hmin].
    destruct (max_time_total t ts Hall) as [last Hmax].
    rewrite Hmin, Hmax. cbn [mbind result_bind].
    apply min_time_result in Hmin as (Hfirst & _).
    apply max_time_result in Hmax as (Hlast & _).
    unfold datetime_sub. rewrite Hlast, Hfirst, Bool.eqb_reflx.
    cbn [mbind result_bind]. eauto.
Qed.

(** [calculate_statistics] returns exactly when the labels can be keys
    and the times are of one kind. *)
Lemma calculate_statistics_returns (contents : list ProcessedContent) :
  (exists st, calculate_statistics contents = Ok st)
  <-> labels_hashable contents /\ times_comparable contents.
Proof.
  destruct contents as [|c contents].
  { split; [intros _; split; [constructor | reflexivity] | intros _].
    eexists. reflexivity. }
  unfold calculate_statistics, times_comparable.
  pose proof (date_range_returns) as Hrange.
  destruct (omap time_of (c :: contents)) as [|t ts].
  - split.
    + intros [st Hst].
      destruct (sentiment_stats (c :: contents) []) as [counts|e] eqn:Hcounts;
        [|discriminate Hst].
      split; [eapply sentiment_stats_hashable; exact Hcounts | reflexivity].
    + intros [Hlabels _].
      destruct (sentiment_stats_total (c :: contents) [] Hlabels) as [counts ->].
      cbn [mbind result_bind]. eauto.
  - specialize (Hrange t ts). split.
    + intros [st Hst].
      destruct (sentiment_stats (c :: contents) []) as [counts|e] eqn:Hcounts;
        [|discriminate Hst].
      cbn [mbind result_bind] in Hst.
      split; [eapply sentiment_stats_hashable; exact Hcounts|].
      apply Hrange.
      match type of Hst with
      | mbind _ ?range = _ => destruct range as [r|e]; [eauto | discriminate Hst]
      end.
    + intros [Hlabels Htimes].
      destruct (sentiment_stats_total (c :: contents) [] Hlabels) as [counts ->].
      apply Hrange in Htimes as [r ->].
      cbn [mbind result_bind]. eauto.
Qed.

(** C8: on the empty corpus [calculate_statistics] returns the structure
    with count 0, average 0, no categories, sources or sentiments and no
    date range, and raises nothing.  The structure it returns for a
    non-empty corpus counts the documents and has as average importance
    score the mean rounded to three decimals: a multiple of 1/1000 within
    1/2000 of the mean.  It returns one exactly when the sentiment labels
    can be dictionary keys and the times of the documents are all naive or
    all aware; otherwise it raises. *)
Theorem calculate_statistics_empty_and_rounded :
  calculate_statistics []
  = Ok {| total_count := 0; avg_importance_score := 0;
          st_categories := []; st_sources := [];
          sentiment_distribution := []; date_range := None |} /\
  forall contents : list ProcessedContent,
    contents <> [] ->
    let mean := (sum_importance contents / inject_Z (Z.of_nat (length contents)))%Q in
    (forall st,
        calculate_statistics contents = Ok st ->
        total_count st = Z.of_nat (length contents) /\
        (exists k : Z, avg_importance_score st = (inject_Z k / 1000)%Q) /\
        (- (1 # 2000) <= avg_importance_score st - mean <= 1 # 2000)%Q) /\
    ((exists st, calculate_statistics contents = Ok st) <->
     labels_hashable contents /\ times_comparable contents).
Proof.
  split; [reflexivity|].
  intros contents Hne mean.
  split; [|apply calculate_statistics_returns].
  destruct contents as [|c contents]; [congruence|].
  unfold calculate_statistics.
  intros st Hst.
  destruct (sentiment_stats (c :: contents) []) as [counts|e];
    [|discriminate Hst].
  cbn [mbind result_bind] in Hst.
  match type of Hst with
  | mbind _ ?range = _ => destruct range as [r|e]; [|discriminate Hst]
  end.
  cbn [mbind result_bind] in Hst. injection Hst as <-.
  cbn [total_count avg_importance_score].
  split; [reflexivity|].
  split; [apply round3_multiple | apply round3_close].
Qed.

(** Three documents scored 0.5, 0.9 and 0.6, the first with a time: the
    mean is 2/3 and the average reported is within 1/2000 of it. *)
Lemma calculate_statistics_empty_and_rounded_witness :
  let corpus :=
    [set_publish_time (Samples.doc "a" 0.5) (Some (utc 0));
     Samples.doc "b" 0.9; Samples.doc "c" 0.6] in
  exists st,
    calculate_statistics corpus = Ok st /\
    total_count st = 3 /\
    (- (1 # 2000) <= avg_importance_score st - (2 # 3) <= 1 # 2000)%Q.
Proof.
  intros corpus.
  destruct (proj2 calculate_statistics_empty_and_rounded corpus)
    as [Hrounded Hreturns].
  - discriminate.
  - destruct (proj2 Hreturns) as [st Hst].
    + split; [repeat constructor | reflexivity].
    + exists st. split; [exact Hst|].
      destruct (Hrounded st Hst) as (Hcount & _ & Hclose).
      split; [exact Hcount|].
      assert (Hmean : (sum_importance corpus
                       / inject_Z (Z.of_nat (length corpus)) == 2 # 3)%Q)
        by reflexivity.
      rewrite Hmean in Hclose. exact Hclose.
Defined.

(** *** [aggregate_by_category] *)

Lemma append_to_keeps m category content k x :
  in_group m k x -> in_group (append_to m category content) k x.
Proof.
  intros (group & Hm & Hin). unfold in_group, append_to.
  destruct (decide (category = k)) as [-> | Hne].
  - rewrite lookup_insert_eq, Hm. eexists. split; [reflexivity|].
    apply in_or_app. left. exact Hin.
  - rewrite lookup_insert_ne by exact Hne. eauto.
Qed.

Lemma append_to_adds m category content :
  in_group (append_to m category content) category content.
Proof.
  unfold in_group, append_to. rewrite lookup_insert_eq.
  eexists. split; [reflexivity|]. apply in_or_app. right. left. reflexivity.
Qed.

Lemma append_all_keeps cats m content k x :
  in_group m k x ->
  in_group (fold_left (fun m category => append_to m category content) cats m) k x.
Proof.
  revert m. induction cats as [|cat cats IH]; intros m Hin; [exact Hin|].
  cbn [fold_left]. apply IH. apply append_to_keeps. exact Hin.
Qed.

Lemma append_all_adds cats m content category :
  In category cats ->
  in_group (fold_left (fun m category => append_to m category content) cats m)
           category content.
Proof.
  revert m. induction cats as [|cat cats IH]; intros m; [intros []|].
  cbn [fold_left]. intros [-> | Hin].
  - apply append_all_keeps. apply append_to_adds.
  - apply IH. exact Hin.
Qed.

Lemma categorize_step_keeps m content k x :
  in_group m k x -> in_group (categorize_step m content) k x.
Proof.
  unfold categorize_step. destruct (categories content).
  - apply append_to_keeps.
  - apply append_all_keeps.
Qed.

Lemma categorize_loop_keeps contents m k x :
  in_group m k x -> in_group (fold_left categorize_step contents m) k x.
Proof.
  revert m. induction contents as [|c contents IH]; intros m Hin; [exact Hin|].
  cbn [fold_left]. apply IH. apply categorize_step_keeps. exact Hin.
Qed.

Lemma categorize_loop_adds contents m content :
  In content contents ->
  (categories content = [] ->
   in_group (fold_left categorize_step contents m) (u "未分类") content) /\
  (forall category, In category (categories content) ->
   in_group (fold_left categorize_step contents m) category content).
Proof.
  revert m. induction contents as [|c contents IH]; intros m; [intros []|].
  cbn [fold_left]. intros [-> | Hin]; [|apply IH; exact Hin].
  split.
  - intros Hempty. apply categorize_loop_keeps. unfold categorize_step.
    rewrite Hempty. apply append_to_adds.
  - intros category Hcat. apply categorize_loop_keeps. unfold categorize_step.
    destruct (categories content) as [|cat cats] eqn:Hcats; [destruct Hcat|].
    apply append_all_adds. exact Hcat.
Qed.

Lemma sorted_group_keeps m k x :
  in_group m k x -> in_group (sorted importance_score true <$> m) k x.
Proof.
  intros (group & Hm & Hin). unfold in_group. rewrite lookup_fmap, Hm.
  eexists. split; [reflexivity|].
  apply (Permutation_in _ (Permutation_sym (sorted_perm _ _ group))). exact Hin.
Qed.

(** C9: in the mapping [aggregate_by_category] returns, a document
    without categories is in the group "未分类", a document with
    categories is in the group of each of them, and so every document of
    the corpus is in at least one group. *)
Theorem aggregate_by_category_covers (contents : list ProcessedContent)
    (content : ProcessedContent) :
  In content contents ->
  (categories content = [] ->
   in_group (aggregate_by_category contents) (u "未分类") content) /\
  (forall category, In category (categories content) ->
   in_group (aggregate_by_category contents) category content) /\
  exists category, in_group (aggregate_by_category contents) category content.
Proof.
  intros Hin. unfold aggregate_by_category, categorize.
  destruct (categorize_loop_adds contents ∅ content Hin) as [Hnone Hsome].
  split; [|split].
  - intros Hempty. apply sorted_group_keeps. apply Hnone. exact Hempty.
  - intros category Hcat. apply sorted_group_keeps. apply Hsome. exact Hcat.
  - destruct (categories content) as [|cat cats] eqn:Hcats.
    + exists (u "未分类"). apply sorted_group_keeps. apply Hnone. reflexivity.
    + exists cat. apply sorted_group_keeps. apply Hsome. left. reflexivity.
Qed.

(** A corpus of one document without categories. *)
Lemma aggregate_by_category_covers_witness :
  in_group (aggregate_by_category [Samples.blank]) (u "未分类") Samples.blank.
Proof.
  refine (proj1 (aggregate_by_category_covers [Samples.blank] Samples.blank _) _).
  - left. reflexivity.
  - reflexivity.
Defined.

(** *** [deduplicate_by_title] *)

Section Dedup.

Variable lower : pystr -> pystr.

Local Abbreviation normalized_title := (normalized_title lower).

Lemma dedup_loop_snoc (seen : gset pystr) (contents : list ProcessedContent)
    (c : ProcessedContent) :
  dedup_loop lower seen (contents ++ [c])
  = dedup_loop lower seen contents
    ++ (if decide (normalized_title c ∈ seen
                   \/ normalized_title c ∈ map normalized_title contents)
        then [] else [c]).
Proof.
  revert seen. induction contents as [|d contents IH]; intros seen.
  - cbn [app dedup_loop map]. fold (normalized_title c).
    destruct (decide (normalized_title c ∈ seen)) as [Hin | Hnot].
    + rewrite decide_True by (left; exact Hin). reflexivity.
    + rewrite decide_False; [reflexivity|].
      intros [H | H]; [contradiction | inversion H].
  - cbn [app dedup_loop map]. fold (normalized_title d).
    destruct (decide (normalized_title d ∈ seen)) as [Hin | Hnot].
    + rewrite IH. f_equal.
      apply decide_ext. rewrite elem_of_cons. split.
      * intros [H | H]; [left; exact H | right; right; exact H].
      * intros [H | [H | H]]; [left; exact H | left; congruence | right; exact H].
    + rewrite IH. cbn [app]. f_equal. f_equal.
      apply decide_ext.
      rewrite elem_of_union, elem_of_singleton, elem_of_cons. tauto.
Qed.

(** C10: the result of [deduplicate_by_title] is the same for any two
    thresholds.  It is fixed by the titles alone: nothing is kept of an
    empty corpus, and a document appended to a corpus is kept exactly when
    no document before it has the same title once both are lower-cased and
    stripped, the earlier documents being kept or dropped as before. *)
Theorem deduplicate_by_title_ignores_threshold
    (contents : list ProcessedContent) (t1 t2 : Q) (c : ProcessedContent) :
  deduplicate_by_title lower contents t1 = deduplicate_by_title lower contents t2 /\
  deduplicate_by_title lower [] t1 = [] /\
  deduplicate_by_title lower (contents ++ [c]) t1
  = deduplicate_by_title lower contents t1
    ++ (if decide (normalized_title c ∈ map normalized_title contents)
        then [] else [c]).
Proof.
  split; [reflexivity|]. split; [reflexivity|].
  assert (Hloop : forall l, deduplicate_by_title lower l t1 = dedup_loop lower ∅ l).
  { intros [|x l]; reflexivity. }
  rewrite !Hloop, dedup_loop_snoc. f_equal. apply decide_ext. split.
  - intros [H | H]; [set_solver | exact H].
  - intros H. right. exact H.
Qed.

End Dedup.

End AggregatorProps.

(** * Further properties *)

(** ** ContentScorer *)

Module ScorerExtra.

Import ContentScorer ScorerProps.

Lemma py_max_keep (a b : Q) : (b <= a)%Q -> py_max a b = a.
Proof.
  intros H. unfold py_max. apply Qle_bool_iff in H. rewrite H. reflexivity.
Qed.

(** The title loop of [_calculate_boost_factor] never moves the boost:
    every weight of [important_keywords] is at most 1.0, so each candidate
    [1.0 + (factor - 1.0) * 0.5] is at most the 1.0 the loop starts
    from. *)
Lemma title_loop_fixed (table : list (pystr * Q)) (title_lower : pystr) :
  Forall (fun kf => (snd kf <= 1.0)%Q) table ->
  fold_left
    (fun b kf =>
       if contains (fst kf) title_lower
       then py_max b (1.0 + (snd kf - 1.0) * 0.5)%Q else b)
    table 1.0%Q = 1.0%Q.
Proof.
  induction 1 as [|kf table Hkf _ IH]; [reflexivity|].
  cbn [fold_left]. destruct (contains (fst kf) title_lower); [|exact IH].
  rewrite py_max_keep by lra. exact IH.
Qed.

Lemma important_keywords_at_most_one :
  Forall (fun kf => (snd kf <= 1.0)%Q) important_keywords.
Proof. repeat constructor; cbn; unfold Qle; cbn; lia. Qed.

(** [_calculate_boost_factor] without its title loop. *)
Lemma boost_factor_equation lower (c : ProcessedContent) :
  _calculate_boost_factor lower c
  = let boost := if (3 <=? org_count c)%nat then (1.0 * 1.1)%Q else 1.0%Q in
    match quality_score c with
    | None => Ok boost
    | Some v =>
        q ← as_number v;
        Ok (if Qlt_le_dec 0.8 q then (boost * 1.05)%Q else boost)
    end.
Proof.
  unfold _calculate_boost_factor, org_count.
  destruct (title c) as [|t ts] eqn:Ht.
  - destruct (entities c) as [[|e es]|]; reflexivity.
  - rewrite <- Ht.
    rewrite (title_loop_fixed _ _ important_keywords_at_most_one).
    destruct (entities c) as [[|e es]|]; reflexivity.
Qed.

(** X1: the boost factor does not depend on the title.  With a numeric
    quality score [q] it is 1.0, times 1.1 when at least three entities are
    labelled ORG, times 1.05 when [q > 0.8]; a title that contains
    "breakthrough" or any other important keyword changes nothing. *)
Theorem boost_factor_ignores_title lower (c : ProcessedContent) (q : Q) :
  quality_score c = Some (VNum q) ->
  _calculate_boost_factor lower c
  = Ok (let boost := if (3 <=? org_count c)%nat then (1.0 * 1.1)%Q else 1.0%Q in
        if Qlt_le_dec 0.8 q then (boost * 1.05)%Q else boost).
Proof.
  intros Hq. rewrite boost_factor_equation, Hq. reflexivity.
Qed.

(** A document titled "Breakthrough AI model" and one titled "AI news",
    otherwise equal, have the boost factor 1.0. *)
Lemma boost_factor_ignores_title_witness :
  _calculate_boost_factor ascii_lower (Samples.doc "Breakthrough AI model" 0.5)
  = Ok 1.0%Q /\
  _calculate_boost_factor ascii_lower (Samples.doc "AI news" 0.5) = Ok 1.0%Q.
Proof.
  split.
  - exact (boost_factor_ignores_title ascii_lower
             (Samples.doc "Breakthrough AI model" 0.5) 0.5 eq_refl).
  - exact (boost_factor_ignores_title ascii_lower
             (Samples.doc "AI news" 0.5) 0.5 eq_refl).
Defined.

Lemma py_min_bounds (a x : Q) : (py_min a x <= a)%Q /\ (py_min a x <= x)%Q.
Proof.
  unfold py_min. destruct (Qle_bool a x) eqn:H.
  - apply Qle_bool_iff in H. lra.
  - assert (~ (a <= x)%Q) by (rewrite <- Qle_bool_iff; congruence). lra.
Qed.

Lemma py_min_cases (a x : Q) : py_min a x = a \/ py_min a x = x.
Proof. unfold py_min. destruct (Qle_bool a x); auto. Qed.

Lemma uniqueness_loop_from (terms : list pystr) (keyword_terms : list pystr) (start : Q) :
  (start <=
   fold_left
     (fun acc t =>
        if existsb (fun kw_term => contains t kw_term) keyword_terms
        then acc + 0.1 else acc)
     terms start)%Q.
Proof.
  revert start. induction terms as [|t terms IH]; intros start; cbn [fold_left].
  - lra.
  - destruct (existsb _ keyword_terms).
    + specialize (IH (start + 0.1)%Q). lra.
    + apply IH.
Qed.

(** X2: the factors that [calculate_importance] weighs are bounded
    whatever the document holds: timeliness in [0.1, 1], relevance and
    uniqueness in [0.5, 1], engagement in [0, 1]. *)
Theorem factors_bounded lower log10 (now : Z) (c : ProcessedContent) :
  (0.1 <= _calculate_timeliness now (instant <$> publish_time c) <= 1)%Q /\
  (0.5 <= _calculate_relevance lower (keywords c) (categories c) <= 1)%Q /\
  (0.5 <= _calculate_uniqueness lower (keywords c) <= 1)%Q /\
  (0 <= _calculate_engagement log10 (engagement_metrics c) <= 1)%Q.
Proof.
  split; [|split; [|split]].
  - unfold _calculate_timeliness.
    destruct (publish_time c) as [pt|]; cbn [fmap option_fmap option_map].
    + repeat match goal with
             | |- context [?a <? ?b] => destruct (a <? b)
             end; lra.
    + lra.
  - unfold _calculate_relevance.
    set (n := length _).
    set (s1 := match keywords c with [] => 0.5%Q | _ => _ end).
    assert (H1 : (0.5 <= s1 <= 0.8)%Q).
    { subst s1. destruct (keywords c); [lra|].
      destruct (0 <? n)%nat eqn:Hn; [|lra].
      assert (0 < inject_Z (Z.of_nat n))%Q.
      { apply Nat.ltb_lt in Hn. change 0%Q with (inject_Z 0).
        rewrite <- Zlt_Qlt. lia. }
      generalize dependent (inject_Z (Z.of_nat n)). intros count Hcount.
      destruct (py_min_bounds 0.3 (count * 0.1)).
      destruct (py_min_cases 0.3 (count * 0.1)) as [E | E]; rewrite E in *; lra. }
    set (s2 := match categories c with [] => s1 | _ => _ end).
    assert (H2 : (0.5 <= s2 <= 1.0)%Q).
    { subst s2. destruct (categories c); [lra|]. destruct (existsb _ _); lra. }
    destruct (py_min_bounds 1.0 s2).
    destruct (py_min_cases 1.0 s2) as [E | E]; rewrite E in *; lra.
  - unfold _calculate_uniqueness. destruct (keywords c) as [|kw kws]; [lra|].
    match goal with
    | |- context [py_min 1.0 ?x] =>
        pose proof (py_min_bounds 1.0 x); pose proof (py_min_cases 1.0 x);
        assert (0.5 <= x)%Q by apply uniqueness_loop_from
    end.
    destruct H0 as [E | E]; rewrite E in *; lra.
  - unfold _calculate_engagement.
    destruct (engagement_metrics c) as [[|kv m]|]; try lra.
    unfold try_except.
    destruct (metric_score log10 (kv :: m) (u "views") 6) as [v|];
      cbn [mbind result_bind]; [|lra].
    destruct (metric_score log10 (kv :: m) (u "shares") 4) as [sh|];
      cbn [mbind result_bind]; [|lra].
    destruct (metric_score log10 (kv :: m) (u "comments") 3) as [cm|];
      cbn [mbind result_bind]; [|lra].
    destruct (metric_score log10 (kv :: m) (u "likes") 5) as [lk|];
      cbn [mbind result_bind]; [|lra].
    apply clamp_bounds.
Qed.

Lemma first_match_in (table : list (pystr * Q)) (s : pystr) (score : Q) :
  first_match table s = Some score -> exists key, In (key, score) table.
Proof.
  induction table as [|[k sc] table IH]; cbn [first_match]; [discriminate|].
  destruct (contains k s).
  - intros [= ->]. exists k. left. reflexivity.
  - intros H. destruct (IH H) as [key Hin]. exists key. right. exact Hin.
Qed.

Lemma authority_sources_range :
  Forall (fun ks => (0.75 <= snd ks <= 1)%Q) authority_sources.
Proof. repeat constructor; cbn; unfold Qle; cbn; lia. Qed.

(** X3: the authority factor is never below the base authority it is
    given, and it is in [0, 1] when the base authority is. *)
Theorem authority_at_least_base lower (source : option pystr) (base : Q) :
  (base <= _calculate_authority lower source base)%Q /\
  ((0 <= base <= 1)%Q ->
   (0 <= _calculate_authority lower source base <= 1)%Q).
Proof.
  unfold _calculate_authority.
  destruct source as [[|ch src]|]; try (split; intros; lra).
  destruct (first_match authority_sources (lower (ch :: src))) as [score|] eqn:Hm.
  - destruct (first_match_in _ _ _ Hm) as [key Hin].
    pose proof authority_sources_range as Hrange.
    rewrite List.Forall_forall in Hrange. specialize (Hrange _ Hin). cbn in Hrange.
    unfold py_max. destruct (Qle_bool base score) eqn:Hle.
    + apply Qle_bool_iff in Hle. split; intros; lra.
    + split; intros; lra.
  - destruct (Qlt_le_dec 0 base); split; intros; lra.
Qed.

(** The source "arXiv" with base authority 0.7. *)
Lemma authority_at_least_base_witness :
  (0 <= _calculate_authority ascii_lower (Some (u "arXiv")) 0.7 <= 1)%Q.
Proof.
  apply (proj2 (authority_at_least_base ascii_lower (Some (u "arXiv")) 0.7)).
  split; unfold Qle; cbn; lia.
Defined.

Ltac case_le a b :=
  let H := fresh "H" in
  destruct (Qle_bool a b) eqn:H;
  [apply Qle_bool_iff in H
  |assert (~ (a <= b)%Q) by (rewrite <- Qle_bool_iff; congruence); clear H].

Lemma clamp_monotone (x y : Q) :
  (x <= y)%Q -> (py_max 0.0 (py_min 1.0 x) <= py_max 0.0 (py_min 1.0 y))%Q.
Proof.
  intros Hxy. unfold py_max, py_min.
  case_le 1.0%Q x; case_le 1.0%Q y;
    repeat match goal with
           | |- context [Qle_bool ?a ?b] => case_le a b
           end; lra.
Qed.

Lemma boost_factor_positive lower (c : ProcessedContent) (b : Q) :
  _calculate_boost_factor lower c = Ok b -> (0 < b)%Q.
Proof.
  rewrite boost_factor_equation. cbv zeta.
  destruct (quality_score c) as [v|].
  - destruct (as_number v) as [q|e]; cbn [mbind result_bind]; [|discriminate].
    destruct (3 <=? org_count c)%nat, (Qlt_le_dec 0.8 q);
      intros [= <-]; lra.
  - destruct (3 <=? org_count c)%nat; intros [= <-]; lra.
Qed.

Lemma timeliness_le (now t1 t2 : Z) :
  t1 <= t2 ->
  (_calculate_timeliness now (Some t1) <= _calculate_timeliness now (Some t2))%Q.
Proof.
  intros Hle. unfold _calculate_timeliness, hours, days.
  repeat match goal with
         | |- context [?a <? ?b] => destruct (Z.ltb_spec a b); try lia
         end; unfold Qle; simpl; lia.
Qed.

(** X4: of two documents that differ in their publish time only, the one
    published later has an importance score at least as large, whether
    the times are naive or aware. *)
Theorem importance_monotone_in_publish_time lower log10 (now : Z)
    (t1 t2 : datetime) (c : ProcessedContent) :
  instant t1 <= instant t2 ->
  (calculate_importance lower log10 now (set_publish_time c (Some t1))
   <= calculate_importance lower log10 now (set_publish_time c (Some t2)))%Q.
Proof.
  intros Hle. unfold calculate_importance, importance_body.
  cbn [publish_time source source_authority keywords categories
       engagement_metrics quality_score set_publish_time
       fmap option_fmap option_map].
  change (_calculate_boost_factor lower (set_publish_time c (Some t1)))
    with (_calculate_boost_factor lower c).
  change (_calculate_boost_factor lower (set_publish_time c (Some t2)))
    with (_calculate_boost_factor lower c).
  destruct (as_number (default (VNum 0.5) (quality_score c))) as [q|e];
    cbn [mbind result_bind try_except]; [|lra].
  destruct (_calculate_boost_factor lower c) as [b|e] eqn:Hb;
    cbn [mbind result_bind try_except]; [|lra].
  apply boost_factor_positive in Hb.
  pose proof (timeliness_le now (instant t1) (instant t2) Hle) as Ht.
  apply clamp_monotone. apply Qmult_le_compat_r; [|lra].
  unfold w_timeliness. lra.
Qed.

(** A document of two days ago against the same document of two hours
    ago. *)
Lemma importance_monotone_in_publish_time_witness :
  let now := days 10 in
  let older := set_publish_time Samples.blank (Some (utc (days 8))) in
  let newer := set_publish_time Samples.blank (Some (utc (days 10 - hours 2))) in
  (calculate_importance ascii_lower (fun _ => 0%Q) now older
   <= calculate_importance ascii_lower (fun _ => 0%Q) now newer)%Q.
Proof.
  refine (importance_monotone_in_publish_time ascii_lower (fun _ => 0%Q)
            (days 10) (utc (days 8)) (utc (days 10 - hours 2)) Samples.blank _).
  vm_compute. discriminate.
Defined.

End ScorerExtra.

(** ** The built-in sort *)

Module SortExtra.

Import PySort SortProps.

Section Sort.

Context {A : Type}.
Variable key : A -> Q.

Lemma strictly_before_asc (y x : A) :
  strictly_before key false y x = true <-> (key y < key x)%Q.
Proof.
  unfold strictly_before. rewrite negb_true_iff. split.
  - intros H. apply Qnot_le_lt. rewrite <- Qle_bool_iff. congruence.
  - intros H. destruct (Qle_bool (key x) (key y)) eqn:Hle; [|reflexivity].
    apply Qle_bool_iff in Hle. lra.
Qed.

Lemma strictly_before_asc_false (y x : A) :
  strictly_before key false y x = false <-> (key x <= key y)%Q.
Proof.
  unfold strictly_before. rewrite negb_false_iff. apply Qle_bool_iff.
Qed.

Lemma insert_sorted_ascending (x : A) (l : list A) :
  ascending key l -> ascending key (insert_sorted key false x l).
Proof.
  unfold ascending. induction l as [|y l IH]; cbn [insert_sorted]; intros Hl.
  - constructor; constructor.
  - destruct (strictly_before key false y x) eqn:Hyx.
    + apply strictly_before_asc in Hyx.
      apply StronglySorted_inv in Hl as [Hl Hy].
      constructor; [apply IH; exact Hl|].
      rewrite !List.Forall_forall in Hy |- *. intros z Hz.
      apply (Permutation_in _ (insert_sorted_perm key false x l)) in Hz.
      destruct Hz as [<- | Hz]; [lra | apply Hy; exact Hz].
    + apply strictly_before_asc_false in Hyx.
      constructor; [exact Hl|].
      apply StronglySorted_inv in Hl as [_ Hy].
      constructor; [exact Hyx|].
      rewrite !List.Forall_forall in Hy |- *. intros z Hz.
      specialize (Hy z Hz). lra.
Qed.

Lemma sorted_ascending (l : list A) : ascending key (sorted key false l).
Proof.
  induction l as [|x l IH]; cbn [sorted]; [constructor|].
  apply insert_sorted_ascending. exact IH.
Qed.

Lemma insert_sorted_stable_asc (v : Q) (x : A) (l : list A) :
  List.filter (fun a => Qeq_bool (key a) v) (insert_sorted key false x l)
  = List.filter (fun a => Qeq_bool (key a) v) (x :: l).
Proof.
  induction l as [|y l IH]; [reflexivity|].
  cbn [insert_sorted]. destruct (strictly_before key false y x) eqn:Hyx;
    [|reflexivity].
  apply strictly_before_asc in Hyx.
  cbn [List.filter] in *. rewrite IH.
  destruct (Qeq_bool (key x) v) eqn:Hx; [|reflexivity].
  destruct (Qeq_bool (key y) v) eqn:Hy; [|reflexivity].
  apply Qeq_bool_iff in Hx, Hy. lra.
Qed.

Lemma sorted_stable_asc (v : Q) (l : list A) :
  List.filter (fun a => Qeq_bool (key a) v) (sorted key false l)
  = List.filter (fun a => Qeq_bool (key a) v) l.
Proof.
  induction l as [|x l IH]; [reflexivity|].
  cbn [sorted]. rewrite insert_sorted_stable_asc.
  cbn [List.filter]. rewrite IH. reflexivity.
Qed.

(** In a sorted list every element of a front part is related to every
    element of the rest. *)
Lemma strongly_sorted_app (R : A -> A -> Prop) (front rest : list A) :
  StronglySorted R (front ++ rest) ->
  forall a b, In a front -> In b rest -> R a b.
Proof.
  induction front as [|x front IH]; cbn [app]; intros Hs a b Ha Hb;
    [destruct Ha|].
  apply StronglySorted_inv in Hs as [Hs Hx].
  destruct Ha as [<- | Ha].
  - rewrite List.Forall_forall in Hx. apply Hx. apply in_or_app. right. exact Hb.
  - apply (IH Hs a b Ha Hb).
Qed.

End Sort.

End SortExtra.

(** ** ContentAggregator *)

Module AggregatorExtra.

Import PyVal PySort ContentAggregator SortProps SortExtra AggregatorProps.

(** *** [aggregate_by_time_range] *)

Lemma in_time_range_instants (s e : datetime) (c : ProcessedContent) :
  in_time_range s e c
  = match time_of c with
    | Some t => (instant s <=? instant t) && (instant t <=? instant e)
    | None => false
    end.
Proof.
  unfold in_time_range, time_of, between, as_utc.
  destruct (publish_time c) as [t|]; [|destruct (processing_time c) as [t|]];
    try reflexivity; destruct (aware t); reflexivity.
Qed.

Lemma in_time_range_both (s1 e1 s2 e2 : datetime) (c : ProcessedContent) :
  in_time_range s1 e1 c && in_time_range s2 e2 c
  = in_time_range (utc (Z.max (instant s1) (instant s2)))
                  (utc (Z.min (instant e1) (instant e2))) c.
Proof.
  rewrite !in_time_range_instants. cbn [utc instant].
  destruct (time_of c) as [t|]; [|reflexivity].
  destruct (Z.leb_spec (instant s1) (instant t)),
    (Z.leb_spec (instant t) (instant e1)),
    (Z.leb_spec (instant s2) (instant t)),
    (Z.leb_spec (instant t) (instant e2)),
    (Z.leb_spec (Z.max (instant s1) (instant s2)) (instant t)),
    (Z.leb_spec (instant t) (Z.min (instant e1) (instant e2)));
    cbn; try reflexivity; lia.
Qed.

Lemma filter_filter_and {A : Type} (p q : A -> bool) (l : list A) :
  List.filter q (List.filter p l) = List.filter (fun a => p a && q a) l.
Proof.
  induction l as [|a l IH]; [reflexivity|].
  cbn [List.filter]. destruct (p a); cbn [List.filter andb]; rewrite ?IH;
    reflexivity.
Qed.

Lemma time_range_is_filter (contents : list ProcessedContent) (s e : datetime) :
  aggregate_by_time_range contents s e
  = List.filter (in_time_range s e) contents.
Proof.
  destruct contents as [|c contents]; [reflexivity|].
  unfold aggregate_by_time_range. apply filter_ext. intros a.
  rewrite !in_time_range_instants. unfold as_utc.
  destruct (aware s), (aware e); reflexivity.
Qed.



(** *** [aggregate_by_source] and [aggregate_by_category] *)

Lemma in_group_empty (k : pystr) (x : ProcessedContent) : ~ in_group ∅ k x.
Proof. intros (g & H & _). rewrite lookup_empty in H. discriminate H. Qed.

Lemma append_to_iff m category content k x :
  in_group (append_to m category content) k x
  <-> in_group m k x \/ (k = category /\ x = content).
Proof.
  split.
  - intros (group & Hm & Hin). unfold append_to in Hm.
    destruct (decide (category = k)) as [-> | Hne].
    + rewrite lookup_insert_eq in Hm. injection Hm as <-.
      apply in_app_or in Hin as [Hin | [<- | []]]; [left | right; auto].
      destruct (m !! k) as [g|] eqn:Hk; [|destruct Hin].
      exists g. auto.
    + rewrite lookup_insert_ne in Hm by exact Hne. left. exists group. auto.
  - intros [H | [-> ->]]; [apply append_to_keeps; exact H | apply append_to_adds].
Qed.

Lemma append_all_iff cats m content k x :
  in_group (fold_left (fun m category => append_to m category content) cats m) k x
  <-> in_group m k x \/ (In k cats /\ x = content).
Proof.
  revert m. induction cats as [|cat cats IH]; intros m; cbn [fold_left].
  - split; [auto | intros [H | [[] _]]; exact H].
  - rewrite IH, append_to_iff. cbn [In]. split.
    + intros [[H | [-> ->]] | [H ->]]; auto.
    + intros [H | [[<- | H] ->]]; auto.
Qed.

Lemma categorize_step_iff m content k x :
  in_group (categorize_step m content) k x
  <-> in_group m k x
      \/ (x = content /\
          (In k (categories content)
           \/ (categories content = [] /\ k = u "未分类"))).
Proof.
  unfold categorize_step. destruct (categories content) as [|cat cats] eqn:Hc.
  - rewrite append_to_iff. split.
    + intros [H | [-> ->]]; auto.
    + intros [H | [-> [[] | [_ ->]]]]; auto.
  - rewrite append_all_iff. split.
    + intros [H | [H ->]]; auto.
    + intros [H | [-> [H | [H _]]]]; [auto | auto | discriminate H].
Qed.

Lemma categorize_loop_iff contents m k x :
  in_group (fold_left categorize_step contents m) k x
  <-> in_group m k x
      \/ (In x contents /\
          (In k (categories x) \/ (categories x = [] /\ k = u "未分类"))).
Proof.
  revert m. induction contents as [|c contents IH]; intros m; cbn [fold_left].
  - split; [auto | intros [H | [[] _]]; exact H].
  - rewrite IH, categorize_step_iff. cbn [In]. split.
    + intros [[H | [-> H]] | [H1 H2]]; auto.
    + intros [H | [[<- | H1] H2]]; auto.
Qed.

Lemma source_loop_iff contents m k x :
  in_group
    (fold_left (fun m content => append_to m (source_name content) content)
               contents m) k x
  <-> in_group m k x \/ (In x contents /\ source_name x = k).
Proof.
  revert m. induction contents as [|c contents IH]; intros m; cbn [fold_left].
  - split; [auto | intros [H | [[] _]]; exact H].
  - rewrite IH, append_to_iff. cbn [In]. split.
    + intros [[H | [-> ->]] | [H1 H2]]; auto.
    + intros [H | [[<- | H1] H2]]; auto.
Qed.

Lemma sorted_group_iff m k x :
  in_group (sorted importance_score true <$> m) k x <-> in_group m k x.
Proof.
  split; [|apply sorted_group_keeps].
  intros (group & Hm & Hin). rewrite lookup_fmap in Hm.
  destruct (m !! k) as [g|] eqn:Hk; [|discriminate Hm].
  injection Hm as <-. exists g. split; [exact Hk|].
  apply (Permutation_in _ (sorted_perm importance_score true g)). exact Hin.
Qed.

Lemma sorted_groups_descending (m : gmap pystr (list ProcessedContent)) k group :
  (sorted importance_score true <$> m) !! k = Some group ->
  descending importance_score group.
Proof.
  rewrite lookup_fmap. destruct (m !! k) as [g|]; [|discriminate].
  intros [= <-]. apply sorted_descending.
Qed.

(** X6: [aggregate_by_source] puts a document in the group of its
    source, or of "未知来源" when it has none, and in no other group: the
    groups hold exactly the documents of the corpus with that source, each
    group in non-increasing order of importance. *)
Theorem aggregate_by_source_partition (contents : list ProcessedContent)
    (k : pystr) (x : ProcessedContent) :
  (in_group (aggregate_by_source contents) k x
   <-> In x contents /\ source_name x = k) /\
  (forall group, aggregate_by_source contents !! k = Some group ->
                 descending importance_score group).
Proof.
  unfold aggregate_by_source. split.
  - rewrite sorted_group_iff, source_loop_iff. split.
    + intros [H | H]; [destruct (in_group_empty _ _ H) | exact H].
    + auto.
  - intros group. apply sorted_groups_descending.
Qed.

(** A corpus of one document: it is in the group of its source. *)
Lemma aggregate_by_source_partition_witness :
  in_group (aggregate_by_source [Samples.blank]) (u "TechNews") Samples.blank.
Proof.
  refine (proj2 (proj1 (aggregate_by_source_partition [Samples.blank]
                          (u "TechNews") Samples.blank)) _).
  split; [left; reflexivity | reflexivity].
Defined.

(** X7: the groups of [aggregate_by_category] hold nothing but what was
    put there: a document is in the group of a category exactly when it is
    in the corpus and lists that category, or lists none and the group is
    "未分类"; and each group is in non-increasing order of importance. *)
Theorem aggregate_by_category_exact (contents : list ProcessedContent)
    (k : pystr) (x : ProcessedContent) :
  (in_group (aggregate_by_category contents) k x
   <-> In x contents /\
       (In k (categories x) \/ (categories x = [] /\ k = u "未分类"))) /\
  (forall group, aggregate_by_category contents !! k = Some group ->
                 descending importance_score group).
Proof.
  unfold aggregate_by_category, categorize. split.
  - rewrite sorted_group_iff, categorize_loop_iff. split.
    + intros [H | H]; [destruct (in_group_empty _ _ H) | exact H].
    + auto.
  - intros group. apply sorted_groups_descending.
Qed.

(** A document without categories is in "未分类" and a document of the
    category "研究" is not. *)
Lemma aggregate_by_category_exact_witness :
  let corpus := [Samples.blank; Samples.about "paper" "GPT" "OpenAI" "研究"] in
  in_group (aggregate_by_category corpus) (u "未分类") Samples.blank /\
  ~ in_group (aggregate_by_category corpus) (u "未分类")
      (Samples.about "paper" "GPT" "OpenAI" "研究").
Proof.
  split.
  - refine (proj2 (proj1 (aggregate_by_category_exact _ (u "未分类") Samples.blank))
              _).
    split; [left; reflexivity | right; split; reflexivity].
  - intros H.
    apply (proj1 (proj1 (aggregate_by_category_exact _ (u "未分类") _))) in H.
    destruct H as [_ [[H | []] | [H _]]]; vm_compute in H; discriminate H.
Defined.

(** *** [aggregate_by_keywords] and [aggregate_by_entity] *)

Lemma od_append_iff grouped key content k x :
  in_ordered_group (od_append grouped key content) k x
  <-> in_ordered_group grouped k x \/ (k = key /\ x = content).
Proof.
  induction grouped as [|[k0 g0] grouped IH]; cbn [od_append].
  - split.
    + intros (g & [[= <- <-] | []] & [<- | []]). right. auto.
    + intros [(g & [] & _) | [-> ->]]. exists [content]. split; left; reflexivity.
  - destruct (decide (k0 = key)) as [-> | Hne].
    + split.
      * intros (g & [[= <- <-] | Hin] & Hx).
        -- apply in_app_or in Hx as [Hx | [<- | []]]; [left | right; auto].
           exists g0. split; [left; reflexivity | exact Hx].
        -- left. exists g. split; [right; exact Hin | exact Hx].
      * intros [(g & [[= <- <-] | Hin] & Hx) | [-> ->]].
        -- exists (g0 ++ [content]). split; [left; reflexivity|].
           apply in_or_app. left. exact Hx.
        -- exists g. split; [right; exact Hin | exact Hx].
        -- exists (g0 ++ [content]). split; [left; reflexivity|].
           apply in_or_app. right. left. reflexivity.
    + split.
      * intros (g & [[= <- <-] | Hin] & Hx).
        -- left. exists g0. split; [left; reflexivity | exact Hx].
        -- assert (H : in_ordered_group (od_append grouped key content) k x)
             by (exists g; auto).
           apply IH in H as [(g' & Hg' & Hx') | H]; [left | right; exact H].
           exists g'. split; [right; exact Hg' | exact Hx'].
      * intros [(g & [[= <- <-] | Hin] & Hx) | H].
        -- exists g0. split; [left; reflexivity | exact Hx].
        -- assert (H : in_ordered_group (od_append grouped key content) k x)
             by (apply IH; left; exists g; auto).
           destruct H as (g' & Hg' & Hx'). exists g'. split; [right|]; assumption.
        -- assert (H' : in_ordered_group (od_append grouped key content) k x)
             by (apply IH; right; exact H).
           destruct H' as (g' & Hg' & Hx'). exists g'. split; [right|]; assumption.
Qed.

Lemma od_append_keys grouped key content :
  map fst (od_append grouped key content)
  = if bool_decide (key ∈ map fst grouped) then map fst grouped
    else map fst grouped ++ [key].
Proof.
  induction grouped as [|[k0 g0] grouped IH]; cbn [od_append map fst].
  - rewrite bool_decide_eq_false_2 by (intros H; inversion H). reflexivity.
  - destruct (decide (k0 = key)) as [-> | Hne]; cbn [map fst].
    + rewrite bool_decide_eq_true_2 by (apply elem_of_cons; auto). reflexivity.
    + rewrite IH. destruct (bool_decide (key ∈ map fst grouped)) eqn:Hin.
      * apply bool_decide_eq_true_1 in Hin.
        rewrite bool_decide_eq_true_2 by (apply elem_of_cons; auto). reflexivity.
      * apply bool_decide_eq_false_1 in Hin.
        rewrite bool_decide_eq_false_2; [reflexivity|].
        rewrite elem_of_cons. intros [H | H]; congruence.
Qed.

Lemma od_append_nodup grouped key content :
  NoDup (map fst grouped) -> NoDup (map fst (od_append grouped key content)).
Proof.
  intros Hnd. rewrite od_append_keys.
  destruct (bool_decide (key ∈ map fst grouped)) eqn:Hin; [exact Hnd|].
  apply bool_decide_eq_false_1 in Hin.
  apply NoDup_app. split; [exact Hnd|]. split.
  - intros y Hy Hy'. apply list_elem_of_singleton in Hy'. congruence.
  - apply NoDup_singleton.
Qed.

Section Grouping.

Context {Item : Type}.
Variable selected : Item -> bool.
Variable key_of : Item -> pystr.
Variable items_of : ProcessedContent -> list Item.

Local Abbreviation group_items := (group_items selected key_of items_of).

Lemma inner_loop_iff items grouped content k x :
  in_ordered_group
    (fold_left
       (fun grouped item =>
          if selected item then od_append grouped (key_of item) content
          else grouped)
       items grouped) k x
  <-> in_ordered_group grouped k x
      \/ (x = content /\
          exists item, In item items /\ selected item = true /\ key_of item = k).
Proof.
  revert grouped. induction items as [|item items IH]; intros grouped;
    cbn [fold_left].
  - split; [auto | intros [H | (_ & item & [] & _)]; exact H].
  - rewrite IH. destruct (selected item) eqn:Hsel.
    + rewrite od_append_iff. split.
      * intros [[H | [-> ->]] | (-> & it & Hin & Hs & Hk)]; [auto | |].
        -- right. split; [reflexivity|]. exists item. cbn; auto.
        -- right. split; [reflexivity|]. exists it. cbn; auto.
      * intros [H | (-> & it & [<- | Hin] & Hs & Hk)]; [auto | |].
        -- left. right. auto.
        -- right. split; [reflexivity|]. exists it. auto.
    + split.
      * intros [H | (-> & it & Hin & Hs & Hk)]; [auto|].
        right. split; [reflexivity|]. exists it. cbn; auto.
      * intros [H | (-> & it & [<- | Hin] & Hs & Hk)]; [auto | congruence |].
        right. split; [reflexivity|]. exists it. auto.
Qed.

Lemma inner_loop_nodup items grouped content :
  NoDup (map fst grouped) ->
  NoDup (map fst
           (fold_left
              (fun grouped item =>
                 if selected item then od_append grouped (key_of item) content
                 else grouped)
              items grouped)).
Proof.
  revert grouped. induction items as [|item items IH]; intros grouped Hnd;
    cbn [fold_left]; [exact Hnd|].
  apply IH. destruct (selected item); [apply od_append_nodup|]; exact Hnd.
Qed.

Lemma outer_loop_iff contents grouped k x :
  in_ordered_group (fold_left group_items contents grouped) k x
  <-> in_ordered_group grouped k x
      \/ (In x contents /\
          exists item, In item (items_of x) /\ selected item = true
                       /\ key_of item = k).
Proof.
  revert grouped. induction contents as [|c contents IH]; intros grouped;
    cbn [fold_left].
  - split; [auto | intros [H | ([] & _)]; exact H].
  - rewrite IH.
    change (group_items grouped c)
      with (fold_left
              (fun grouped item =>
                 if selected item then od_append grouped (key_of item) c
                 else grouped)
              (items_of c) grouped).
    rewrite inner_loop_iff. cbn [In].
    split.
    + intros [[H | [-> H]] | [H1 H2]]; auto.
    + intros [H | [[<- | H1] H2]]; auto.
Qed.

Lemma outer_loop_nodup contents grouped :
  NoDup (map fst grouped) ->
  NoDup (map fst (fold_left group_items contents grouped)).
Proof.
  revert grouped. induction contents as [|c contents IH]; intros grouped Hnd;
    cbn [fold_left]; [exact Hnd|].
  apply IH. apply inner_loop_nodup. exact Hnd.
Qed.

(** What the grouping functions return, whatever they group by. *)
Lemma grouped_by_size contents k x :
  let result := by_group_size (fold_left group_items contents []) in
  (in_ordered_group result k x
   <-> In x contents /\
       exists item, In item (items_of x) /\ selected item = true
                    /\ key_of item = k) /\
  NoDup (map fst result) /\
  descending group_size result.
Proof.
  cbv zeta. unfold by_group_size.
  pose proof (sorted_perm (fun kv : pystr * list ProcessedContent =>
                             inject_Z (Z.of_nat (length (snd kv)))) true
                          (fold_left group_items contents [])) as Hperm.
  split; [|split].
  - split.
    + intros (g & Hg & Hx).
      apply (Permutation_in _ Hperm) in Hg.
      assert (H : in_ordered_group (fold_left group_items contents []) k x)
        by (exists g; auto).
      apply outer_loop_iff in H as [(g' & [] & _) | H]. exact H.
    + intros H.
      assert (H' : in_ordered_group (fold_left group_items contents []) k x)
        by (apply outer_loop_iff; right; exact H).
      destruct H' as (g & Hg & Hx). exists g. split; [|exact Hx].
      apply (Permutation_in _ (Permutation_sym Hperm)). exact Hg.
  - apply (Permutation_map fst) in Hperm.
    rewrite Hperm. apply outer_loop_nodup. constructor.
  - apply sorted_descending.
Qed.

End Grouping.

(** X8: [aggregate_by_keywords] returns one group for each keyword term
    that reaches [min_score] in some document; a document is in the group
    of a term exactly when it is in the corpus and has a keyword with that
    term and a score of at least [min_score]; no term has two groups; and
    the groups come in non-increasing order of size. *)
Theorem aggregate_by_keywords_groups (contents : list ProcessedContent)
    (min_score : Q) (k : pystr) (x : ProcessedContent) :
  (in_ordered_group (aggregate_by_keywords contents min_score) k x
   <-> In x contents /\
       exists kw, In kw (keywords x) /\ (min_score <= score kw)%Q
                  /\ term kw = k) /\
  NoDup (map fst (aggregate_by_keywords contents min_score)) /\
  descending group_size (aggregate_by_keywords contents min_score).
Proof.
  pose proof (grouped_by_size (fun kw => Qle_bool min_score (score kw)) term
                keywords contents k x) as H.
  cbv zeta in H. destruct H as (Hiff & Hnd & Hdesc).
  split; [|split; assumption].
  rewrite Hiff. split.
  - intros (Hx & kw & Hin & Hs & Hk). split; [exact Hx|]. exists kw.
    apply Qle_bool_iff in Hs. auto.
  - intros (Hx & kw & Hin & Hs & Hk). split; [exact Hx|]. exists kw.
    apply Qle_bool_iff in Hs. auto.
Qed.

(** A keyword of score 0.8 against a threshold of 0.5. *)
Lemma aggregate_by_keywords_groups_witness :
  in_ordered_group
    (aggregate_by_keywords [Samples.about "paper" "GPT" "OpenAI" "研究"] 0.5)
    (u "GPT") (Samples.about "paper" "GPT" "OpenAI" "研究").
Proof.
  refine (proj2 (proj1 (aggregate_by_keywords_groups
                          [Samples.about "paper" "GPT" "OpenAI" "研究"] 0.5
                          (u "GPT") (Samples.about "paper" "GPT" "OpenAI" "研究")))
            _).
  split; [left; reflexivity|].
  exists (mkKeyword (u "GPT") 0.8 None).
  split; [left; reflexivity|]. split; [|reflexivity].
  vm_compute. discriminate.
Defined.

(** X9: [aggregate_by_entity] groups by entity text: a document is in
    the group of a text exactly when it is in the corpus and has an entity
    with that text whose label is the requested type (any label when no
    type is requested); no text has two groups; the groups come in
    non-increasing order of size. *)
Theorem aggregate_by_entity_groups (contents : list ProcessedContent)
    (entity_type : option pystr) (k : pystr) (x : ProcessedContent) :
  (in_ordered_group (aggregate_by_entity contents entity_type) k x
   <-> In x contents /\
       exists e, In e (default [] (entities x))
                 /\ (forall wanted, entity_type = Some wanted -> label e = wanted)
                 /\ text e = k) /\
  NoDup (map fst (aggregate_by_entity contents entity_type)) /\
  descending group_size (aggregate_by_entity contents entity_type).
Proof.
  pose proof (grouped_by_size
                (fun e => match entity_type with
                          | None => true
                          | Some wanted => bool_decide (label e = wanted)
                          end)
                text (fun c => default [] (entities c)) contents k x) as H.
  cbv zeta in H. destruct H as (Hiff & Hnd & Hdesc).
  split; [|split; assumption].
  rewrite Hiff. split.
  - intros (Hx & e & Hin & Hs & Hk). split; [exact Hx|]. exists e.
    split; [exact Hin|]. split; [|exact Hk].
    intros wanted ->. apply bool_decide_eq_true_1 in Hs. exact Hs.
  - intros (Hx & e & Hin & Hs & Hk). split; [exact Hx|]. exists e.
    split; [exact Hin|]. split; [|exact Hk].
    destruct entity_type as [wanted|]; [|reflexivity].
    apply bool_decide_eq_true_2. apply Hs. reflexivity.
Qed.

(** The organisations of one document. *)
Lemma aggregate_by_entity_groups_witness :
  in_ordered_group
    (aggregate_by_entity [Samples.about "paper" "GPT" "OpenAI" "研究"]
       (Some (u "ORG")))
    (u "OpenAI") (Samples.about "paper" "GPT" "OpenAI" "研究").
Proof.
  refine (proj2 (proj1 (aggregate_by_entity_groups
                          [Samples.about "paper" "GPT" "OpenAI" "研究"]
                          (Some (u "ORG")) (u "OpenAI")
                          (Samples.about "paper" "GPT" "OpenAI" "研究")))
            _).
  split; [left; reflexivity|].
  exists (mkEntity (u "OpenAI") (u "ORG") 0.9).
  split; [left; reflexivity|]. split; [|reflexivity].
  intros wanted [= <-]. reflexivity.
Defined.

(** *** [sort_by_time] and [limit_items] *)

Lemma same_kind_pairwise (keys : list datetime) :
  same_kind keys = true
  <-> forall a b, In a keys -> In b keys -> aware a = aware b.
Proof.
  destruct keys as [|t keys]; cbn [same_kind].
  - split; [intros _ a b [] | reflexivity].
  - rewrite forallb_forall. split.
    + intros H a b Ha Hb.
      assert (Hk : forall x, In x (t :: keys) -> aware x = aware t).
      { intros x [<- | Hx]; [reflexivity|]. apply eqb_prop, H, Hx. }
      rewrite (Hk a Ha), (Hk b Hb). reflexivity.
    + intros H x Hx. rewrite (H x t); [apply Bool.eqb_reflx | right; exact Hx | left; reflexivity].
Qed.



Lemma limit_items_sublist (contents : list ProcessedContent) (max_items : Z) :
  sublist (limit_items contents max_items) contents.
Proof.
  unfold limit_items, slice_to.
  destruct (0 <=? max_items); apply sublist_take.
Qed.

Lemma limit_items_length (contents : list ProcessedContent) (max_items : Z) :
  0 <= max_items ->
  Z.of_nat (length (limit_items contents max_items)) <= max_items.
Proof.
  intros H. unfold limit_items, slice_to.
  destruct (Z.leb_spec 0 max_items); rewrite length_take; lia.
Qed.

(** X11: [limit_items] returns a prefix of the list.  For a limit that
    is not negative the prefix has [min(max_items, len)] items; a negative
    limit does not give an empty list but drops that many items from the
    end. *)
Theorem limit_items_prefix (contents : list ProcessedContent) (max_items : Z) :
  (exists rest, contents = limit_items contents max_items ++ rest) /\
  Z.of_nat (length (limit_items contents max_items))
  = if 0 <=? max_items then Z.min max_items (Z.of_nat (length contents))
    else Z.max 0 (Z.of_nat (length contents) + max_items).
Proof.
  unfold limit_items, slice_to. split.
  - destruct (0 <=? max_items); eexists; symmetry; apply take_drop.
  - destruct (Z.leb_spec 0 max_items); rewrite length_take; lia.
Qed.

(** X12: the first [n] documents of [sort_by_importance], as
    [limit_items] cuts them off, are the most important ones: no document
    left out has a higher score than a document kept, and the kept and
    the left-out documents together are the corpus. *)
Theorem top_items_dominate (contents : list ProcessedContent) (n : Z)
    (a b : ProcessedContent) :
  0 <= n ->
  let ranked := sort_by_importance contents in
  Permutation (limit_items ranked n ++ drop (Z.to_nat n) ranked) contents /\
  (In a (limit_items ranked n) -> In b (drop (Z.to_nat n) ranked) ->
   (importance_score b <= importance_score a)%Q).
Proof.
  intros Hn ranked. unfold limit_items, slice_to.
  destruct (Z.leb_spec 0 n); [|lia].
  rewrite take_drop. split; [apply sorted_perm|].
  intros Ha Hb.
  pose proof (sorted_descending importance_score contents) as Hs.
  unfold descending in Hs. fold (sort_by_importance contents) in Hs.
  fold ranked in Hs. rewrite <- (take_drop (Z.to_nat n) ranked) in Hs.
  exact (strongly_sorted_app _ _ _ Hs a b Ha Hb).
Qed.

(** The two best of three documents scored 0.5, 0.9 and 0.6. *)
Lemma top_items_dominate_witness :
  limit_items
    (sort_by_importance
       [Samples.doc "a" 0.5; Samples.doc "b" 0.9; Samples.doc "c" 0.6]) 2
  = [Samples.doc "b" 0.9; Samples.doc "c" 0.6] /\
  (importance_score (Samples.doc "a" 0.5)
   <= importance_score (Samples.doc "c" 0.6))%Q.
Proof.
  split; [reflexivity|].
  refine (proj2 (top_items_dominate
                   [Samples.doc "a" 0.5; Samples.doc "b" 0.9; Samples.doc "c" 0.6]
                   2 (Samples.doc "c" 0.6) (Samples.doc "a" 0.5) _) _ _).
  - lia.
  - right. left. reflexivity.
  - left. reflexivity.
Defined.

(** *** [apply_filters] *)

Section Filters.

Variable other_attr : pyval -> pystr -> option pyval.

Local Abbreviation _get_nested_value := (_get_nested_value other_attr).
Local Abbreviation apply_filter := (apply_filter other_attr).
Local Abbreviation apply_filters := (apply_filters other_attr).
Local Abbreviation section_contents := (section_contents other_attr).

Lemma filter_sublist {A : Type} (p : A -> bool) (l : list A) :
  sublist (List.filter p l) l.
Proof.
  induction l as [|a l IH]; cbn [List.filter]; [constructor|].
  destruct (p a); [apply sublist_skip | apply sublist_cons]; exact IH.
Qed.

Lemma filter_m_sublist {A : Type} (p : A -> result bool) (l r : list A) :
  filter_m p l = Ok r -> sublist r l.
Proof.
  revert r. induction l as [|a l IH]; cbn [filter_m]; intros r.
  - intros [= <-]. constructor.
  - destruct (p a) as [keep|e]; cbn [mbind result_bind]; [|discriminate].
    destruct (filter_m p l) as [rest|e]; cbn [mbind result_bind]; [|discriminate].
    intros [= <-]. destruct keep; [apply sublist_skip | apply sublist_cons];
      apply IH; reflexivity.
Qed.

Lemma apply_filter_sublist contents field condition r :
  apply_filter contents field condition = Ok r -> sublist r contents.
Proof.
  unfold apply_filter. destruct condition as [| | | | |vals|cond| |];
    try (intros [= <-]; apply filter_sublist).
  - apply filter_m_sublist.
  - destruct (dict_get cond (u "$gte")); [apply filter_m_sublist|].
    destruct (dict_get cond (u "$lte")); [apply filter_m_sublist|].
    destruct (dict_get cond (u "$in")); [apply filter_m_sublist|].
    intros [= <-]. reflexivity.
Qed.

Lemma apply_filters_keep_sublist (contents r : list ProcessedContent)
    (filters : list (pystr * pyval)) :
  apply_filters contents filters = Ok r -> sublist r contents.
Proof.
  revert contents. induction filters as [|[field condition] filters IH];
    intros contents; cbn [apply_filters].
  - intros [= <-]. reflexivity.
  - destruct (apply_filter contents field condition) as [c1|e] eqn:H1;
      cbn [mbind result_bind]; [|discriminate].
    intros H2. apply IH in H2. apply apply_filter_sublist in H1.
    etransitivity; eassumption.
Qed.

(** X13: [apply_filters] never adds or reorders: when it returns, its
    result is a sublist of the corpus, in the order of the corpus.  And
    the conditions act one after the other: filtering by two sets of
    conditions at once is filtering by the first and then by the second. *)
Theorem apply_filters_sublist (contents r : list ProcessedContent)
    (filters more : list (pystr * pyval)) :
  (apply_filters contents filters = Ok r -> sublist r contents) /\
  apply_filters contents (filters ++ more)
  = (filtered ← apply_filters contents filters; apply_filters filtered more).
Proof.
  split.
  - apply apply_filters_keep_sublist.
  - revert contents. induction filters as [|[field condition] filters IH];
      intros contents; cbn [apply_filters app]; [reflexivity|].
    destruct (apply_filter contents field condition) as [c1|e];
      cbn [mbind result_bind]; [apply IH | reflexivity].
Qed.

(** X14: a condition that gives both a lower and an upper bound is read
    as its lower bound alone, in whichever order the two are written: the
    branches for [$gte], [$lte] and [$in] exclude one another, so documents
    above the upper bound stay in. *)
Theorem range_filter_keeps_lower_bound_only
    (contents : list ProcessedContent) (low high : Q) :
  apply_filters contents
    [(u "importance_score", VDict [(u "$gte", VNum low); (u "$lte", VNum high)])]
  = Ok (List.filter (fun c => Qle_bool low (importance_score c)) contents) /\
  apply_filters contents
    [(u "importance_score", VDict [(u "$lte", VNum high); (u "$gte", VNum low)])]
  = Ok (List.filter (fun c => Qle_bool low (importance_score c)) contents).
Proof.
  split; cbn [apply_filters]; unfold apply_filter.
  - change (dict_get [(u "$gte", VNum low); (u "$lte", VNum high)] (u "$gte"))
      with (Some (VNum low)).
    cbv beta iota.
    rewrite (filter_m_total _ (fun c => Qle_bool low (importance_score c)));
      [reflexivity|].
    intros c. rewrite get_importance_score. reflexivity.
  - change (dict_get [(u "$lte", VNum high); (u "$gte", VNum low)] (u "$gte"))
      with (Some (VNum low)).
    cbv beta iota.
    rewrite (filter_m_total _ (fun c => Qle_bool low (importance_score c)));
      [reflexivity|].
    intros c. rewrite get_importance_score. reflexivity.
Qed.

Lemma get_categories (c : ProcessedContent) (dflt : pyval) :
  _get_nested_value (content_obj c) (u "categories") dflt
  = str_list (categories c).
Proof.
  unfold _get_nested_value, content_obj.
  destruct (entities c), (quality_score c); reflexivity.
Qed.

Lemma str_in_str_list (w : pystr) (l : list pystr) :
  existsb (py_eq (VStr w)) (map VStr l) = bool_decide (w ∈ l).
Proof.
  induction l as [|s l IH]; cbn [map existsb].
  - symmetry. apply bool_decide_eq_false_2. intros H. inversion H.
  - rewrite IH. change (py_eq (VStr w) (VStr s)) with (bool_decide (w = s)).
    destruct (decide (w = s)) as [-> | Hne].
    + rewrite (bool_decide_eq_true_2 (s = s)) by reflexivity. cbn [orb].
      symmetry. apply bool_decide_eq_true_2. apply elem_of_cons. auto.
    + rewrite (bool_decide_eq_false_2 (w = s)) by exact Hne. cbn [orb].
      apply bool_decide_ext. rewrite elem_of_cons. tauto.
Qed.

Lemma any_in_str_list (wanted l : list pystr) :
  any_m (fun val => py_in val (str_list l)) (map VStr wanted)
  = Ok (existsb (fun w => bool_decide (w ∈ l)) wanted).
Proof.
  induction wanted as [|w wanted IH]; cbn [map any_m existsb]; [reflexivity|].
  change (py_in (VStr w) (str_list l))
    with (Ok (existsb (py_eq (VStr w)) (map VStr l))).
  rewrite str_in_str_list.
  cbn [mbind result_bind]. destruct (bool_decide (w ∈ l)); [reflexivity|].
  exact IH.
Qed.

(** X15: a list condition on [categories] keeps exactly the documents
    that list at least one of the wanted categories, and raises
    nothing. *)
Theorem categories_filter_intersects (contents : list ProcessedContent)
    (wanted : list pystr) :
  apply_filters contents [(u "categories", str_list wanted)]
  = Ok (List.filter
          (fun c => existsb (fun w => bool_decide (w ∈ categories c)) wanted)
          contents).
Proof.
  cbn [apply_filters]. unfold apply_filter, str_list at 1.
  rewrite (filter_m_total _
             (fun c => existsb (fun w => bool_decide (w ∈ categories c)) wanted));
    [reflexivity|].
  intros c. rewrite get_categories. apply any_in_str_list.
Qed.

Lemma content_obj_entities (c : ProcessedContent) :
  exists fields,
    content_obj c = VObj fields /\
    dict_get fields (u "entities")
    = (fun es => VList (map entity_obj es)) <$> entities c.
Proof.
  unfold content_obj.
  destruct (entities c) as [es|], (quality_score c) as [q|];
    eexists; (split; [reflexivity|]); reflexivity.
Qed.

Lemma get_entities_label (c : ProcessedContent) :
  (forall value, other_attr value (u "entities") = None) ->
  (forall value, other_attr value (u "label") = None) ->
  _get_nested_value (content_obj c) (u "entities.label") VNone = VNone.
Proof.
  intros Hentities Hlabel.
  unfold _get_nested_value.
  change (split_on 46%N (u "entities.label")) with [u "entities"; u "label"].
  destruct (content_obj_entities c) as (fields & -> & Hget).
  cbn [walk_path py_getattr]. rewrite Hget.
  destruct (entities c) as [es|]; cbn [fmap option_fmap option_map].
  - cbn [py_getattr]. rewrite Hlabel. reflexivity.
  - rewrite Hentities. reflexivity.
Qed.

(** X16: an equality condition on the path [entities.label], the filter
    of the "company updates" section of the built-in weekly template
    ([report_generation/template_manager.py]), selects nothing from any
    corpus: [entities] is a list, a list has no attribute [label], and the
    default [None] equals no string.  The names [entities] and [label]
    are taken to name data attributes only. *)
Theorem entities_label_filter_selects_nothing
    (contents : list ProcessedContent) (wanted : pystr) :
  (forall value, other_attr value (u "entities") = None) ->
  (forall value, other_attr value (u "label") = None) ->
  apply_filters contents [(u "entities.label", VStr wanted)] = Ok [].
Proof.
  intros Hentities Hlabel.
  cbn [apply_filters]. unfold apply_filter. cbn [mbind result_bind].
  f_equal. induction contents as [|c contents IH]; [reflexivity|].
  cbn [List.filter]. rewrite (get_entities_label c Hentities Hlabel). exact IH.
Qed.


Lemma content_obj_field (c : ProcessedContent) (name : pystr) (v : pyval) :
  (name = u "importance_score" /\ v = VNum (importance_score c)) \/
  (name = u "title" /\ v = VStr (title c)) ->
  exists fields,
    content_obj c = VObj fields /\ dict_get fields name = Some v.
Proof.
  unfold content_obj.
  intros [[-> ->] | [-> ->]];
    destruct (entities c) as [es|], (quality_score c) as [q|];
    eexists; (split; [reflexivity|]); reflexivity.
Qed.

(** X30: a path may run through the attributes Python gives built-in
    values.  Where the [real] of a number is the number, a bound on
    [importance_score.real] filters as a bound on the score does.  Where
    the [upper] of a string is a bound method, a bound on [title.upper]
    raises a [TypeError] on the first document, and an equality of
    [title.upper] with a string selects nothing. *)
Theorem attribute_paths_of_builtin_values (contents : list ProcessedContent)
    (bound : Q) (wanted : pystr) :
  ((forall q, other_attr (VNum q) (u "real") = Some (VNum q)) ->
   apply_filters contents
     [(u "importance_score.real", VDict [(u "$gte", VNum bound)])]
   = Ok (List.filter (fun c => Qle_bool bound (importance_score c)) contents)) /\
  ((forall c, In c contents ->
               exists id, other_attr (VStr (title c)) (u "upper")
                          = Some (VOther id)) ->
   (contents <> [] ->
    apply_filters contents [(u "title.upper", VDict [(u "$gte", VNum bound)])]
    = Raise TypeError) /\
   apply_filters contents [(u "title.upper", VStr wanted)] = Ok []).
Proof.
  split.
  - intros Hreal. cbn [apply_filters]. unfold apply_filter.
    change (dict_get [(u "$gte", VNum bound)] (u "$gte")) with (Some (VNum bound)).
    cbv beta iota.
    rewrite (filter_m_total _ (fun c => Qle_bool bound (importance_score c)));
      [reflexivity|].
    intros c. unfold _get_nested_value.
    change (split_on 46%N (u "importance_score.real"))
      with [u "importance_score"; u "real"].
    destruct (content_obj_field c (u "importance_score") _
                (or_introl (conj eq_refl eq_refl))) as (fields & -> & Hget).
    cbn [walk_path py_getattr]. rewrite Hget. cbn [py_getattr].
    rewrite Hreal. reflexivity.
  - intros Hupper.
    assert (Hget : forall c, In c contents -> exists id,
               _get_nested_value (content_obj c) (u "title.upper") VNone
               = VOther id).
    { intros c Hc. unfold _get_nested_value.
      change (split_on 46%N (u "title.upper")) with [u "title"; u "upper"].
      destruct (content_obj_field c (u "title") _
                  (or_intror (conj eq_refl eq_refl))) as (fields & -> & Hget).
      cbn [walk_path py_getattr]. rewrite Hget. cbn [py_getattr].
      destruct (Hupper c Hc) as [id ->]. eauto. }
    clear Hupper. split.
    + intros Hne. destruct contents as [|c contents]; [congruence|].
      cbn [apply_filters]. unfold apply_filter.
      change (dict_get [(u "$gte", VNum bound)] (u "$gte"))
        with (Some (VNum bound)).
      cbv beta iota. cbn [filter_m].
      destruct (Hget c (or_introl eq_refl)) as [id ->]. reflexivity.
    + cbn [apply_filters]. unfold apply_filter. cbn [mbind result_bind].
      f_equal. induction contents as [|c contents IH]; [reflexivity|].
      cbn [List.filter]. destruct (Hget c (or_introl eq_refl)) as [id ->].
      apply IH. intros c' Hc'. apply Hget. right. exact Hc'.
Qed.

End Filters.

(** The two paths on the sample document. *)
Lemma attribute_paths_of_builtin_values_witness :
  apply_filters Samples.blank_attrs [Samples.blank]
    [(u "importance_score.real", VDict [(u "$gte", VNum 0.7)])] = Ok [] /\
  apply_filters Samples.blank_attrs [Samples.blank]
    [(u "title.upper", VDict [(u "$gte", VNum 0.7)])] = Raise TypeError.
Proof.
  split.
  - refine (proj1 (attribute_paths_of_builtin_values Samples.blank_attrs
                     [Samples.blank] 0.7 []) _).
    intros q. reflexivity.
  - refine (proj1 (proj2 (attribute_paths_of_builtin_values Samples.blank_attrs
                            [Samples.blank] 0.7 []) _) _).
    + intros c [<- | []]. exists 1%N. reflexivity.
    + discriminate.
Defined.

(** The filter on importance keeps a sublist. *)
Lemma apply_filters_sublist_witness :
  sublist [Samples.doc "b" 0.9]
          [Samples.doc "a" 0.5; Samples.doc "b" 0.9; Samples.doc "c" 0.6].
Proof.
  refine (proj1 (apply_filters_sublist Samples.data_attrs
                   [Samples.doc "a" 0.5; Samples.doc "b" 0.9; Samples.doc "c" 0.6]
                   [Samples.doc "b" 0.9]
                   [(u "importance_score", VDict [(u "$gte", VNum 0.7)])] []) _).
  reflexivity.
Defined.

(** The section "company updates" over a document about OpenAI. *)
Lemma entities_label_filter_selects_nothing_witness :
  apply_filters Samples.data_attrs
    [Samples.about "paper" "GPT" "OpenAI" "研究"]
    [(u "entities.label", VStr (u "ORG"))] = Ok [].
Proof.
  refine (entities_label_filter_selects_nothing Samples.data_attrs
            [Samples.about "paper" "GPT" "OpenAI" "研究"] (u "ORG") _ _);
    reflexivity.
Defined.


(** *** [calculate_statistics] *)

Lemma count_up_total counts key :
  total_counted (count_up counts key) = S (total_counted counts).
Proof.
  induction counts as [|[k n] counts IH]; cbn [count_up total_counted fold_right snd].
  - reflexivity.
  - destruct (py_eq k key); cbn [total_counted fold_right snd].
    + reflexivity.
    + fold (total_counted (count_up counts key)). rewrite IH.
      fold (total_counted counts). lia.
Qed.

Lemma source_counts_total contents counts :
  total_counted
    (fold_left
       (fun stats c =>
          count_up stats
            (VStr (match source c with
                   | Some ((_ :: _) as s) => s
                   | _ => u "未知来源"
                   end)))
       contents counts)
  = (total_counted counts + length contents)%nat.
Proof.
  revert counts. induction contents as [|c contents IH]; intros counts;
    cbn [fold_left length]; [lia|].
  rewrite IH, count_up_total. lia.
Qed.

Lemma category_counts_total contents counts :
  total_counted
    (fold_left
       (fun stats c =>
          fold_left (fun s cat => count_up s (VStr cat)) (categories c) stats)
       contents counts)
  = (total_counted counts + length (concat (map categories contents)))%nat.
Proof.
  revert counts. induction contents as [|c contents IH]; intros counts;
    cbn [fold_left map concat]; [cbn; lia|].
  rewrite IH, length_app.
  assert (H : forall cats st,
             total_counted (fold_left (fun s cat => count_up s (VStr cat)) cats st)
             = (total_counted st + length cats)%nat).
  { induction cats as [|cat cats IHc]; intros st; cbn [fold_left length]; [lia|].
    rewrite IHc, count_up_total. lia. }
  rewrite H. lia.
Qed.



(** *** [deduplicate_by_title] *)

Section DedupMore.

Variable lower : pystr -> pystr.

Local Abbreviation norm := (normalized_title lower).

Lemma dedup_loop_sublist seen contents :
  sublist (dedup_loop lower seen contents) contents.
Proof.
  revert seen. induction contents as [|c contents IH]; intros seen;
    cbn [dedup_loop]; [constructor|].
  destruct (decide _); [apply sublist_cons | apply sublist_skip]; apply IH.
Qed.

Lemma dedup_loop_fresh seen contents c :
  c ∈ dedup_loop lower seen contents -> norm c ∉ seen.
Proof.
  revert seen. induction contents as [|d contents IH]; intros seen;
    cbn [dedup_loop]; [intros H; inversion H|].
  fold (norm d). destruct (decide (norm d ∈ seen)) as [Hin | Hnot].
  - apply IH.
  - rewrite elem_of_cons. intros [-> | H]; [exact Hnot|].
    apply IH in H. set_solver.
Qed.

Lemma dedup_loop_nodup seen contents :
  NoDup (map norm (dedup_loop lower seen contents)).
Proof.
  revert seen. induction contents as [|d contents IH]; intros seen;
    cbn [dedup_loop]; [constructor|].
  fold (norm d). destruct (decide (norm d ∈ seen)) as [Hin | Hnot]; [apply IH|].
  cbn [map]. constructor; [|apply IH].
  intros Hd. apply list_elem_of_fmap in Hd as (c & Hc & Hin).
  apply dedup_loop_fresh in Hin. set_solver.
Qed.

Lemma dedup_loop_covers seen contents c :
  c ∈ contents ->
  norm c ∈ seen \/ exists c', c' ∈ dedup_loop lower seen contents /\ norm c' = norm c.
Proof.
  revert seen. induction contents as [|d contents IH]; intros seen;
    [intros H; inversion H|].
  cbn [dedup_loop]. fold (norm d). rewrite elem_of_cons. intros [-> | Hin].
  - destruct (decide (norm d ∈ seen)) as [Hs | Hs]; [left; exact Hs|].
    right. exists d. split; [left | reflexivity].
  - destruct (decide (norm d ∈ seen)) as [Hs | Hs]; [apply IH; exact Hin|].
    destruct (IH ({[norm d]} ∪ seen) Hin) as [H | (c' & Hc' & Hn)].
    + apply elem_of_union in H as [H | H]; [|left; exact H].
      apply elem_of_singleton in H. right. exists d. split; [left | congruence].
    + right. exists c'. split; [right; exact Hc' | exact Hn].
Qed.

Lemma dedup_loop_idempotent seen contents :
  dedup_loop lower seen (dedup_loop lower seen contents)
  = dedup_loop lower seen contents.
Proof.
  revert seen. induction contents as [|d contents IH]; intros seen;
    cbn [dedup_loop]; [reflexivity|].
  fold (norm d). destruct (decide (norm d ∈ seen)) as [Hs | Hs]; [apply IH|].
  cbn [dedup_loop]. fold (norm d). rewrite decide_False by exact Hs.
  f_equal. apply IH.
Qed.

(** X19: [deduplicate_by_title] returns a sublist of the corpus in which
    no two documents have the same lower-cased, stripped title and in which
    every document of the corpus has a representative with its title;
    deduplicating the result again changes nothing. *)
Theorem deduplicate_by_title_canonical (contents : list ProcessedContent)
    (t : Q) (c : ProcessedContent) :
  sublist (deduplicate_by_title lower contents t) contents /\
  NoDup (map norm (deduplicate_by_title lower contents t)) /\
  (In c contents ->
   exists c', In c' (deduplicate_by_title lower contents t) /\ norm c' = norm c) /\
  deduplicate_by_title lower (deduplicate_by_title lower contents t) t
  = deduplicate_by_title lower contents t.
Proof.
  assert (Hloop : forall l, deduplicate_by_title lower l t = dedup_loop lower ∅ l).
  { intros [|x l]; reflexivity. }
  rewrite !Hloop. split; [apply dedup_loop_sublist|].
  split; [apply dedup_loop_nodup|]. split; [|apply dedup_loop_idempotent].
  intros Hin. apply list_elem_of_In in Hin.
  destruct (dedup_loop_covers ∅ contents c Hin) as [H | (c' & Hc' & Hn)];
    [set_solver|].
  exists c'. split; [apply list_elem_of_In; exact Hc' | exact Hn].
Qed.

End DedupMore.

(** Two documents titled "AI News" and " ai news ": the first stands for
    both. *)
Lemma deduplicate_by_title_canonical_witness :
  deduplicate_by_title ascii_lower
    [Samples.doc "AI News" 0.5; Samples.doc " ai news " 0.9] 0.9
  = [Samples.doc "AI News" 0.5] /\
  exists c', In c' (deduplicate_by_title ascii_lower
                      [Samples.doc "AI News" 0.5; Samples.doc " ai news " 0.9] 0.9)
             /\ normalized_title ascii_lower c'
                = normalized_title ascii_lower (Samples.doc " ai news " 0.9).
Proof.
  split; [reflexivity|].
  refine (proj1 (proj2 (proj2 (deduplicate_by_title_canonical ascii_lower
            [Samples.doc "AI News" 0.5; Samples.doc " ai news " 0.9] 0.9
            (Samples.doc " ai news " 0.9)))) _).
  right. left. reflexivity.
Defined.

End AggregatorExtra.

(** ** DataProcessor *)

Module ProcessorExtra.

Import ContentCleaner Redis DataProcessor ProcessorProps.

Section Processor.

Variable md5_hex : pystr -> pystr.
Variable sha256_hex : pystr -> pystr.
Variable clean : pystr -> CleaningResult.
Variable extract_keywords : pystr -> Z -> pystr -> result (list Keyword).
Variable extract_entities : pystr -> result (list Entity).
Variable extract_topics : pystr -> result (list pystr).
Variable calculate_importance : ProcessedContent -> Q.
Variable analyze_sentiment : pystr -> list (pystr * pyval).
Variable categorize_content : list Keyword -> list pystr -> list pystr -> list pystr.
Variable merge_tags : list pystr -> list Keyword -> list pystr.
Variable generate_summary : pystr -> pystr.

Local Abbreviation build := (build_content sha256_hex clean extract_keywords
                     extract_entities extract_topics calculate_importance
                     analyze_sentiment categorize_content merge_tags
                     generate_summary).
Local Abbreviation process := (process_content md5_hex sha256_hex clean
                       extract_keywords extract_entities extract_topics
                       calculate_importance analyze_sentiment
                       categorize_content merge_tags generate_summary).
Local Abbreviation content_hash := (_calculate_content_hash sha256_hex).
Local Abbreviation duplicate := (is_duplicate sha256_hex).

(** What the pipeline hands back when it produces a content. *)
Lemma build_content_result now d p h :
  build now d = Ok (Some (p, h)) ->
  h = content_hash (cleaned_content p) /\
  cleaned_content p = cr_cleaned_content (clean (default [] (cd_content d))) /\
  50 <= len (cleaned_content p) /\
  title p = cd_title d /\
  content_id p = data_id d /\
  url p = Some (cd_url d) /\
  publish_time p = cd_publish_time d /\
  processing_time p = Some (utc now) /\
  source_authority p = 0.7%Q /\
  quality_score p
  = Some (VNum (cr_quality_score (clean (default [] (cd_content d))))).
Proof.
  unfold build_content.
  destruct (Z.ltb_spec
              (len (cr_cleaned_content (clean (default [] (cd_content d))))) 50)
    as [Hshort | Hlong]; [discriminate|].
  destruct (extract_keywords _ 20 (u "AI")) as [kws|e];
    cbn [mbind result_bind]; [|discriminate].
  destruct (extract_entities _) as [ents|e];
    cbn [mbind result_bind]; [|discriminate].
  destruct (extract_topics _) as [topics|e];
    cbn [mbind result_bind]; [|discriminate].
  intros [= <- <-]. cbn. repeat split; try reflexivity. exact Hlong.
Qed.

Lemma build_content_sentiment now d p h :
  build now d = Ok (Some (p, h)) ->
  sentiment p = Some (analyze_sentiment (cleaned_content p)).
Proof.
  unfold build_content.
  destruct (len (cr_cleaned_content (clean (default [] (cd_content d)))) <? 50);
    [discriminate|].
  destruct (extract_keywords _ 20 (u "AI")) as [kws|e];
    cbn [mbind result_bind]; [|discriminate].
  destruct (extract_entities _) as [ents|e];
    cbn [mbind result_bind]; [|discriminate].
  destruct (extract_topics _) as [topics|e];
    cbn [mbind result_bind]; [|discriminate].
  intros [= <- <-]. reflexivity.
Qed.

(** X20: every document [process_content] emits has the title, the id,
    the URL and the publish time of the item it was made from, at least 50
    characters of cleaned text, which are the cleaner's output for the body,
    the source authority 0.7 and the [now] of the call, an aware time, as
    processing time. *)
Theorem process_content_output now rc d p :
  fst (process now rc d) = Some p ->
  title p = cd_title d /\ title p <> [] /\
  content_id p = data_id d /\
  url p = Some (cd_url d) /\
  publish_time p = cd_publish_time d /\
  processing_time p = Some (utc now) /\
  cleaned_content p = cr_cleaned_content (clean (default [] (cd_content d))) /\
  50 <= len (cleaned_content p) /\
  source_authority p = 0.7%Q.
Proof.
  intros H. apply process_content_emits in H as (Ht & _ & h & Hb).
  apply build_content_result in Hb
    as (_ & Hc & Hlen & Htitle & Hid & Hurl & Hpub & Hproc & Hauth & _).
  repeat split; try assumption. congruence.
Qed.

(** X21: the cache is best effort.  Without a client, or with a server
    that does not answer, [process_content] returns what it returns on an
    empty cache, leaves the client as it was, and so emits the same
    document again when it is given it again. *)
Theorem process_content_without_cache now rc d :
  (rc = None \/ exists r, rc = Some r /\ reachable r = false) ->
  process_content md5_hex sha256_hex clean extract_keywords extract_entities
    extract_topics calculate_importance analyze_sentiment categorize_content
    merge_tags generate_summary now rc d
  = (fst (process now None d), rc) /\
  fst (process now (snd (process now rc d)) d) = fst (process now rc d).
Proof.
  intros Hrc.
  assert (Hseen : _is_already_processed md5_hex rc (cd_url d) = false).
  { destruct Hrc as [-> | (r & -> & Hr)]; [reflexivity|].
    unfold _is_already_processed, exists_. rewrite Hr.
    destruct (cd_url d); reflexivity. }
  assert (Hmark : forall h, _mark_as_processed md5_hex rc (cd_url d) h = rc).
  { intros h. destruct Hrc as [-> | (r & -> & Hr)]; [reflexivity|].
    unfold _mark_as_processed, set. rewrite Hr.
    destruct (cd_url d); reflexivity. }
  assert (Heq : process now rc d = (fst (process now None d), rc)).
  { unfold process_content. destruct (cd_title d) as [|t ts]; [reflexivity|].
    rewrite Hseen. cbn [_is_already_processed].
    destruct (build now d) as [[[p h]|]|e]; try reflexivity.
    cbn [fst]. rewrite Hmark. reflexivity. }
  split; [exact Heq|]. rewrite Heq. cbn [snd fst]. rewrite Heq. reflexivity.
Qed.

Lemma is_duplicate_live (r : RedisClient) (content : pystr) :
  reachable r = true ->
  duplicate (Some r) content
  = if bool_decide (is_Some (db r !! hash_key (content_hash content)))
    then (true, Some r)
    else (false,
          Some {| reachable := true;
                  db := <[hash_key (content_hash content)
                          := (u "1", Some dedup_expire)]> (db r) |}).
Proof.
  intros Hlive. unfold is_duplicate, exists_, set. rewrite Hlive.
  cbn [mbind result_bind].
  destruct (bool_decide (is_Some (db r !! hash_key (content_hash content))));
    reflexivity.
Qed.

(** X22: [is_duplicate] is a test-and-set on the content hash.  On a
    server that answers, the first call reports whether the hash was
    stored and stores it; from then on [is_duplicate] answers [True] for
    every text with the same words, however they are spaced.  Without a
    client it answers [False]. *)
Theorem is_duplicate_test_and_set (r : RedisClient) (content content' : pystr) :
  reachable r = true ->
  split_ws content' = split_ws content ->
  fst (duplicate (Some r) content)
  = bool_decide (is_Some (db r !! hash_key (content_hash content))) /\
  fst (duplicate (snd (duplicate (Some r) content)) content') = true /\
  duplicate None content = (false, None).
Proof.
  intros Hlive Hwords.
  assert (Hhash : content_hash content' = content_hash content).
  { unfold _calculate_content_hash. rewrite Hwords. reflexivity. }
  rewrite (is_duplicate_live r content Hlive).
  destruct (bool_decide (is_Some (db r !! hash_key (content_hash content))))
    eqn:Hfound; cbn [fst snd].
  - split; [reflexivity|]. split; [|reflexivity].
    rewrite (is_duplicate_live r content' Hlive), Hhash, Hfound. reflexivity.
  - split; [reflexivity|]. split; [|reflexivity].
    rewrite is_duplicate_live by reflexivity. cbn [db]. rewrite Hhash.
    rewrite lookup_insert_eq, bool_decide_eq_true_2 by eauto. reflexivity.
Qed.

(** X23: what [process_content] stores, [is_duplicate] finds: after a
    document with a URL was emitted on a server that answers,
    [is_duplicate] answers [True] for its cleaned text. *)
Theorem emitted_content_is_duplicate now r d p :
  reachable r = true ->
  cd_url d <> [] ->
  fst (process_content md5_hex sha256_hex clean extract_keywords extract_entities
         extract_topics calculate_importance analyze_sentiment categorize_content
         merge_tags generate_summary
         now (Some r) d) = Some p ->
  fst (duplicate (snd (process now (Some r) d)) (cleaned_content p)) = true.
Proof.
  intros Hlive Hurl Hp.
  apply process_content_emits in Hp as (Ht & Hnew & h & Hb).
  rewrite (process_content_marks _ _ _ _ _ _ _ _ _ _ _ _ _ _ _ _ Ht Hnew Hb).
  cbn [snd].
  destruct (mark_as_processed_live md5_hex r (cd_url d) h Hlive Hurl)
    as (r' & -> & Hlive' & Hdb).
  apply build_content_result in Hb as (-> & _).
  rewrite (is_duplicate_live r' _ Hlive'), Hdb, lookup_insert_eq.
  rewrite bool_decide_eq_true_2 by eauto. reflexivity.
Qed.

End Processor.

(** A client whose server does not answer. *)
Lemma process_content_without_cache_witness :
  let down := {| reachable := false; db := ∅ |} in
  snd (process_content (fun s => s) (fun s => s) Samples.plain_clean
         (fun _ _ _ => Ok []) (fun _ => Ok []) (fun _ => Ok [])
         (fun _ => 0.5%Q) (fun _ => []) (fun _ _ _ => []) (fun _ _ => [])
         (fun s => s) 0 (Some down)
         (Samples.item "first" Samples.sixty "https://a.example/1"))
  = Some down.
Proof.
  intros down.
  pose proof (process_content_without_cache
                (fun s => s) (fun s => s) Samples.plain_clean
                (fun _ _ _ => Ok []) (fun _ => Ok []) (fun _ => Ok [])
                (fun _ => 0.5%Q) (fun _ => []) (fun _ _ _ => []) (fun _ _ => [])
                (fun s => s) 0 (Some down)
                (Samples.item "first" Samples.sixty "https://a.example/1")) as H.
  destruct H as [Heq _].
  - right. exists down. split; reflexivity.
  - rewrite Heq. reflexivity.
Defined.

(** The test of the repository: the same text twice on an empty server,
    the second time with other spacing. *)
Lemma is_duplicate_test_and_set_witness :
  fst (is_duplicate (fun s => s)
         (snd (is_duplicate (fun s => s) (Some Samples.empty_server) (u "AI news")))
         (u " AI   news ")) = true.
Proof.
  refine (proj1 (proj2 (is_duplicate_test_and_set (fun s => s)
                          Samples.empty_server (u "AI news") (u " AI   news ")
                          _ _))).
  - reflexivity.
  - vm_compute. reflexivity.
Defined.

(** Sixty characters fetched from one address. *)
Lemma process_content_output_witness :
  fst (process_content (fun s => s) (fun s => s) Samples.plain_clean
         (fun _ _ _ => Ok []) (fun _ => Ok []) (fun _ => Ok [])
         (fun _ => 0.5%Q) (fun _ => []) (fun _ _ _ => []) (fun _ _ => [])
         (fun s => s) 0 None
         (Samples.item "first" Samples.sixty "https://a.example/1"))
  = Some Samples.first_processed /\
  50 <= len (cleaned_content Samples.first_processed).
Proof.
  assert (H : fst (process_content (fun s => s) (fun s => s) Samples.plain_clean
                     (fun _ _ _ => Ok []) (fun _ => Ok []) (fun _ => Ok [])
                     (fun _ => 0.5%Q) (fun _ => []) (fun _ _ _ => [])
                     (fun _ _ => []) (fun s => s) 0 None
                     (Samples.item "first" Samples.sixty "https://a.example/1"))
              = Some Samples.first_processed)
    by (vm_compute; reflexivity).
  split; [exact H|].
  apply (process_content_output _ _ _ _ _ _ _ _ _ _ _ _ _ _ _ H).
Defined.

(** The same item on an empty server. *)
Lemma emitted_content_is_duplicate_witness :
  fst (is_duplicate (fun s => s)
         (snd (process_content (fun s => s) (fun s => s) Samples.plain_clean
                 (fun _ _ _ => Ok []) (fun _ => Ok []) (fun _ => Ok [])
                 (fun _ => 0.5%Q) (fun _ => []) (fun _ _ _ => []) (fun _ _ => [])
                 (fun s => s) 0 (Some Samples.empty_server)
                 (Samples.item "first" Samples.sixty "https://a.example/1")))
         (cr_cleaned_content (Samples.plain_clean Samples.sixty))) = true.
Proof.
  refine (emitted_content_is_duplicate (fun s => s) (fun s => s)
            Samples.plain_clean (fun _ _ _ => Ok []) (fun _ => Ok [])
            (fun _ => Ok []) (fun _ => 0.5%Q) (fun _ => []) (fun _ _ _ => [])
            (fun _ _ => []) (fun s => s) 0 Samples.empty_server
            (Samples.item "first" Samples.sixty "https://a.example/1")
            Samples.first_processed _ _ _).
  - reflexivity.
  - vm_compute. discriminate.
  - vm_compute. reflexivity.
Defined.

(** *** The private helpers *)

Lemma rfind_from_spec (c : N) (s : pystr) (i found : Z) :
  rfind_from c s i found = found \/
  (i <= rfind_from c s i found < i + Z.of_nat (length s) /\
   s !! Z.to_nat (rfind_from c s i found - i) = Some c).
Proof.
  revert i found. induction s as [|x s IH]; intros i found; cbn [rfind_from].
  - left. reflexivity.
  - destruct (IH (i + 1) (if (x =? c)%N then i else found)) as [-> | [Hr Hl]].
    + destruct (N.eqb_spec x c) as [-> | Hne]; [right | left; reflexivity].
      split; [cbn [length]; lia|].
      replace (i - i) with 0 by lia. reflexivity.
    + right. split; [cbn [length]; lia|].
      replace (Z.to_nat (rfind_from c s (i + 1) (if (x =? c)%N then i else found) - i))
        with (S (Z.to_nat (rfind_from c s (i + 1)
                             (if (x =? c)%N then i else found) - (i + 1))))
        by lia.
      exact Hl.
Qed.

Lemma rfind_spec (c : N) (s : pystr) :
  rfind c s = -1 \/
  (0 <= rfind c s < Z.of_nat (length s) /\ s !! Z.to_nat (rfind c s) = Some c).
Proof.
  unfold rfind. destruct (rfind_from_spec c s 0 (-1)) as [H | [Hr Hl]];
    [left; exact H | right].
  split; [lia|]. rewrite Z.sub_0_r in Hl. exact Hl.
Qed.

(** X24: [_generate_summary] returns a text of at most 200 characters as
    it is.  Of a longer text it returns either the first 200 characters
    followed by "...", or the text up to and including a full stop
    ("。" or ".") that lies after the first 101 and within the first 200
    characters; never more than 203 characters. *)
Theorem generate_summary_shape (content : pystr) :
  (len content <= 200 -> _generate_summary content = content) /\
  (200 < len content ->
   _generate_summary content = take 200 content ++ u "..." \/
   exists p : nat,
     (100 < p < 200)%nat /\
     _generate_summary content = take (S p) content /\
     (content !! p = Some 12290%N \/ content !! p = Some 46%N)) /\
  len (_generate_summary content) <= 203.
Proof.
  unfold _generate_summary, len.
  destruct (Z.leb_spec (Z.of_nat (length content)) 200) as [Hshort | Hlong].
  - split; [reflexivity|]. split; [lia | lia].
  - change (slice_to content 200) with (take 200 content).
    set (s := take 200 content).
    assert (Hs : length s = 200%nat) by (subst s; rewrite length_take; lia).
    set (lp := if rfind 12290%N s =? -1 then rfind 46%N s else rfind 12290%N s).
    assert (Hlp : lp = -1 \/
                  (0 <= lp < 200 /\
                   (s !! Z.to_nat lp = Some 12290%N \/ s !! Z.to_nat lp = Some 46%N))).
    { subst lp. destruct (Z.eqb_spec (rfind 12290%N s) (-1)) as [_ | Hne].
      - destruct (rfind_spec 46%N s) as [H | [Hr Hl]]; [left; exact H | right].
        split; [lia | right; exact Hl].
      - destruct (rfind_spec 12290%N s) as [H | [Hr Hl]]; [congruence | right].
        split; [lia | left; exact Hl]. }
    destruct (Z.ltb_spec 100 lp) as [Hfar | Hnear].
    + destruct Hlp as [Hlp | [Hrange Hchar]]; [lia|].
      assert (Hcut : slice_to s (lp + 1) = take (S (Z.to_nat lp)) content).
      { unfold slice_to. destruct (Z.leb_spec 0 (lp + 1)); [|lia].
        replace (Z.to_nat (lp + 1)) with (S (Z.to_nat lp)) by lia.
        subst s. rewrite take_take. f_equal. lia. }
      split; [lia|]. split.
      * intros _. right. exists (Z.to_nat lp). split; [lia|].
        split; [exact Hcut|].
        subst s. rewrite lookup_take in Hchar by lia.
        destruct (decide (Z.to_nat lp < 200)%nat); [exact Hchar | lia].
      * rewrite Hcut, length_take. lia.
    + split; [lia|]. split; [intros _; left; reflexivity|].
      rewrite length_app, Hs.
      replace (length (u "...")) with 3%nat by (vm_compute; reflexivity). lia.
Qed.

(** A text of 250 characters without a full stop. *)
Lemma generate_summary_shape_witness :
  _generate_summary (replicate 250 97%N) = replicate 200 97%N ++ u "...".
Proof.
  destruct (proj1 (proj2 (generate_summary_shape (replicate 250 97%N))))
    as [H | (p & _ & _ & [H | H])].
  - vm_compute. reflexivity.
  - exact H.
  - apply lookup_replicate in H as [H _]. discriminate H.
  - apply lookup_replicate in H as [H _]. discriminate H.
Defined.

Section Helpers.

Variable lower : pystr -> pystr.

(** X25: [_analyze_sentiment] always labels a text "positive",
    "negative" or "neutral", with a confidence between 0.6 and 0.9. *)
Theorem analyze_sentiment_label (text : pystr) :
  exists (label : pystr) (confidence : Q),
    dict_get (_analyze_sentiment lower text) (u "label") = Some (VStr label) /\
    (label = u "positive" \/ label = u "negative" \/ label = u "neutral") /\
    dict_get (_analyze_sentiment lower text) (u "confidence")
    = Some (VNum confidence) /\
    (0.6 <= confidence <= 0.9)%Q.
Proof.
  unfold _analyze_sentiment.
  set (pos := count_words positive_words (lower text)).
  set (neg := count_words negative_words (lower text)).
  assert (Hpos : 0 <= pos) by (subst pos; unfold count_words; lia).
  assert (Hneg : 0 <= neg) by (subst neg; unfold count_words; lia).
  assert (Hconf : forall n, 1 <= n ->
            (0.6 <= py_min 0.9 (0.5 + inject_Z n * 0.1) <= 0.9)%Q).
  { intros n Hn. assert (1 <= inject_Z n)%Q.
    { change 1%Q with (inject_Z 1). rewrite <- Zle_Qle. exact Hn. }
    generalize dependent (inject_Z n). intros x Hx.
    unfold py_min. destruct (Qle_bool 0.9 (0.5 + x * 0.1)) eqn:Hle; [lra|].
    assert (~ (0.9 <= 0.5 + x * 0.1)%Q) by (rewrite <- Qle_bool_iff; congruence).
    lra. }
  destruct (Z.ltb_spec neg pos) as [H1 | H1].
  - eexists. eexists. split; [reflexivity|]. split; [auto|].
    split; [reflexivity|]. apply Hconf. lia.
  - destruct (Z.ltb_spec pos neg) as [H2 | H2].
    + eexists. eexists. split; [reflexivity|]. split; [auto|].
      split; [reflexivity|]. apply Hconf. lia.
    + eexists. eexists. split; [reflexivity|]. split; [auto|].
      split; [reflexivity|]. lra.
Qed.

Lemma categories_of_topics (topics : list pystr) (acc : gset pystr) :
  fold_left
    (fun acc topic =>
       match dict_get topic_category_map topic with
       | Some category => {[category]} ∪ acc
       | None => acc
       end)
    topics acc
  ⊆ {[u "技术"; u "应用"]} ∪ acc.
Proof.
  revert acc. induction topics as [|topic topics IH]; intros acc;
    cbn [fold_left]; [set_solver|].
  etransitivity; [apply IH|].
  destruct (dict_get topic_category_map topic) as [category|] eqn:Hget;
    [|set_solver].
  assert (category = u "技术" \/ category = u "应用").
  { unfold topic_category_map in Hget. cbn [dict_get] in Hget.
    repeat match type of Hget with
           | context [decide (?a = ?b)] => destruct (decide (a = b))
           end; try discriminate Hget; injection Hget as <-; auto. }
  set_solver.
Qed.

(** X26: [_categorize_content] never returns an empty set of
    categories: every category comes from the six the function knows, the
    default "行业动态" stands alone when it is there, and the tags it is
    given play no part. *)
Theorem categorize_content_nonempty (kws : list Keyword)
    (topics tags tags' : list pystr) :
  _categorize_content lower kws topics tags <> ∅ /\
  _categorize_content lower kws topics tags
  ⊆ {[u "技术"; u "应用"; u "研究"; u "产品"; u "投资"; u "行业动态"]} /\
  (u "行业动态" ∈ _categorize_content lower kws topics tags ->
   _categorize_content lower kws topics tags = {[u "行业动态"]}) /\
  _categorize_content lower kws topics tags
  = _categorize_content lower kws topics tags'.
Proof.
  unfold _categorize_content.
  pose proof (categories_of_topics topics ∅) as Htopics.
  set (c0 := fold_left _ topics ∅) in *.
  set (terms := map (fun kw => lower (term kw)) kws).
  set (c1 := if any_term_in _ terms then {[u "研究"]} ∪ c0 else c0).
  set (c2 := if any_term_in _ terms then {[u "产品"]} ∪ c1 else c1).
  set (c3 := if any_term_in _ terms then {[u "投资"]} ∪ c2 else c2).
  assert (H3 : c3 ⊆ {[u "技术"; u "应用"; u "研究"; u "产品"; u "投资"]}).
  { subst c3 c2 c1.
    repeat match goal with
           | |- context [if ?b then _ else _] => destruct b
           end; set_solver. }
  assert (Hdefault : u "行业动态" ∉ c3).
  { intros Hin. apply H3 in Hin.
    rewrite !elem_of_union, !elem_of_singleton in Hin.
    destruct Hin as [[[[H | H] | H] | H] | H]; vm_compute in H; discriminate H. }
  destruct (decide (c3 = ∅)) as [Hempty | Hne].
  - split; [set_solver|]. split; [set_solver|]. split; reflexivity.
  - split; [exact Hne|]. split; [set_solver|]. split; [|reflexivity].
    intros Hin. contradiction.
Qed.

End Helpers.

(** X27: [_merge_tags] keeps every original tag and adds nothing but
    terms of the first five keywords whose score is above 0.5. *)
Theorem merge_tags_bounds (original_tags : list pystr) (kws : list Keyword)
    (tag : pystr) :
  (tag ∈ original_tags -> tag ∈ _merge_tags original_tags kws) /\
  (tag ∈ _merge_tags original_tags kws ->
   tag ∈ original_tags \/
   exists kw, kw ∈ take 5 kws /\ (0.5 < score kw)%Q /\ term kw = tag).
Proof.
  unfold _merge_tags. change (slice_to kws 5) with (take 5 kws).
  generalize (take 5 kws). intros first.
  assert (H : forall (tags : gset pystr),
    tag ∈ fold_left
            (fun tags kw =>
               if Qlt_le_dec 0.5 (score kw) then {[term kw]} ∪ tags else tags)
            first tags
    <-> tag ∈ tags
        \/ exists kw, kw ∈ first /\ (0.5 < score kw)%Q /\ term kw = tag).
  { induction first as [|kw first IH]; intros tags; cbn [fold_left].
    - split; [auto | intros [H | (kw & Hin & _)]; [exact H | inversion Hin]].
    - rewrite IH. destruct (Qlt_le_dec 0.5 (score kw)) as [Hhigh | Hlow].
      + rewrite elem_of_union, elem_of_singleton. split.
        * intros [[-> | H] | (k & Hin & Hs & Ht)]; [right | auto | right].
          -- exists kw. split; [left | auto].
          -- exists k. split; [right; exact Hin | auto].
        * intros [H | (k & Hin & Hs & Ht)]; [auto|].
          apply elem_of_cons in Hin as [-> | Hin]; [auto|].
          right. exists k. auto.
      + split.
        * intros [H | (k & Hin & Hs & Ht)]; [auto | right].
          exists k. split; [right; exact Hin | auto].
        * intros [H | (k & Hin & Hs & Ht)]; [auto|].
          apply elem_of_cons in Hin as [-> | Hin]; [lra|].
          right. exists k. auto. }
  rewrite H, elem_of_list_to_set. split; [auto | tauto].
Qed.

(** The tag "AI" with one strong and one weak keyword. *)
Lemma merge_tags_bounds_witness :
  u "AI" ∈ _merge_tags [u "AI"]
             [mkKeyword (u "GPT") 0.9 None; mkKeyword (u "news") 0.2 None].
Proof.
  refine (proj1 (merge_tags_bounds [u "AI"]
                   [mkKeyword (u "GPT") 0.9 None; mkKeyword (u "news") 0.2 None]
                   (u "AI")) _).
  left.
Defined.

(** No keyword and no topic: the default category. *)
Lemma categorize_content_nonempty_witness :
  _categorize_content ascii_lower [] [] [u "AI"] = {[u "行业动态"]}.
Proof.
  refine (proj1 (proj2 (proj2 (categorize_content_nonempty ascii_lower [] []
                                 [u "AI"] []))) _).
  vm_compute. reflexivity.
Defined.

(** *** The content hash *)

Lemma split_ws_aux_word (w rest cur : pystr) :
  Forall (fun c => is_space c = false) w ->
  split_ws_aux (w ++ rest) cur = split_ws_aux rest (rev w ++ cur).
Proof.
  revert cur. induction w as [|c w IH]; intros cur Hw; [reflexivity|].
  apply Forall_cons in Hw as [Hc Hw].
  cbn [app split_ws_aux]. rewrite Hc, (IH _ Hw).
  cbn [rev]. rewrite <- app_assoc. reflexivity.
Qed.

Lemma split_ws_aux_words (s cur : pystr) :
  Forall (fun c => is_space c = false) cur ->
  Forall is_word (split_ws_aux s cur).
Proof.
  revert cur. induction s as [|c s IH]; intros cur Hcur; cbn [split_ws_aux].
  - destruct cur as [|x cur]; [constructor|].
    constructor; [|constructor]. split.
    + intros H. apply (f_equal (@length N)) in H.
      rewrite length_rev in H. discriminate H.
    + apply Forall_rev. exact Hcur.
  - destruct (is_space c) eqn:Hc.
    + destruct cur as [|x cur]; [apply IH; constructor|].
      constructor; [|apply IH; constructor]. split.
      * intros H. apply (f_equal (@length N)) in H.
        rewrite length_rev in H. discriminate H.
      * apply Forall_rev. exact Hcur.
    + apply IH. constructor; assumption.
Qed.

Lemma split_ws_join (words : list pystr) :
  Forall is_word words -> split_ws (join (u " ") words) = words.
Proof.
  unfold split_ws. induction 1 as [|w words [Hne Hw] Hwords IH]; [reflexivity|].
  destruct words as [|w' words].
  - cbn [join]. rewrite <- (app_nil_r w) at 1.
    rewrite (split_ws_aux_word w [] [] Hw), app_nil_r. cbn [split_ws_aux].
    destruct (rev w) eqn:Hrev.
    + apply (f_equal (@length N)) in Hrev. rewrite length_rev in Hrev.
      destruct w; [congruence | discriminate Hrev].
    + rewrite <- Hrev, rev_involutive. reflexivity.
  - change (join (u " ") (w :: w' :: words))
      with (w ++ 32%N :: join (u " ") (w' :: words)).
    rewrite (split_ws_aux_word w _ [] Hw), app_nil_r.
    cbn [split_ws_aux]. change (is_space 32) with true. cbv iota.
    destruct (rev w) eqn:Hrev.
    + apply (f_equal (@length N)) in Hrev. rewrite length_rev in Hrev.
      destruct w; [congruence | discriminate Hrev].
    + rewrite <- Hrev, rev_involutive, IH. reflexivity.
Qed.

(** X28: the content hash reads the words of a text only: two texts
    with the same words have the same hash however the words are spaced,
    and a text has the hash of its normal form, the words joined by single
    spaces. *)
Theorem content_hash_normal_form (sha256_hex : pystr -> pystr)
    (content content' : pystr) :
  (split_ws content = split_ws content' ->
   _calculate_content_hash sha256_hex content
   = _calculate_content_hash sha256_hex content') /\
  _calculate_content_hash sha256_hex (join (u " ") (split_ws content))
  = _calculate_content_hash sha256_hex content.
Proof.
  unfold _calculate_content_hash. split.
  - intros ->. reflexivity.
  - rewrite split_ws_join; [reflexivity|].
    apply split_ws_aux_words. constructor.
Qed.

(** "AI news" with other spacing. *)
Lemma content_hash_normal_form_witness :
  _calculate_content_hash (fun s => s) (u " AI   news ")
  = _calculate_content_hash (fun s => s) (u "AI news").
Proof.
  refine (proj1 (content_hash_normal_form (fun s => s) (u " AI   news ")
                   (u "AI news")) _).
  vm_compute. reflexivity.
Defined.

End ProcessorExtra.

(** ** From the processor to the report *)

Module PipelineExtra.

Import ContentCleaner Redis DataProcessor PyVal ContentAggregator.
Import ProcessorProps AggregatorProps AggregatorExtra ProcessorExtra.

Section Pipeline.

Variable md5_hex : pystr -> pystr.
Variable sha256_hex : pystr -> pystr.
Variable lower : pystr -> pystr.
Variable clean : pystr -> CleaningResult.
Variable extract_keywords : pystr -> Z -> pystr -> result (list Keyword).
Variable extract_entities : pystr -> result (list Entity).
Variable extract_topics : pystr -> result (list pystr).
Variable calculate_importance : ProcessedContent -> Q.
Variable categorize_content : list Keyword -> list pystr -> list pystr -> list pystr.
Variable merge_tags : list pystr -> list Keyword -> list pystr.
Variable generate_summary : pystr -> pystr.

(** The processor with its own [_analyze_sentiment]. *)
Local Abbreviation process :=
  (process_content md5_hex sha256_hex clean extract_keywords extract_entities
     extract_topics calculate_importance (_analyze_sentiment lower)
     categorize_content merge_tags generate_summary).

Lemma analyze_sentiment_hashable (text : pystr) :
  exists kv d,
    _analyze_sentiment lower text = kv :: d /\
    hashable (default (VStr (u "neutral"))
                (dict_get (kv :: d) (u "label"))) = true.
Proof.
  unfold _analyze_sentiment.
  destruct (_ <? _); [|destruct (_ <? _)];
    eexists; eexists; (split; [reflexivity|]); reflexivity.
Qed.

Lemma emitted_sentiment_and_time now rc d p :
  fst (process now rc d) = Some p ->
  label_hashable p /\
  forall t, time_of p = Some t -> publish_time p = None -> aware t = true.
Proof.
  intros H. apply process_content_emits in H as (_ & _ & h & Hb).
  pose proof (build_content_sentiment _ _ _ _ _ _ _ _ _ _ _ _ _ _ Hb) as Hs.
  apply build_content_result in Hb as (_ & _ & _ & _ & _ & _ & _ & Hproc & _).
  split.
  - unfold label_hashable. rewrite Hs.
    destruct (analyze_sentiment_hashable (cleaned_content p))
      as (kv & dict & -> & Hh).
    exact Hh.
  - intros t Ht Hp. unfold time_of in Ht. rewrite Hp, Hproc in Ht.
    injection Ht as <-. reflexivity.
Qed.

(** X29: [calculate_statistics] on what the processor emitted.  It
    returns when every publish time among the documents is aware: the
    sentiment labels of the processor are strings and its processing times
    are aware.  It does not return when one document has a naive publish
    time and another has none: the naive time meets an aware processing
    time. *)
Theorem statistics_of_emitted (contents : list ProcessedContent) :
  (forall p, In p contents -> exists now rc d, fst (process now rc d) = Some p) ->
  ((forall p t, In p contents -> publish_time p = Some t -> aware t = true) ->
   exists st, calculate_statistics contents = Ok st) /\
  (forall p q t,
      In p contents -> In q contents ->
      publish_time p = Some t -> aware t = false -> publish_time q = None ->
      forall st, calculate_statistics contents <> Ok st).
Proof.
  intros Hemitted. split.
  - intros Haware. apply calculate_statistics_returns. split.
    + apply List.Forall_forall. intros p Hp.
      destruct (Hemitted p Hp) as (now & rc & d & H).
      apply (emitted_sentiment_and_time _ _ _ _ H).
    + unfold times_comparable. apply same_kind_pairwise.
      assert (Hall : forall t, In t (omap time_of contents) -> aware t = true).
      { intros t Ht. apply list_elem_of_In, list_elem_of_omap in Ht
          as (p & Hp & Ht).
        apply list_elem_of_In in Hp.
        destruct (publish_time p) as [t'|] eqn:Hpub.
        - unfold time_of in Ht. rewrite Hpub in Ht. injection Ht as <-.
          exact (Haware p t' Hp Hpub).
        - destruct (Hemitted p Hp) as (now & rc & d & H).
          exact (proj2 (emitted_sentiment_and_time _ _ _ _ H) t Ht Hpub). }
      intros a b Ha Hb. rewrite (Hall a Ha), (Hall b Hb). reflexivity.
  - intros p q t Hp Hq Hpub Hnaive Hnone st Hst.
    assert (Hret : exists st, calculate_statistics contents = Ok st) by eauto.
    apply calculate_statistics_returns in Hret as [_ Hkind].
    unfold times_comparable in Hkind. rewrite same_kind_pairwise in Hkind.
    destruct (Hemitted q Hq) as (now & rc & d & H).
    apply process_content_emits in H as (_ & _ & h & Hb).
    apply build_content_result in Hb as (_ & _ & _ & _ & _ & _ & _ & Hproc & _).
    assert (Ht : In t (omap time_of contents)).
    { apply list_elem_of_In, list_elem_of_omap. exists p.
      split; [apply list_elem_of_In; exact Hp|].
      unfold time_of. rewrite Hpub. reflexivity. }
    assert (Hn : In (utc now) (omap time_of contents)).
    { apply list_elem_of_In, list_elem_of_omap. exists q.
      split; [apply list_elem_of_In; exact Hq|].
      unfold time_of. rewrite Hnone. exact Hproc. }
    specialize (Hkind t (utc now) Ht Hn). rewrite Hnaive in Hkind.
    discriminate Hkind.
Qed.

End Pipeline.

(** One document, emitted from sixty letters. *)
Lemma statistics_of_emitted_witness :
  exists st, calculate_statistics [Samples.first_analysed] = Ok st.
Proof.
  refine (proj1 (statistics_of_emitted (fun s => s) (fun s => s) ascii_lower
                   Samples.plain_clean (fun _ _ _ => Ok []) (fun _ => Ok [])
                   (fun _ => Ok []) (fun _ => 0.5%Q) (fun _ _ _ => [])
                   (fun _ _ => []) (fun s => s) [Samples.first_analysed] _) _).
  - intros p [<- | []].
    exists 0, None, (Samples.item "first" Samples.sixty "https://a.example/1").
    vm_compute. reflexivity.
  - intros p t [<- | []]. discriminate.
Defined.

End PipelineExtra.
